(** * BabyBlur backend: upload route, generation controller, error handlers

    A shallow embedding of the Express application:
    - [routes/generate.js]: the multer callback of [POST /generate-image]
      (of its two revisions, which answer alike, the later one that also
      logs);
    - [controllers/generateController.js]: [generateBabyImage],
      [generatePrompt], [callOpenAIAPI], [callReplicateAPI],
      [cleanupUploadedFiles];
    - [index.js]: the global error handler.

    JavaScript values are a small tagged union, [process.env] and the
    upload directory are finite maps, exceptions and side effects (files,
    console, outbound provider calls) are threaded by a state-and-exception
    monad.  The two providers, the clock and the failure of [fs.unlinkSync]
    are answers of the outside world, collected in the record [World].
    Multer is a library: the route takes it as a parameter, and what the
    route relies on is stated as a contract, with a stand-in that honours
    it. *)

From Stdlib Require Import ZArith QArith String Ascii List Bool.
From stdpp Require Import base option gmap strings list fin_maps pretty.

Set Warnings "-register-all".
Local Open Scope Z_scope.
Local Open Scope string_scope.

(** ** JavaScript values *)

Inductive JsValue : Type :=
| VUndefined
| VNull
| VBool (b : bool)
| VNum (z : Z)
| VStr (s : string)
| VBuiltin (name : string)
| VArr (items : list JsValue)
| VObj (fields : list (string * JsValue)).

(** [!!v] is [false] exactly on [undefined], [null], [false], [0], [''].
    Built-ins (functions, [Object.prototype]), arrays and objects are truthy. *)
Definition truthy (v : JsValue) : bool :=
  match v with
  | VUndefined | VNull => false
  | VBool b => b
  | VNum z => negb (z =? 0)%Z
  | VStr s => negb (s =? "")%string
  | VBuiltin _ | VArr _ | VObj _ => true
  end.

(** [a || b] *)
Definition js_or (a b : JsValue) : JsValue := if truthy a then a else b.

(** [v === 'lit'] *)
Definition strict_eq_str (v : JsValue) (lit : string) : bool :=
  match v with VStr s => (s =? lit)%string | _ => false end.

(** [v === n] for an integer literal [n] *)
Definition strict_eq_num (v : JsValue) (n : Z) : bool :=
  match v with VNum z => (z =? n)%Z | _ => false end.

(** The value of a string-keyed slot that may be absent
    ([process.env.X], [req.body.x]). *)
Definition of_slot (o : option string) : JsValue :=
  match o with Some s => VStr s | None => VUndefined end.

Fixpoint assoc {A : Type} (k : string) (l : list (string * A)) : option A :=
  match l with
  | [] => None
  | (k', v) :: l' => if (k =? k')%string then Some v else assoc k l'
  end.

(** What every ordinary object inherits from [Object.prototype]: eleven
    functions and the [__proto__] accessor, which yields the prototype. *)
Definition object_prototype : list (string * JsValue) :=
  [ ("constructor", VBuiltin "Object");
    ("__defineGetter__", VBuiltin "Object.prototype.__defineGetter__");
    ("__defineSetter__", VBuiltin "Object.prototype.__defineSetter__");
    ("hasOwnProperty", VBuiltin "Object.prototype.hasOwnProperty");
    ("__lookupGetter__", VBuiltin "Object.prototype.__lookupGetter__");
    ("__lookupSetter__", VBuiltin "Object.prototype.__lookupSetter__");
    ("isPrototypeOf", VBuiltin "Object.prototype.isPrototypeOf");
    ("propertyIsEnumerable", VBuiltin "Object.prototype.propertyIsEnumerable");
    ("toString", VBuiltin "Object.prototype.toString");
    ("valueOf", VBuiltin "Object.prototype.valueOf");
    ("__proto__", VBuiltin "Object.prototype");
    ("toLocaleString", VBuiltin "Object.prototype.toLocaleString") ].

(** [obj[k]] on an object literal with own properties [own]: the own
    property if there is one, else the inherited one, else [undefined]. *)
Definition get_property (own : list (string * JsValue)) (k : string) : JsValue :=
  match assoc k own with
  | Some v => v
  | None => match assoc k object_prototype with
            | Some v => v
            | None => VUndefined
            end
  end.

(** [v.k] where [v] is known not to be [null] or [undefined], and [v?.k].
    Only data parsed from JSON flows through these, and the keys read
    ([error], [message], [code]) exist on no primitive wrapper or array. *)
Definition member (v : JsValue) (k : string) : JsValue :=
  match v with
  | VObj own => get_property own k
  | _ => VUndefined
  end.

(** [String.prototype.includes] *)
Fixpoint includes (needle hay : string) : bool :=
  if String.prefix needle hay then true
  else match hay with
       | EmptyString => false
       | String _ rest => includes needle rest
       end.

(** [s.replace('_', ' ')]: a string pattern replaces the first match only. *)
Fixpoint replace_first_underscore (s : string) : string :=
  match s with
  | EmptyString => EmptyString
  | String c rest =>
      if Ascii.eqb c "_"%char then String " "%char rest
      else String c (replace_first_underscore rest)
  end.

(** ** Prompt table: [generatePrompt] *)

Definition prompt_baby_blur : string :=
  "A candid iPhone selfie photo showing a complete family of three people: two parents with their small child around 4 years old. All three faces clearly visible, smiling naturally. Portrait orientation, photorealistic quality.".
Definition prompt_avatar : string :=
  "A high-quality 3D Pixar-style avatar character based on the person in the photo. Cute, stylized, colorful, professional digital art style. Clean background, front-facing view, vibrant colors, Disney/Pixar animation quality.".
Definition prompt_age_progression : string :=
  "A photorealistic portrait showing the same person aged 20 years older. Natural aging process, realistic wrinkles, mature features, same facial structure and characteristics, professional portrait photography quality.".
Definition prompt_age_regression : string :=
  "A photorealistic portrait showing the same person as a young child around 8 years old. Maintain same facial features and characteristics, innocent child-like expression, soft lighting, portrait photography quality.".
Definition prompt_pet_generator : string :=
  "A cute, friendly dog that would perfectly match the personality of the person in the photo. The dog should have similar facial expressions and personality traits. High-quality pet photography, adorable, heartwarming.".
Definition prompt_couple_generator : string :=
  "A photorealistic portrait of an attractive person who would be the perfect romantic partner match for the person in the photo. Complementary features, similar age, attractive, warm smile, professional portrait photography.".
Definition prompt_style_anime : string :=
  "Transform the person into a beautiful high-quality anime character. Japanese anime art style, detailed, vibrant colors, expressive eyes, professional anime illustration quality.".
Definition prompt_style_painting : string :=
  "Transform the person into a classical oil painting portrait. Renaissance painting style, masterpiece quality, rich colors, artistic brushwork, museum-quality classical art.".
Definition prompt_style_cartoon : string :=
  "Transform the person into a fun cartoon character. Colorful, exaggerated features, friendly expression, professional cartoon illustration style, vibrant and playful.".

(** The object literal [prompts] of [generatePrompt]. *)
Definition prompts : list (string * JsValue) :=
  [ ("baby_blur", VStr prompt_baby_blur);
    ("avatar", VStr prompt_avatar);
    ("age_progression", VStr prompt_age_progression);
    ("age_regression", VStr prompt_age_regression);
    ("pet_generator", VStr prompt_pet_generator);
    ("couple_generator", VStr prompt_couple_generator);
    ("style_anime", VStr prompt_style_anime);
    ("style_painting", VStr prompt_style_painting);
    ("style_cartoon", VStr prompt_style_cartoon) ].

(** [generatePrompt(transformationType, imageCount = 1)]:
    [prompts[transformationType] || prompts['avatar']]; [imageCount] is
    unused.  The argument serves as a property key only, so it is given here
    as the key it converts to (see [property_key]). *)
Definition generatePrompt (transformationType : string) (imageCount : nat) : JsValue :=
  js_or (get_property prompts transformationType) (get_property prompts "avatar").

(** The nine transformation identifiers of the specification. *)
Definition transformation_ids : list string :=
  [ "baby_blur"; "avatar"; "age_progression"; "age_regression"; "pet_generator";
    "couple_generator"; "style_anime"; "style_painting"; "style_cartoon" ].

(** ** Requests, responses, exceptions *)

(** A multer file handle ([req.files[i]]). *)
Record UploadedFile : Type := {
  file_path : string;
  file_filename : string;
  file_originalname : string;
  file_mimetype : string;
  file_size : Z
}.

(** A value of [req.body] as multer builds it from the text parts: the text
    of a field; an array when a name is repeated or ends in [[]] (with holes
    when a name carries an index, as in [x[3]]); an object without prototype
    when a name carries a key, as in [x[k]]. *)
Inductive FieldValue : Type :=
| FStr (s : string)
| FArr (items : list (option FieldValue))
| FObj (entries : list (string * FieldValue)).

(** [String(v)], which is also the property key [v] stands for.  An array
    is its elements joined by commas, a hole reading as the empty text; an
    object without prototype has neither [toString] nor [valueOf] to call
    (a field of that name is text, not a function), so the conversion
    throws: [None]. *)
Fixpoint field_text (v : FieldValue) : option string :=
  match v with
  | FStr s => Some s
  | FArr items =>
      (fix join (l : list (option FieldValue)) : option string :=
         match l with
         | [] => Some ""
         | x :: rest =>
             match match x with Some v' => field_text v' | None => Some "" end with
             | Some a =>
                 match rest with
                 | [] => Some a
                 | _ :: _ =>
                     match join rest with
                     | Some b => Some (a +:+ "," +:+ b)
                     | None => None
                     end
                 end
             | None => None
             end
         end) items
  | FObj _ => None
  end.

(** What the controller reads of [req]: [req.files] (absent when the request
    was not multipart) and the fields [req.body].  The body is read only
    once files are there, that is, after multer has built it. *)
Record Request : Type := {
  req_files : option (list UploadedFile);
  req_body : gmap string FieldValue
}.

Record Response : Type := { res_status : Z; res_body : JsValue }.

(** [error.response] of an axios or Replicate API error. *)
Record ErrResponse : Type := {
  resp_status : JsValue;
  resp_statusText : JsValue;
  resp_data : JsValue
}.

(** A thrown [Error]: its [message], its [stack], and [response] when the
    provider answered with a failing HTTP status. *)
Record JsError : Type := {
  err_message : string;
  err_stack : string;
  err_response : option ErrResponse
}.

(** [new Error(msg)] *)
Definition new_Error (msg : string) : JsError :=
  {| err_message := msg; err_stack := "Error: " +:+ msg; err_response := None |}.

(** The [TypeError] of reading property [k] of [undefined] or [null]. *)
Definition type_error_reading (what k : string) : JsError :=
  let msg := "Cannot read properties of " +:+ what +:+ " (reading '" +:+ k +:+ "')" in
  {| err_message := msg; err_stack := "TypeError: " +:+ msg; err_response := None |}.

(** [new TypeError(msg)] *)
Definition new_TypeError (msg : string) : JsError :=
  {| err_message := msg; err_stack := "TypeError: " +:+ msg; err_response := None |}.

Inductive Completion (A : Type) : Type :=
| Normal (a : A)
| Throw (e : JsError).
Arguments Normal {A} a.
Arguments Throw {A} e.

(** ** Provider requests *)

(** Body and config of the [axios.post] of [callOpenAIAPI]. *)
Record OpenAIRequest : Type := {
  oa_url : string;
  oa_model : string;
  oa_prompt : JsValue;
  oa_n : Z;
  oa_size : string;
  oa_quality : string;
  oa_style : string;
  oa_authorization : string;
  oa_content_type : string;
  oa_timeout : Z
}.

(** Argument of [replicate.predictions.create]. *)
Record ReplicateInput : Type := {
  rp_prompt : JsValue;
  rp_width : Z;
  rp_height : Z;
  rp_num_outputs : Z;
  rp_scheduler : string;
  rp_num_inference_steps : Z;
  rp_guidance_scale : Q;
  rp_prompt_strength : Q;
  rp_refine : string;
  rp_refine_steps : Z
}.

Record ReplicateCreate : Type := {
  rc_auth : string;
  rc_version : string;
  rc_input : ReplicateInput
}.

(** A prediction object of the Replicate client; [output] is [null] or an
    array (of image URLs, for the model used here). *)
Record Prediction : Type := {
  pred_id : string;
  pred_status : string;
  pred_output : option (list JsValue)
}.

(** Everything the process sends to a provider, in order. *)
Inductive Outbound : Type :=
| OutAxiosPost (r : OpenAIRequest)
| OutPredictionsCreate (r : ReplicateCreate)
| OutWait (auth : string) (p : Prediction).

(** ** The outside world *)

(** Every call is taken to settle, with a value or with an [Error] object.
    The code puts no time limit on [replicate.wait]: a run in which it never
    settles sends no response, and is not among the runs described here.
    Whether [fs.unlinkSync] fails is taken to depend on the path alone. *)
Record World : Type := {
  (** [new Date().toISOString()] *)
  now_iso : string;
  (** [axios.post]: [response.data] on a 2xx answer, else the rejection *)
  axios_post : OpenAIRequest -> Completion JsValue;
  predictions_create : ReplicateCreate -> Completion Prediction;
  (** [replicate.wait]: the prediction in its terminal state *)
  replicate_wait : string -> Prediction -> Completion Prediction;
  (** the exception [fs.unlinkSync] raises on an existing path, if any *)
  unlink_error : string -> option JsError
}.

(** ** Console *)

Inductive ConsoleEntry : Type :=
| ErrKeyNotConfigured
| LogDemoMode
| LogGenerating (transformationType : string) (count : nat)
| LogPrompt (prompt : JsValue)
| LogProvider (provider : string)
| ErrGenerating (e : JsError)
| ErrApiDetails (r : ErrResponse)
| ErrApi400 (errorMessage : JsValue)
| ErrPayment (message : string)
| LogCallingReplicate
| LogPredictionCreated
| LogFinalPrediction (p : Prediction)
| LogImageUrl (url : JsValue)
| ErrPredictionFailed (p : Prediction)
| ErrReplicate (e : JsError)
| LogFallback
| LogCleanedUp (filename : string)
| ErrDeleting (filename : string) (e : JsError)
| LogIncomingUpload
| ErrMulter (code message : string)
| ErrUpload (message : string)
| LogUploadSuccessful
| ErrGlobal (e : JsError).

(** ** State and the monad of handlers *)

(** The upload directory (path to contents), the outbound calls made so far
    and the console, oldest first. *)
Record St : Type := {
  fs : gmap string string;
  outbound : list Outbound;
  console : list ConsoleEntry
}.

Definition M (A : Type) : Type := St -> Completion A * St.

Definition ret {A : Type} (a : A) : M A := fun st => (Normal a, st).

Definition bindM {A B : Type} (m : M A) (f : A -> M B) : M B := fun st =>
  match m st with
  | (Normal a, st') => f a st'
  | (Throw e, st') => (Throw e, st')
  end.

Declare Scope js_scope.
Delimit Scope js_scope with js.
Notation "'let*' x ':=' c 'in' k" := (bindM c (fun x => k))
  (at level 10, x name, c at level 100, k at level 200) : js_scope.
Notation "c ';;' k" := (bindM c (fun _ => k))
  (at level 100, k at level 200, right associativity) : js_scope.
Local Open Scope js_scope.

Definition throw {A : Type} (e : JsError) : M A := fun st => (Throw e, st).

(** [try { body } catch (e) { handler e }] *)
Definition try_catch {A : Type} (body : M A) (handler : JsError -> M A) : M A :=
  fun st =>
    match body st with
    | (Normal a, st') => (Normal a, st')
    | (Throw e, st') => handler e st'
    end.

(** [await] of a promise settled by the world *)
Definition settle {A : Type} (c : Completion A) : M A := fun st => (c, st).

Definition log (entry : ConsoleEntry) : M unit := fun st =>
  (Normal tt, {| fs := fs st; outbound := outbound st; console := console st ++ [entry] |}).

Definition send (o : Outbound) : M unit := fun st =>
  (Normal tt, {| fs := fs st; outbound := outbound st ++ [o]; console := console st |}).

(** [fs.existsSync(p)] *)
Definition existsSync (p : string) : M bool := fun st =>
  (Normal (bool_decide (is_Some (fs st !! p))), st).

(** [fs.unlinkSync(p)] *)
Definition unlinkSync (w : World) (p : string) : M unit := fun st =>
  match fs st !! p with
  | None => (Throw (new_Error ("ENOENT: no such file or directory, unlink '" +:+ p +:+ "'")), st)
  | Some _ =>
      match unlink_error w p with
      | Some e => (Throw e, st)
      | None => (Normal tt, {| fs := delete p (fs st); outbound := outbound st; console := console st |})
      end
  end.

(** [l.forEach(f)] *)
Fixpoint forEach {A : Type} (l : list A) (f : A -> M unit) : M unit :=
  match l with
  | [] => ret tt
  | x :: rest => f x ;; forEach rest f
  end.

(** ** Controller helpers *)

(** [process.env.X || fallback] *)
Definition or_default (o : option string) (fallback : string) : string :=
  match o with
  | Some s => if (s =? "")%string then fallback else s
  | None => fallback
  end.

(** [req.body.x || fallback]: of the values multer builds only the empty
    text is falsy. *)
Definition body_or (o : option FieldValue) (fallback : string) : FieldValue :=
  match o with
  | Some (FStr s) => if (s =? "")%string then FStr fallback else FStr s
  | Some v => v
  | None => FStr fallback
  end.

(** The conversion of [v] to a property key or to the text of a template
    literal. *)
Definition property_key (v : FieldValue) : M string :=
  match field_text v with
  | Some s => ret s
  | None => throw (new_TypeError "Cannot convert object to primitive value")
  end.

(** [`${process.env.X}`] *)
Definition env_text (env : gmap string string) (k : string) : string :=
  match env !! k with Some s => s | None => "undefined" end.

(** [v.k], which throws on [undefined] and [null]. *)
Definition member_strict (v : JsValue) (k : string) : M JsValue :=
  match v with
  | VUndefined => throw (type_error_reading "undefined" k)
  | VNull => throw (type_error_reading "null" k)
  | _ => ret (member v k)
  end.

(** [v[0]], which throws on [undefined] and [null]. *)
Definition index0_strict (v : JsValue) : M JsValue :=
  match v with
  | VUndefined => throw (type_error_reading "undefined" "0")
  | VNull => throw (type_error_reading "null" "0")
  | VArr (x :: _) => ret x
  | VStr (String c _) => ret (VStr (String c EmptyString))
  | VObj own => ret (get_property own "0")
  | _ => ret VUndefined
  end.

Definition error_envelope (error : string) (message : JsValue) : JsValue :=
  VObj [ ("success", VBool false); ("error", VStr error); ("message", message) ].

(** [res.status(code).json(body)] *)
Definition respond (code : Z) (body : JsValue) : Response :=
  {| res_status := code; res_body := body |}.

Definition demo_fallback_url : string :=
  "https://images.unsplash.com/photo-1544005313-94ddf0286df2?w=400&h=600&fit=crop&crop=face".

Definition stream_fallback_url : string :=
  "https://images.unsplash.com/photo-1544005313-94ddf0286df2?w=768&h=1344&fit=crop&crop=face".

(** ** [cleanupUploadedFiles] *)

Definition cleanupUploadedFiles (w : World) (files : list UploadedFile) : M unit :=
  forEach files (fun file =>
    try_catch
      (let* present := existsSync (file_path file) in
       if present then
         unlinkSync w (file_path file) ;;
         log (LogCleanedUp (file_filename file))
       else ret tt)
      (fun error => log (ErrDeleting (file_filename file) error))).

(** ** [callOpenAIAPI] *)

Definition openai_request (env : gmap string string) (prompt : JsValue) : OpenAIRequest :=
  {| oa_url := "https://api.openai.com/v1/images/generations";
     oa_model := "dall-e-3";
     oa_prompt := prompt;
     oa_n := 1;
     oa_size := "1024x1792";
     oa_quality := "hd";
     oa_style := "natural";
     oa_authorization := "Bearer " +:+ env_text env "OPENAI_API_KEY";
     oa_content_type := "application/json";
     oa_timeout := 60000 |}.

Definition callOpenAIAPI (env : gmap string string) (w : World)
    (prompt : JsValue) (files : list UploadedFile) : M JsValue :=
  let request := openai_request env prompt in
  send (OutAxiosPost request) ;;
  settle (axios_post w request).

(** ** [callReplicateAPI] *)

Definition replicate_request (auth : string) (prompt : JsValue) : ReplicateCreate :=
  {| rc_auth := auth;
     rc_version := "39ed52f2a78e934b3ba6e2a89f5b1c712de7dfea535525255b1aa35c5565e08b";
     rc_input :=
       {| rp_prompt := prompt;
          rp_width := 768;
          rp_height := 1344;
          rp_num_outputs := 1;
          rp_scheduler := "K_EULER";
          rp_num_inference_steps := 20;
          rp_guidance_scale := (75 # 10)%Q;
          rp_prompt_strength := (8 # 10)%Q;
          rp_refine := "expert_ensemble_refiner";
          rp_refine_steps := 5 |} |}.

(** The [try] block of [callReplicateAPI]: create the prediction, wait for
    its terminal state, take the first output. *)
Definition callReplicateAPI_try (w : World) (auth : string) (prompt : JsValue) : M JsValue :=
  let request := replicate_request auth prompt in
  send (OutPredictionsCreate request) ;;
  let* prediction := settle (predictions_create w request) in
  log LogPredictionCreated ;;
  send (OutWait auth prediction) ;;
  let* finalPrediction := settle (replicate_wait w auth prediction) in
  log (LogFinalPrediction finalPrediction) ;;
  match (pred_status finalPrediction =? "succeeded")%string, pred_output finalPrediction with
  | true, Some (imageUrl :: _) =>
      log (LogImageUrl imageUrl) ;;
      ret imageUrl
  | _, _ =>
      log (ErrPredictionFailed finalPrediction) ;;
      throw (new_Error ("Prediction failed with status: " +:+ pred_status finalPrediction))
  end.

(** The [catch] block of [callReplicateAPI]. *)
Definition callReplicateAPI_catch (error : JsError) : M JsValue :=
  log (ErrReplicate error) ;;
  if negb (err_message error =? "")%string && includes "ReadableStream" (err_message error) then
    log LogFallback ;;
    ret (VStr stream_fallback_url)
  else throw error.

Definition callReplicateAPI (env : gmap string string) (w : World)
    (prompt : JsValue) (files : list UploadedFile) : M JsValue :=
  let token := of_slot (env !! "REPLICATE_API_TOKEN") in
  if negb (truthy token) || strict_eq_str token "your_replicate_token_here" then
    throw (new_Error "Replicate API token not configured")
  else
    let auth := env_text env "REPLICATE_API_TOKEN" in
    log LogCallingReplicate ;;
    try_catch (callReplicateAPI_try w auth prompt) callReplicateAPI_catch.

(** ** [generateBabyImage] *)

(** The [res.json({...})] that ends the [try] block.  The properties of the
    object literal are evaluated in order: [message] calls the method
    [replace] of [transformationType], which only a text has, before
    [imageUrl] reads the answer of the provider. *)
Definition send_generated (w : World) (transformationType : FieldValue)
    (prompt : JsValue) (aiProvider : string) (imageGenerationResponse : JsValue)
    : M Response :=
  match transformationType with
  | FStr text =>
      let message :=
        replace_first_underscore text +:+ " transformation generated successfully!" in
      let* imageUrl :=
        (if (aiProvider =? "replicate")%string
         then ret imageGenerationResponse
         else
           let* data := member_strict imageGenerationResponse "data" in
           let* first := index0_strict data in
           member_strict first "url") in
      ret (respond 200
             (VObj [ ("success", VBool true);
                     ("message", VStr message);
                     ("data", VObj
                        [ ("imageUrl", imageUrl);
                          ("prompt", prompt);
                          ("transformationType", VStr text);
                          ("timestamp", VStr (now_iso w));
                          ("provider", VStr aiProvider) ]) ]))
  | FArr _ | FObj _ =>
      throw (new_TypeError "transformationType.replace is not a function")
  end.

(** The [try] block.  Each [return res...json(...)] ends the handler with
    that response; a thrown exception leaves no response behind.  The field
    [transformationType] is converted to a key by the property access of
    [generatePrompt], before any provider is called. *)
Definition generateBabyImage_try (env : gmap string string) (w : World)
    (req : Request) : M Response :=
  match req_files req with
  | None | Some [] =>
      ret (respond 400
             (error_envelope "No images uploaded"
                (VStr "Please upload at least 1 image (max 2)")))
  | Some files =>
      if negb (truthy (of_slot (env !! "OPENAI_API_KEY"))) then
        log ErrKeyNotConfigured ;;
        ret (respond 500
               (error_envelope "API configuration error"
                  (VStr "Image generation service not properly configured")))
      else if strict_eq_str (of_slot (env !! "DEMO_MODE")) "true" then
        log LogDemoMode ;;
        cleanupUploadedFiles w files ;;
        ret (respond 200
               (VObj [ ("success", VBool true);
                       ("message", VStr "Baby selfie generated successfully! (Demo Mode)");
                       ("data", VObj
                          [ ("imageUrl", js_or (of_slot (env !! "DEMO_IMAGE_URL"))
                                               (VStr demo_fallback_url));
                            ("prompt", VStr "Demo mode - AI generation temporarily unavailable");
                            ("timestamp", VStr (now_iso w));
                            ("demo", VBool true) ]) ]))
      else
        let transformationType := body_or (req_body req !! "transformationType") "baby_blur" in
        let* key := property_key transformationType in
        let prompt := generatePrompt key (length files) in
        log (LogGenerating key (length files)) ;;
        log (LogPrompt prompt) ;;
        log (LogProvider (or_default (env !! "AI_PROVIDER") "openai")) ;;
        let aiProvider := or_default (env !! "AI_PROVIDER") "openai" in
        let* imageGenerationResponse :=
          (if (aiProvider =? "replicate")%string
           then callReplicateAPI env w prompt files
           else callOpenAIAPI env w prompt files) in
        cleanupUploadedFiles w files ;;
        send_generated w transformationType prompt aiProvider imageGenerationResponse
  end.

(** The [catch] block. *)
Definition generateBabyImage_catch (w : World) (req : Request) (error : JsError) : M Response :=
  log (ErrGenerating error) ;;
  match err_response error with
  | Some r => log (ErrApiDetails r)
  | None => ret tt
  end ;;
  match req_files req with
  | Some files => cleanupUploadedFiles w files
  | None => ret tt
  end ;;
  match err_response error with
  | Some r =>
      if strict_eq_num (resp_status r) 400 then
        let errorMessage :=
          js_or (member (member (resp_data r) "error") "message")
                (VStr "Please check your images and try again") in
        let errorCode := member (member (resp_data r) "error") "code" in
        log (ErrApi400 errorMessage) ;;
        if strict_eq_str errorCode "billing_hard_limit_reached" then
          ret (respond 402
                 (error_envelope "Service temporarily unavailable"
                    (VStr "AI image generation service needs account top-up. Please try again later.")))
        else
          ret (respond 400 (error_envelope "Invalid request to AI service" errorMessage))
      else if strict_eq_num (resp_status r) 402 then
        log (ErrPayment (err_message error)) ;;
        ret (respond 402
               (error_envelope "Insufficient credits"
                  (VStr "AI service needs credits to generate images. Please try again later.")))
      else if strict_eq_num (resp_status r) 429 then
        ret (respond 429
               (error_envelope "Rate limit exceeded"
                  (VStr "Too many requests. Please try again later")))
      else
        ret (respond 500
               (error_envelope "Image generation failed"
                  (VStr "Unable to generate baby selfie. Please try again")))
  | None =>
      ret (respond 500
             (error_envelope "Image generation failed"
                (VStr "Unable to generate baby selfie. Please try again")))
  end.

Definition generateBabyImage (env : gmap string string) (w : World)
    (req : Request) : M Response :=
  try_catch (generateBabyImage_try env w req) (generateBabyImage_catch w req).

(** ** Upload route: [router.post('/generate-image', ...)] *)

(** The error multer hands to the callback: a [MulterError] with its [code]
    and [message], or any other error object (file filter, storage). *)
Inductive UploadError : Type :=
| MulterError (code message : string)
| OtherError (e : JsError).

Definition dquote : string := String (ascii_of_nat 34) EmptyString.

(** The callback given to [upload.array('images', 2)(req, res, cb)];
    [next()] runs the controller. *)
Definition upload_callback (env : gmap string string) (w : World)
    (err : option UploadError) (req : Request) : M Response :=
  match err with
  | Some (MulterError code message) =>
      log (ErrMulter code message) ;;
      if (code =? "LIMIT_FILE_SIZE")%string then
        ret (respond 413
               (error_envelope "File too large" (VStr "Each image must be smaller than 10MB")))
      else if (code =? "LIMIT_FILE_COUNT")%string then
        ret (respond 400
               (error_envelope "Too many files" (VStr "Maximum 2 images allowed")))
      else if (code =? "LIMIT_UNEXPECTED_FILE")%string then
        ret (respond 400
               (error_envelope "Unexpected field"
                  (VStr ("Use field name " +:+ dquote +:+ "images" +:+ dquote +:+ " for file uploads"))))
      else
        ret (respond 400 (error_envelope "Upload error" (VStr message)))
  | Some (OtherError e) =>
      log (ErrUpload (err_message e)) ;;
      ret (respond 400 (error_envelope "Invalid file" (VStr (err_message e))))
  | None =>
      log LogUploadSuccessful ;;
      generateBabyImage env w req
  end.

(** ** [index.js]: the global error handler *)

Definition global_error_handler (error : JsError) : M Response :=
  log (ErrGlobal error) ;;
  ret (respond 500 (error_envelope "Internal server error" (VStr (err_message error)))).

(** ** Upload limits: [multer({ limits: ... })] *)

(** Texts are held in UTF-8.  The white space characters and line
    terminators that [parseInt] skips, as byte sequences: TAB, LF, VT, FF,
    CR, SP; U+00A0; U+1680; U+2000 to U+200A; U+2028, U+2029; U+202F;
    U+205F; U+3000; U+FEFF. *)
Definition utf8 (bytes : list Z) : string :=
  string_of_list_ascii (map (fun byte => ascii_of_N (Z.to_N byte)) bytes).

Definition white_space : list string :=
  [ utf8 [9]; utf8 [10]; utf8 [11]; utf8 [12]; utf8 [13]; utf8 [32];
    utf8 [194; 160]; utf8 [225; 154; 128];
    utf8 [226; 128; 128]; utf8 [226; 128; 129]; utf8 [226; 128; 130];
    utf8 [226; 128; 131]; utf8 [226; 128; 132]; utf8 [226; 128; 133];
    utf8 [226; 128; 134]; utf8 [226; 128; 135]; utf8 [226; 128; 136];
    utf8 [226; 128; 137]; utf8 [226; 128; 138];
    utf8 [226; 128; 168]; utf8 [226; 128; 169]; utf8 [226; 128; 175];
    utf8 [226; 129; 159]; utf8 [227; 128; 128]; utf8 [239; 187; 191] ].

(** The number of bytes of the white space character [s] starts with, [0]
    when it starts with none. *)
Definition whitespace_width (s : string) : nat :=
  match s with
  | EmptyString => 0
  | String c rest =>
      let n := nat_of_ascii c in
      let second := match rest with String c1 _ => nat_of_ascii c1 | EmptyString => 0%nat end in
      let third :=
        match rest with
        | String _ (String c2 _) => nat_of_ascii c2
        | _ => 0%nat
        end in
      if ((n =? 9) || (n =? 10) || (n =? 11) || (n =? 12) || (n =? 13) || (n =? 32))%nat
      then 1%nat
      else if (n =? 194)%nat then (if (second =? 160)%nat then 2%nat else 0%nat)
      else if (n =? 225)%nat then
        (if ((second =? 154) && (third =? 128))%nat then 3%nat else 0%nat)
      else if (n =? 226)%nat then
        (if ((second =? 128)
             && (((128 <=? third) && (third <=? 138)) || (third =? 168) || (third =? 169)
                 || (third =? 175)))%nat then 3%nat
         else if ((second =? 129) && (third =? 159))%nat then 3%nat
         else 0%nat)
      else if (n =? 227)%nat then
        (if ((second =? 128) && (third =? 128))%nat then 3%nat else 0%nat)
      else if (n =? 239)%nat then
        (if ((second =? 187) && (third =? 191))%nat then 3%nat else 0%nat)
      else 0%nat
  end.

(** [s] without its leading white space; [skip] counts the bytes still to
    drop of the white space character being removed. *)
Fixpoint trim_start_from (skip : nat) (s : string) : string :=
  match s with
  | EmptyString => EmptyString
  | String _ rest =>
      match skip with
      | S k => trim_start_from k rest
      | O =>
          match whitespace_width s with
          | S k => trim_start_from k rest
          | O => s
          end
      end
  end.

Definition trim_start (s : string) : string := trim_start_from 0 s.

Definition digit_value (c : ascii) : option Z :=
  let n := Z.of_nat (nat_of_ascii c) in
  if ((48 <=? n) && (n <=? 57))%Z then Some (n - 48)
  else if ((97 <=? n) && (n <=? 122))%Z then Some (n - 87)
  else if ((65 <=? n) && (n <=? 90))%Z then Some (n - 55)
  else None.

(** The longest prefix of digits of the radix; [None] when it is empty. *)
Fixpoint parse_digits (radix : Z) (s : string) (acc : option Z) : option Z :=
  match s with
  | EmptyString => acc
  | String c rest =>
      match digit_value c with
      | Some d =>
          if (d <? radix)%Z
          then parse_digits radix rest (Some (default 0 acc * radix + d))
          else acc
      | None => acc
      end
  end.

(** A Number that [parseInt] can return: [NaN], an integer that a double
    holds, or an infinity. *)
Inductive JsNumber : Type :=
| NaN
| Num (z : Z)
| Infinity (negative : bool).

(** The double nearest to a non-negative integer, ties to even; from
    [2^1024 - 2^970] on, that is infinity. *)
Definition nearest_double (m : Z) : JsNumber :=
  if (m <? 2 ^ 53)%Z then Num m
  else
    let k := (Z.log2 m - 52)%Z in
    let q := (m / 2 ^ k)%Z in
    let r := (m mod 2 ^ k)%Z in
    let half := (2 ^ (k - 1))%Z in
    let q' := if ((half <? r) || ((r =? half) && Z.odd q))%Z then (q + 1)%Z else q in
    if (2 ^ 1024 <=? q' * 2 ^ k)%Z then Infinity false else Num (q' * 2 ^ k).

Definition negate (n : JsNumber) : JsNumber :=
  match n with
  | NaN => NaN
  | Num z => Num (- z)
  | Infinity b => Infinity (negb b)
  end.

(** [parseInt(v)] without a radix.  An absent variable reads as the text
    [undefined], which has no digits.  The integer read is rounded to a
    double; past twenty significant decimal digits the language lets an
    engine read the later digits as zeros, and the rounding here is that of
    an engine that reads them all. *)
Definition parseInt (v : option string) : JsNumber :=
  match v with
  | None => NaN
  | Some s =>
      let s := trim_start s in
      let '(negative, s) :=
        match s with
        | String "-"%char rest => (true, rest)
        | String "+"%char rest => (false, rest)
        | _ => (false, s)
        end in
      let '(radix, s) :=
        match s with
        | String "0"%char (String "x"%char rest) => (16, rest)
        | String "0"%char (String "X"%char rest) => (16, rest)
        | _ => (10, s)
        end in
      match parse_digits radix s None with
      | Some m => if negative then negate (nearest_double m) else nearest_double m
      | None => NaN
      end
  end.

(** [n || fallback] on a number: [NaN], [0] and [-0] are falsy. *)
Definition number_or (n : JsNumber) (fallback : Z) : JsNumber :=
  match n with
  | NaN => Num fallback
  | Num z => if (z =? 0)%Z then Num fallback else Num z
  | Infinity b => Infinity b
  end.

Record Limits : Type := { limit_fileSize : JsNumber; limit_files : JsNumber }.

(** The limits given to multer.  [index.js] loads the routes before it calls
    [dotenv.config()], so [env] here is the environment the process was
    started with, without the entries of the [.env] file. *)
Definition upload_limits (env : gmap string string) : Limits :=
  {| limit_fileSize := number_or (parseInt (env !! "MAX_FILE_SIZE")) (10 * 1024 * 1024);
     limit_files := number_or (parseInt (env !! "MAX_FILES")) 2 |}.

(** ** The route as a whole *)

(** A file part of the multipart body, and the body. *)
Record FilePart : Type := {
  part_fieldname : string;
  part_originalname : string;
  part_mimetype : string;
  part_bytes : string
}.

(** A multipart body: its file parts in the order sent, its text parts
    (name and value) in the order sent, and whether it arrived whole, ending
    with the closing delimiter.  Where the text parts stand among the file
    parts is not recorded. *)
Record Multipart : Type := {
  mp_files : list FilePart;
  mp_fields : list (string * string);
  mp_complete : bool
}.

(** What multer leaves when it calls back: the error, if any, and the
    request with [req.files] and [req.body] filled in. *)
Record UploadOutcome : Type := {
  up_err : option UploadError;
  up_req : Request
}.

(** [upload.array('images', 2)], a library function: it reads the parts
    under the limits, writes accepted files to the upload directory (and
    removes them again when it fails), then calls back. *)
Definition Middleware : Type := Limits -> Multipart -> St -> UploadOutcome * St.

(** The route.  [load_env] is the environment at the time the module was
    loaded, which fixed the limits; [env] is the environment at the time of
    the request, which the controller reads. *)
Definition post_generate_image (upload : Middleware) (load_env env : gmap string string)
    (w : World) (mp : Multipart) : M Response :=
  log LogIncomingUpload ;;
  fun st =>
    let '(o, st') := upload (upload_limits load_env) mp st in
    upload_callback env w (up_err o) (up_req o) st'.

(** The run of the middleware within the route, after the first line on the
    console. *)
Definition upload_run (upload : Middleware) (load_env : gmap string string)
    (mp : Multipart) (st : St) : UploadOutcome * St :=
  upload (upload_limits load_env) mp
    {| fs := fs st; outbound := outbound st; console := console st ++ [LogIncomingUpload] |}.

(** The claims read a response off a run of a handler. *)
Definition response_of (run : Completion Response * St) : option Response :=
  match run.1 with Normal r => Some r | Throw _ => None end.

(** The outbound calls a request with at least one file leads to, given the
    configuration, the world and the [transformationType] field. *)
Definition provider_calls (env : gmap string string) (w : World)
    (field : option FieldValue) : list Outbound :=
  if negb (truthy (of_slot (env !! "OPENAI_API_KEY"))) then []
  else if strict_eq_str (of_slot (env !! "DEMO_MODE")) "true" then []
  else
    match field_text (body_or field "baby_blur") with
    | None => []
    | Some key =>
        let prompt := generatePrompt key 1 in
        if (or_default (env !! "AI_PROVIDER") "openai" =? "replicate")%string then
          let token := of_slot (env !! "REPLICATE_API_TOKEN") in
          if negb (truthy token) || strict_eq_str token "your_replicate_token_here" then []
          else
            let auth := env_text env "REPLICATE_API_TOKEN" in
            let request := replicate_request auth prompt in
            match predictions_create w request with
            | Normal prediction => [OutPredictionsCreate request; OutWait auth prediction]
            | Throw _ => [OutPredictionsCreate request]
            end
        else [OutAxiosPost (openai_request env prompt)]
    end.

(** What [cleanupUploadedFiles] leaves of the upload directory: each listed
    path is removed unless [fs.unlinkSync] fails on it. *)
Definition cleanup_fs (w : World) (files : list UploadedFile)
    (dir : gmap string string) : gmap string string :=
  foldl (fun m file =>
           match unlink_error w (file_path file) with
           | None => delete (file_path file) m
           | Some _ => m
           end) dir files.

(** The response of the [catch] block of [generateBabyImage] as a function
    of the caught error alone. *)
Definition translate_error (error : JsError) : Response :=
  match err_response error with
  | Some r =>
      if strict_eq_num (resp_status r) 400 then
        if strict_eq_str (member (member (resp_data r) "error") "code")
                         "billing_hard_limit_reached" then
          respond 402
            (error_envelope "Service temporarily unavailable"
               (VStr "AI image generation service needs account top-up. Please try again later."))
        else
          respond 400
            (error_envelope "Invalid request to AI service"
               (js_or (member (member (resp_data r) "error") "message")
                      (VStr "Please check your images and try again")))
      else if strict_eq_num (resp_status r) 402 then
        respond 402
          (error_envelope "Insufficient credits"
             (VStr "AI service needs credits to generate images. Please try again later."))
      else if strict_eq_num (resp_status r) 429 then
        respond 429
          (error_envelope "Rate limit exceeded"
             (VStr "Too many requests. Please try again later"))
      else
        respond 500
          (error_envelope "Image generation failed"
             (VStr "Unable to generate baby selfie. Please try again"))
  | None =>
      respond 500
        (error_envelope "Image generation failed"
           (VStr "Unable to generate baby selfie. Please try again"))
  end.

(** A computation that calls no provider. *)
Definition quiet {A : Type} (m : M A) : Prop :=
  forall st, outbound (m st).2 = outbound st.

(** The size of a file part, in bytes. *)
Definition part_size (part : FilePart) : Z := Z.of_nat (String.length (part_bytes part)).

(** [limit < n] on numbers *)
Definition below (limit : JsNumber) (n : Z) : bool :=
  match limit with
  | NaN => false
  | Num z => (z <? n)%Z
  | Infinity negative => negative
  end.

Definition oversized (load_env : gmap string string) (part : FilePart) : Prop :=
  below (limit_fileSize (upload_limits load_env)) (part_size part) = true.

(** A computation that leaves the upload directory alone. *)
Definition keeps_files {A : Type} (m : M A) : Prop :=
  forall st, fs (m st).2 = fs st.

(** Sample values used to exercise the definitions. *)
Definition sample_file : UploadedFile :=
  {| file_path := "uploads/babyblur-1700000000000-123456789.jpg";
     file_filename := "babyblur-1700000000000-123456789.jpg";
     file_originalname := "me.jpg";
     file_mimetype := "image/jpeg";
     file_size := 5 |}.

Definition sample_request : Request :=
  {| req_files := Some [sample_file]; req_body := ∅ |}.

Definition sample_state : St :=
  {| fs := {[ file_path sample_file := "JFIF." ]}; outbound := []; console := [] |}.

Definition sample_error (status : Z) (data : JsValue) : JsError :=
  {| err_message := "Request failed with status code";
     err_stack := "AxiosError: Request failed with status code";
     err_response := Some {| resp_status := VNum status;
                             resp_statusText := VStr "";
                             resp_data := data |} |}.

(** A world in which the default provider answers with [answer] and the
    prediction client raises [failure]. *)
Definition sample_world (answer : Completion JsValue) (failure : JsError) : World :=
  {| now_iso := "2024-01-01T00:00:00.000Z";
     axios_post := fun _ => answer;
     predictions_create := fun _ => Throw failure;
     replicate_wait := fun _ _ => Throw failure;
     unlink_error := fun _ => None |}.

(** ** Upload intake: [fileFilter] and [storage.filename] *)

(** What multer shows of a part before it is stored.  Multer passes on only
    parts that carry a file name; the empty string stands for the falsy name
    the filter allows for. *)
Record IncomingFile : Type := {
  in_fieldname : string;
  in_originalname : string;
  in_mimetype : string;
  in_encoding : string
}.

Inductive IntakeLog : Type :=
| LogFileValidation (file : IncomingFile)
| LogFileAccepted
| ErrFileRejected (originalname mimetype : string)
| LogGeneratedFilename (filename : string).

Definition to_lower (c : ascii) : ascii :=
  let n := nat_of_ascii c in
  if ((65 <=? n) && (n <=? 90))%nat then ascii_of_nat (n + 32) else c.

Fixpoint lowercase (s : string) : string :=
  match s with
  | EmptyString => EmptyString
  | String c rest => String (to_lower c) (lowercase rest)
  end.

(** [s] ends with [suffix] *)
Fixpoint ends_with (suffix s : string) : bool :=
  if (s =? suffix)%string then true
  else match s with
       | EmptyString => false
       | String _ rest => ends_with suffix rest
       end.

Definition image_extensions : list string :=
  [ "jpeg"; "jpg"; "png"; "gif"; "webp"; "bmp"; "tiff"; "svg" ].

(** [/\.(jpeg|jpg|png|gif|webp|bmp|tiff|svg)$/i.test(name)]: the pattern is
    ASCII, so ignoring case is comparing the ASCII-lowercased name. *)
Definition has_image_extension (name : string) : bool :=
  existsb (fun ext => ends_with ("." +:+ ext) (lowercase name)) image_extensions.

(** [fileFilter(req, file, cb)]: what it writes to the console, and
    [cb(null, true)] as [Normal true] or [cb(new Error(...))] as [Throw]. *)
Definition fileFilter (file : IncomingFile) : list IntakeLog * Completion bool :=
  let isImageMimeType :=
    negb (in_mimetype file =? "")%string && String.prefix "image/" (in_mimetype file) in
  let hasImageExtension :=
    negb (in_originalname file =? "")%string && has_image_extension (in_originalname file) in
  if isImageMimeType || hasImageExtension || (in_originalname file =? "")%string then
    ([LogFileValidation file; LogFileAccepted], Normal true)
  else
    ([LogFileValidation file; ErrFileRejected (in_originalname file) (in_mimetype file)],
     Throw (new_Error "Only image files are allowed (jpeg, jpg, png, gif, webp)")).

(** The [filename] callback of [multer.diskStorage] (later revision):
    [Date.now()] and [Math.round(Math.random() * 1E9)] are non-negative
    integers given by the world and print in decimal; [path.extname] is the
    library function, taken as a parameter. *)
Definition storage_filename (extname : string -> string) (now random : N)
    (file : IncomingFile) : list IntakeLog * string :=
  let uniqueSuffix := pretty now +:+ "-" +:+ pretty random in
  let extension :=
    if (extname (in_originalname file) =? "")%string then ".jpg"
    else extname (in_originalname file) in
  let filename := "babyblur-" +:+ uniqueSuffix +:+ extension in
  ([LogGeneratedFilename filename], filename).

(** What Node documents of [path.extname]: the result is empty or starts at
    a dot. *)
Definition extname_contract (extname : string -> string) : Prop :=
  forall name, extname name = "" \/ exists e, extname name = "." +:+ e.

(** A stand-in for [path.extname] on simple names, used in examples. *)
Definition stub_extname (name : string) : string :=
  if ends_with ".png" name then ".png"
  else if ends_with ".jpeg" name then ".jpeg"
  else "".

(** ** The upload middleware: what the route relies on *)

(** What multer shows [fileFilter] of a file part. *)
Definition incoming (part : FilePart) : IncomingFile :=
  {| in_fieldname := part_fieldname part;
     in_originalname := part_originalname part;
     in_mimetype := part_mimetype part;
     in_encoding := "7bit" |}.

(** A file part that [upload.array('images', 2)] takes: sent under the name
    [images], with a file name, let through by [fileFilter]. *)
Definition acceptable (part : FilePart) : bool :=
  (part_fieldname part =? "images")%string
  && negb (part_originalname part =? "")%string
  && match (fileFilter (incoming part)).2 with Normal true => true | _ => false end.

(** The limit busboy puts on the value of a text part when the limits given
    to multer name none (the route names [fileSize] and [files] only). *)
Definition default_fieldSize : Z := 1024 * 1024.

Definition field_size (field : string * string) : Z :=
  Z.of_nat (String.length field.2).

(** Every text part has a name. *)
Definition fields_named (mp : Multipart) : bool :=
  forallb (fun field => negb (field.1 =? "")%string) (mp_fields mp).

(** Every text part has a name and a value below the limit. *)
Definition fields_acceptable (mp : Multipart) : bool :=
  forallb (fun field => negb (field.1 =? "")%string
                        && (field_size field <? default_fieldSize)%Z) (mp_fields mp).

Definition some_field_above_limit (mp : Multipart) : bool :=
  existsb (fun field => (default_fieldSize <? field_size field)%Z) (mp_fields mp).

(** The file part at position [i] is larger than the size limit, it is
    among the parts that the count limit and [upload.array('images', 2)]
    admit, and it and the parts before it are acceptable, those before it
    being smaller than the size limit. *)
Definition size_violation (lim : Limits) (mp : Multipart) (i : nat) : bool :=
  match limit_fileSize lim, limit_files lim, mp_files mp !! i with
  | Num L, Num F, Some big =>
      (0 <? L)%Z && (Z.of_nat i <? F)%Z && (i <? 2)%nat
      && (L <? part_size big)%Z && acceptable big
      && forallb (fun part => acceptable part && (part_size part <? L)%Z) (take i (mp_files mp))
  | _, _, _ => false
  end.

(** There are more file parts than the count limit, itself 1 or 2, admits,
    and the parts it admits are acceptable and smaller than the size
    limit. *)
Definition count_violation (lim : Limits) (mp : Multipart) : bool :=
  match limit_fileSize lim, limit_files lim with
  | Num L, Num F =>
      (0 <? L)%Z && (1 <=? F)%Z && (F <=? 2)%Z
      && (F <? Z.of_nat (length (mp_files mp)))%Z
      && forallb (fun part => acceptable part && (part_size part <? L)%Z)
           (take (Z.to_nat F) (mp_files mp))
  | _, _ => false
  end.

(** What multer and busboy document of [upload.array('images', 2)] under
    limits on the size and the number of files, as far as the route relies
    on it.  The parts are read in the order sent and the first violation is
    the one reported; storing the files is taken not to fail.  The
    comparisons are strict where versions of busboy differ on a part of
    exactly the limit. *)
Record multer_contract (upload : Middleware) : Prop := {
  multer_calls_no_provider : forall lim mp st,
    outbound (upload lim mp st).2 = outbound st;
  multer_passes_without_files : forall lim mp st,
    mp_files mp = [] -> mp_complete mp = true -> fields_acceptable mp = true ->
    up_err (upload lim mp st).1 = None
    /\ req_files (up_req (upload lim mp st).1) = Some [];
  multer_refuses_long_value : forall lim mp st,
    mp_files mp = [] -> fields_named mp = true -> some_field_above_limit mp = true ->
    exists message,
      up_err (upload lim mp st).1 = Some (MulterError "LIMIT_FIELD_VALUE" message);
  multer_refuses_large_file : forall lim mp st i,
    fields_acceptable mp = true -> size_violation lim mp i = true ->
    exists message,
      up_err (upload lim mp st).1 = Some (MulterError "LIMIT_FILE_SIZE" message);
  multer_refuses_extra_file : forall lim mp st,
    fields_acceptable mp = true -> count_violation lim mp = true ->
    exists message,
      up_err (upload lim mp st).1 = Some (MulterError "LIMIT_FILE_COUNT" message)
}.

(** *** A stand-in for multer, used in examples *)

(** [nfiles === limits.files] *)
Definition reached (limit : JsNumber) (n : nat) : bool :=
  match limit with
  | Num z => (z =? Z.of_nat n)%Z
  | _ => false
  end.

(** The handle of a file stored under [name] in [./uploads/]. *)
Definition stored_file (name : string) (part : FilePart) : UploadedFile :=
  {| file_path := "uploads/" +:+ name;
     file_filename := name;
     file_originalname := part_originalname part;
     file_mimetype := part_mimetype part;
     file_size := part_size part |}.

(** The file parts read in order: [seen] counts the file parts met, [left]
    the files [upload.array('images', 2)] still takes.  The result is the
    first violation or the files to store with their contents. *)
Fixpoint read_files (lim : Limits) (name_of : nat -> FilePart -> string)
    (parts : list FilePart) (seen left : nat)
    : UploadError + list (UploadedFile * string) :=
  match parts with
  | [] => inr []
  | part :: rest =>
      if reached (limit_files lim) seen then
        inl (MulterError "LIMIT_FILE_COUNT" "Too many files")
      else if (part_originalname part =? "")%string then
        read_files lim name_of rest (S seen) left
      else if negb (part_fieldname part =? "images")%string then
        inl (MulterError "LIMIT_UNEXPECTED_FILE" "Unexpected field")
      else
        match left with
        | O => inl (MulterError "LIMIT_UNEXPECTED_FILE" "Unexpected field")
        | S left' =>
            match (fileFilter (incoming part)).2 with
            | Throw e => inl (OtherError e)
            | Normal false => read_files lim name_of rest (S seen) left'
            | Normal true =>
                if below (limit_fileSize lim) (part_size part) then
                  inl (MulterError "LIMIT_FILE_SIZE" "File too large")
                else
                  match read_files lim name_of rest (S seen) left' with
                  | inl e => inl e
                  | inr files =>
                      inr ((stored_file (name_of seen part) part, part_bytes part) :: files)
                  end
            end
        end
  end.

(** The text parts read in order: the first violation, if any. *)
Fixpoint read_fields (fields : list (string * string)) : option UploadError :=
  match fields with
  | [] => None
  | field :: rest =>
      if (field.1 =? "")%string then
        Some (MulterError "MISSING_FIELD_NAME" "Field name missing")
      else if (default_fieldSize <? field_size field)%Z then
        Some (MulterError "LIMIT_FIELD_VALUE" "Field value too long")
      else read_fields rest
  end.

(** [req.body] of text parts with plain names: a repeated name makes an
    array. *)
Definition body_of (fields : list (string * string)) : gmap string FieldValue :=
  foldl (fun body field =>
           match body !! field.1 with
           | None => <[ field.1 := FStr field.2 ]> body
           | Some (FArr items) => <[ field.1 := FArr (items ++ [Some (FStr field.2)]) ]> body
           | Some old => <[ field.1 := FArr [Some old; Some (FStr field.2)] ]> body
           end) ∅ fields.

(** The stand-in: text parts first, then the file parts in order, then the
    end of the body; on success the files are in the upload directory. *)
Definition sequential_upload (name_of : nat -> FilePart -> string) : Middleware :=
  fun lim mp st =>
    let refuse e :=
      ({| up_err := Some e; up_req := {| req_files := Some []; req_body := ∅ |} |}, st) in
    match read_fields (mp_fields mp) with
    | Some e => refuse e
    | None =>
        match read_files lim name_of (mp_files mp) 0 2 with
        | inl e => refuse e
        | inr stored =>
            if mp_complete mp then
              ({| up_err := None;
                  up_req := {| req_files := Some (stored.*1);
                               req_body := body_of (mp_fields mp) |} |},
               {| fs := foldl (fun dir file => <[ file_path file.1 := file.2 ]> dir)
                          (fs st) stored;
                  outbound := outbound st;
                  console := console st |})
            else refuse (OtherError (new_Error "Unexpected end of form"))
        end
    end.

(** Names for stored files in examples. *)
Definition sample_name (n : nat) (part : FilePart) : string :=
  "babyblur-" +:+ pretty (N.of_nat n) +:+ ".jpg".


(** ** Transformation catalog: [getTransformations] *)

Record Transformation : Type := {
  tr_id : string;
  tr_name : string;
  tr_description : string;
  tr_icon : string;
  tr_category : string
}.

Definition transformations : list Transformation :=
  [ {| tr_id := "avatar"; tr_name := "Avatar Pixar";
       tr_description := "Transform into a cute 3D Pixar-style character";
       tr_icon := "🎭"; tr_category := "Character" |};
    {| tr_id := "age_progression"; tr_name := "Age Progression";
       tr_description := "See how you'll look 20 years older";
       tr_icon := "👴"; tr_category := "Age" |};
    {| tr_id := "age_regression"; tr_name := "Age Regression";
       tr_description := "See how you looked as a child";
       tr_icon := "👶"; tr_category := "Age" |};
    {| tr_id := "pet_generator"; tr_name := "Your Perfect Pet";
       tr_description := "Find the dog that matches your personality";
       tr_icon := "🐕"; tr_category := "Animals" |};
    {| tr_id := "couple_generator"; tr_name := "Perfect Match";
       tr_description := "Generate your ideal romantic partner";
       tr_icon := "💕"; tr_category := "Romance" |};
    {| tr_id := "style_anime"; tr_name := "Anime Style";
       tr_description := "Transform into anime character";
       tr_icon := "🎌"; tr_category := "Art Style" |};
    {| tr_id := "style_painting"; tr_name := "Classical Painting";
       tr_description := "Renaissance masterpiece portrait";
       tr_icon := "🎨"; tr_category := "Art Style" |};
    {| tr_id := "style_cartoon"; tr_name := "Cartoon Style";
       tr_description := "Fun cartoon character version";
       tr_icon := "🎪"; tr_category := "Art Style" |};
    {| tr_id := "baby_blur"; tr_name := "Family Photo";
       tr_description := "Generate family photo with child";
       tr_icon := "👨‍👩‍👦"; tr_category := "Family" |} ].

Definition transformation_json (t : Transformation) : JsValue :=
  VObj [ ("id", VStr (tr_id t)); ("name", VStr (tr_name t));
         ("description", VStr (tr_description t)); ("icon", VStr (tr_icon t));
         ("category", VStr (tr_category t)) ].

(** [getTransformations]: its [try] block builds literals and sends them, so
    the [catch] block (a 500) is never entered. *)
Definition getTransformations : M Response :=
  ret (respond 200
         (VObj [ ("success", VBool true);
                 ("message", VStr "Available transformations retrieved successfully!");
                 ("data", VObj
                    [ ("transformations", VArr (transformation_json <$> transformations));
                      ("totalCount", VNum (Z.of_nat (length transformations))) ]) ])).

(** ** Notions used to state properties *)

Definition is_digit (c : ascii) : bool :=
  let n := nat_of_ascii c in ((48 <=? n) && (n <=? 57))%nat.

Fixpoint all_digits (s : string) : bool :=
  match s with
  | EmptyString => true
  | String c rest => is_digit c && all_digits rest
  end.

(** [s] is empty or starts with a character that is not a decimal digit. *)
Definition no_leading_digit (s : string) : bool :=
  match s with
  | EmptyString => true
  | String c _ => negb (is_digit c)
  end.

(** A computation that creates no file and removes files among [paths] only. *)
Definition touches_only {A : Type} (paths : list string) (m : M A) : Prop :=
  forall st p,
    fs (m st).2 !! p = fs st !! p
    \/ (p ∈ paths /\ fs (m st).2 !! p = None).

(** A world in which the prediction provider accepts the job and ends it in
    the state [final]. *)
Definition prediction_world (final : Prediction) : World :=
  {| now_iso := "2024-01-01T00:00:00.000Z";
     axios_post := fun _ => Throw (new_Error "offline");
     predictions_create :=
       fun _ => Normal {| pred_id := "p1"; pred_status := "starting"; pred_output := None |};
     replicate_wait := fun _ _ => Normal final;
     unlink_error := fun _ => None |}.

Definition prediction_env : gmap string string :=
  {[ "OPENAI_API_KEY" := "sk-test"; "AI_PROVIDER" := "replicate";
     "REPLICATE_API_TOKEN" := "r8_test" ]}.

(** The field [transformationType] sent twice, as multer hands it over. *)
Definition repeated_type_request : Request :=
  {| req_files := Some [sample_file];
     req_body := {[ "transformationType" :=
                      FArr [Some (FStr "avatar"); Some (FStr "avatar")] ]} |}.

(** An acceptable file part with the given contents. *)
Definition sample_part (bytes : string) : FilePart :=
  {| part_fieldname := "images"; part_originalname := "a.jpg";
     part_mimetype := "image/jpeg"; part_bytes := bytes |}.


(** An error of the prediction client that carries the status 429 and whose
    text, which quotes the answer of the provider, contains the stream
    marker. *)
Definition marked_rate_limit_error : JsError :=
  {| err_message :=
       "Request to https://api.replicate.com/v1/predictions failed with status 429 Too Many Requests: ReadableStream is locked.";
     err_stack :=
       "ApiError: Request to https://api.replicate.com/v1/predictions failed with status 429 Too Many Requests: ReadableStream is locked.";
     err_response := Some {| resp_status := VNum 429;
                             resp_statusText := VStr "Too Many Requests";
                             resp_data := VUndefined |} |}.

(** * Properties *)

(** ** The monad *)


Ltac run := unfold bindM, ret, log, send, settle, throw, try_catch, existsSync; simpl.

Lemma bindM_normal {A B : Type} (m : M A) (f : A -> M B) st a st' :
  m st = (Normal a, st') -> bindM m f st = f a st'.
Proof. intros H. unfold bindM. by rewrite H. Qed.

Lemma bindM_throw {A B : Type} (m : M A) (f : A -> M B) st e st' :
  m st = (Throw e, st') -> bindM m f st = (Throw e, st').
Proof. intros H. unfold bindM. by rewrite H. Qed.

Lemma try_catch_normal {A : Type} (m : M A) h st a st' :
  m st = (Normal a, st') -> try_catch m h st = (Normal a, st').
Proof. intros H. unfold try_catch. by rewrite H. Qed.

Lemma try_catch_throw {A : Type} (m : M A) h st e st' :
  m st = (Throw e, st') -> try_catch m h st = h e st'.
Proof. intros H. unfold try_catch. by rewrite H. Qed.

(** ** Cleanup *)

(** Cleanup never throws, makes no outbound call, and leaves [cleanup_fs]. *)
Lemma cleanup_spec (w : World) (files : list UploadedFile) (st : St) :
  exists st',
    cleanupUploadedFiles w files st = (Normal tt, st')
    /\ outbound st' = outbound st
    /\ fs st' = cleanup_fs w files (fs st).
Proof.
  revert st. induction files as [|file rest IH]; intros st.
  - exists st. by destruct st.
  - unfold cleanupUploadedFiles, cleanup_fs in *. simpl.
    set (step := try_catch _ _).
    assert (exists st1, step st = (Normal tt, st1)
                        /\ outbound st1 = outbound st
                        /\ fs st1 = match unlink_error w (file_path file) with
                                    | None => delete (file_path file) (fs st)
                                    | Some _ => fs st
                                    end) as (st1 & Hstep & Hout & Hfs).
    { subst step. run. unfold unlinkSync.
      destruct (fs st !! file_path file) as [contents|] eqn:Hlook.
      - rewrite bool_decide_eq_true_2; [|by eexists].
        rewrite Hlook. destruct (unlink_error w (file_path file)); simpl; eauto.
      - rewrite bool_decide_eq_false_2; [|by intros [? ?]].
        eexists. split; [done|]. split; [done|].
        destruct (unlink_error w (file_path file)); [done|].
        symmetry. by apply delete_id. }
    destruct (IH st1) as (st' & Hrest & Hout' & Hfs').
    exists st'. rewrite (bindM_normal _ _ _ _ _ Hstep).
    split; [done|]. split; [congruence|]. by rewrite Hfs', Hfs.
Qed.

Lemma cleanup_fs_lookup (w : World) (files : list UploadedFile)
    (dir : gmap string string) (p : string) :
  cleanup_fs w files dir !! p = None \/ cleanup_fs w files dir !! p = dir !! p.
Proof.
  revert dir. induction files as [|file rest IH]; intros dir; [by right|].
  unfold cleanup_fs in *. simpl.
  destruct (unlink_error w (file_path file)); [apply IH|].
  destruct (IH (delete (file_path file) dir)) as [H|H]; [by left|].
  rewrite H. destruct (decide (file_path file = p)) as [->|Hne].
  - left. apply lookup_delete_eq.
  - right. by apply lookup_delete_ne.
Qed.

(** A listed file whose deletion does not fail is gone afterwards. *)
Lemma cleanup_fs_removes (w : World) (files : list UploadedFile)
    (dir : gmap string string) (file : UploadedFile) :
  file ∈ files -> unlink_error w (file_path file) = None ->
  cleanup_fs w files dir !! file_path file = None.
Proof.
  revert dir. induction files as [|first rest IH]; intros dir Hin Hok.
  - by apply elem_of_nil in Hin.
  - apply elem_of_cons in Hin as [->|Hin].
    + unfold cleanup_fs. simpl. rewrite Hok.
      destruct (cleanup_fs_lookup w rest (delete (file_path first) dir) (file_path first))
        as [H|H]; [exact H|].
      unfold cleanup_fs in H. rewrite H. apply lookup_delete_eq.
    + unfold cleanup_fs in *. simpl. apply IH; done.
Qed.

(** A file whose deletion fails stays. *)
Lemma cleanup_fs_keeps (w : World) (files : list UploadedFile)
    (dir : gmap string string) (p : string) :
  is_Some (unlink_error w p) -> cleanup_fs w files dir !! p = dir !! p.
Proof.
  intros [e He]. revert dir. induction files as [|first rest IH]; intros dir; [done|].
  unfold cleanup_fs in *. simpl.
  destruct (unlink_error w (file_path first)) eqn:Hfirst; [apply IH|].
  rewrite IH. apply lookup_delete_ne. intros Heq. congruence.
Qed.

(** ** The generation handler *)

Ltac step_cleanup :=
  match goal with
  | |- context [cleanupUploadedFiles ?w ?files ?s] =>
      let st' := fresh "st'" in
      let Hrun := fresh "Hrun" in
      let Hout := fresh "Hout" in
      let Hfs := fresh "Hfs" in
      destruct (cleanup_spec w files s) as (st' & Hrun & Hout & Hfs);
      rewrite Hrun; cbn [fs outbound console] in Hout, Hfs; simpl
  end.

(** The [try] block past the checks of the files, the key and demo mode: the
    key conversion, three lines on the console, the provider, the cleanup and
    the answer. *)
Lemma generateBabyImage_try_generates (env : gmap string string) (w : World)
    (req : Request) (files : list UploadedFile) (st : St) :
  req_files req = Some files -> files <> [] ->
  truthy (of_slot (env !! "OPENAI_API_KEY")) = true ->
  strict_eq_str (of_slot (env !! "DEMO_MODE")) "true" = false ->
  generateBabyImage_try env w req st =
    match field_text (body_or (req_body req !! "transformationType") "baby_blur") with
    | None => (Throw (new_TypeError "Cannot convert object to primitive value"), st)
    | Some key =>
        let prompt := generatePrompt key (length files) in
        let aiProvider := or_default (env !! "AI_PROVIDER") "openai" in
        (let* imageGenerationResponse :=
           (if (aiProvider =? "replicate")%string
            then callReplicateAPI env w prompt files
            else callOpenAIAPI env w prompt files) in
         cleanupUploadedFiles w files ;;
         send_generated w (body_or (req_body req !! "transformationType") "baby_blur")
           prompt aiProvider imageGenerationResponse)
          {| fs := fs st; outbound := outbound st;
             console := ((console st ++ [LogGenerating key (length files)])
                           ++ [LogPrompt prompt]) ++ [LogProvider aiProvider] |}
    end.
Proof.
  intros Hfiles Hne Hkey Hdemo. unfold generateBabyImage_try.
  rewrite Hfiles. destruct files as [|file rest] eqn:Efiles; [done|]. rewrite <- Efiles.
  rewrite Hkey, Hdemo. cbn [negb]. cbv zeta. unfold property_key.
  destruct (field_text _) as [key|]; reflexivity.
Qed.


(** C10. With at least one accepted file and [OPENAI_API_KEY] unset (absent or
    empty), the answer is 500 "API configuration error", whatever
    [AI_PROVIDER] and [DEMO_MODE] say; no provider is called and the upload
    directory is left as it was. *)
Theorem missing_openai_key_is_configuration_error
    (env : gmap string string) (w : World) (req : Request)
    (files : list UploadedFile) (st : St) :
  req_files req = Some files -> files <> [] ->
  truthy (of_slot (env !! "OPENAI_API_KEY")) = false ->
  exists st',
    generateBabyImage env w req st =
      (Normal (respond 500 (error_envelope "API configuration error"
                              (VStr "Image generation service not properly configured"))), st')
    /\ outbound st' = outbound st
    /\ fs st' = fs st.
Proof.
  intros Hfiles Hne Hkey.
  unfold generateBabyImage, generateBabyImage_try, try_catch.
  rewrite Hfiles. destruct files as [|file rest]; [done|].
  rewrite Hkey. run. eauto.
Qed.

Lemma missing_openai_key_is_configuration_error_witness :
  exists st',
    generateBabyImage {[ "AI_PROVIDER" := "replicate"; "DEMO_MODE" := "true" ]}
      (sample_world (Throw (new_Error "offline")) (new_Error "offline"))
      sample_request sample_state =
      (Normal (respond 500 (error_envelope "API configuration error"
                              (VStr "Image generation service not properly configured"))), st')
    /\ outbound st' = outbound sample_state
    /\ fs st' = fs sample_state.
Proof.
  apply (missing_openai_key_is_configuration_error _ _ _ [sample_file]);
    [reflexivity | discriminate | vm_compute; reflexivity].
Defined.

Lemma js_or_slot (o : option string) (fallback : string) :
  js_or (of_slot o) (VStr fallback) = VStr (or_default o fallback).
Proof.
  destruct o as [s|]; [|reflexivity].
  unfold js_or, or_default. simpl. by destruct (s =? "")%string.
Qed.

(** C1 (as amended). With at least one accepted file, [OPENAI_API_KEY] set and
    [DEMO_MODE] equal to [true], the answer is 200 with [demo: true] and the
    image URL [DEMO_IMAGE_URL], or the stock URL when that is absent or empty;
    no provider is called, cleanup has run, and every uploaded file whose
    deletion does not fail is gone. *)
Theorem demo_mode_returns_placeholder
    (env : gmap string string) (w : World) (req : Request)
    (files : list UploadedFile) (st : St) :
  req_files req = Some files -> files <> [] ->
  truthy (of_slot (env !! "OPENAI_API_KEY")) = true ->
  env !! "DEMO_MODE" = Some "true" ->
  exists st',
    generateBabyImage env w req st =
      (Normal (respond 200
         (VObj [ ("success", VBool true);
                 ("message", VStr "Baby selfie generated successfully! (Demo Mode)");
                 ("data", VObj
                    [ ("imageUrl", VStr (or_default (env !! "DEMO_IMAGE_URL") demo_fallback_url));
                      ("prompt", VStr "Demo mode - AI generation temporarily unavailable");
                      ("timestamp", VStr (now_iso w));
                      ("demo", VBool true) ]) ])), st')
    /\ outbound st' = outbound st
    /\ fs st' = cleanup_fs w files (fs st)
    /\ (forall file, file ∈ files -> unlink_error w (file_path file) = None ->
        fs st' !! file_path file = None).
Proof.
  intros Hfiles Hne Hkey Hdemo.
  unfold generateBabyImage, generateBabyImage_try.
  rewrite Hfiles. destruct files as [|file rest]; [done|].
  rewrite Hkey, Hdemo. simpl. rewrite js_or_slot.
  unfold try_catch. run. step_cleanup.
  exists st'. repeat split; try done.
  intros f Hin Hok. rewrite Hfs. by apply cleanup_fs_removes.
Qed.

Lemma demo_mode_returns_placeholder_witness :
  exists st',
    generateBabyImage
      {[ "OPENAI_API_KEY" := "sk-test"; "DEMO_MODE" := "true";
         "DEMO_IMAGE_URL" := "https://example.org/demo.png" ]}
      (sample_world (Throw (new_Error "offline")) (new_Error "offline"))
      sample_request sample_state =
      (Normal (respond 200
         (VObj [ ("success", VBool true);
                 ("message", VStr "Baby selfie generated successfully! (Demo Mode)");
                 ("data", VObj
                    [ ("imageUrl", VStr "https://example.org/demo.png");
                      ("prompt", VStr "Demo mode - AI generation temporarily unavailable");
                      ("timestamp", VStr "2024-01-01T00:00:00.000Z");
                      ("demo", VBool true) ]) ])), st')
    /\ outbound st' = []
    /\ fs st' !! file_path sample_file = None.
Proof.
  destruct (demo_mode_returns_placeholder
              {[ "OPENAI_API_KEY" := "sk-test"; "DEMO_MODE" := "true";
                 "DEMO_IMAGE_URL" := "https://example.org/demo.png" ]}
              (sample_world (Throw (new_Error "offline")) (new_Error "offline"))
              sample_request [sample_file] sample_state)
    as (st' & Hrun & Hout & _ & Hgone);
    [reflexivity | discriminate | vm_compute; reflexivity | vm_compute; reflexivity |].
  exists st'. split; [exact Hrun|]. split; [exact Hout|].
  apply Hgone; [apply list_elem_of_here | reflexivity].
Defined.

(** C1 (as stated) fails: demo mode alone does not give a 200.  With
    [DEMO_MODE=true] and no [OPENAI_API_KEY] the answer is the 500 of the key
    check, which comes first. *)
Lemma demo_mode_without_key_is_500 :
  ~ (forall (env : gmap string string) (w : World) (req : Request)
            (files : list UploadedFile) (st : St),
        req_files req = Some files -> files <> [] ->
        env !! "DEMO_MODE" = Some "true" ->
        exists r st',
          generateBabyImage env w req st = (Normal r, st') /\ res_status r = 200).
Proof.
  intros claim.
  destruct (claim {[ "DEMO_MODE" := "true" ]}
                  (sample_world (Throw (new_Error "offline")) (new_Error "offline"))
                  sample_request [sample_file] sample_state)
    as (r & st' & Hrun & Hstatus); [reflexivity | discriminate | reflexivity |].
  assert (response_of (generateBabyImage {[ "DEMO_MODE" := "true" ]}
                  (sample_world (Throw (new_Error "offline")) (new_Error "offline"))
                  sample_request sample_state) = Some r) as Hr
    by (unfold response_of; rewrite Hrun; reflexivity).
  vm_compute in Hr. injection Hr as <-. discriminate Hstatus.
Qed.

(** ** The handler at work *)

(** A successful generation with the default provider. *)
Example generation_succeeds :
  response_of
    (generateBabyImage {[ "OPENAI_API_KEY" := "sk-test" ]}
       (sample_world
          (Normal (VObj [("data", VArr [VObj [("url", VStr "https://img.example/1.png")]])]))
          (new_Error "offline"))
       {| req_files := Some [sample_file];
          req_body := {[ "transformationType" := FStr "age_progression" ]} |}
       sample_state)
  = Some (respond 200
            (VObj [ ("success", VBool true);
                    ("message", VStr "age progression transformation generated successfully!");
                    ("data", VObj
                       [ ("imageUrl", VStr "https://img.example/1.png");
                         ("prompt", VStr prompt_age_progression);
                         ("transformationType", VStr "age_progression");
                         ("timestamp", VStr "2024-01-01T00:00:00.000Z");
                         ("provider", VStr "openai") ]) ])).
Proof. vm_compute. reflexivity. Qed.

(** A 2xx answer without [data] makes [data[0]] throw after cleanup has run;
    the [catch] block answers 500. *)
Example malformed_answer_is_500 :
  response_of
    (generateBabyImage {[ "OPENAI_API_KEY" := "sk-test" ]}
       (sample_world (Normal (VObj [])) (new_Error "offline"))
       sample_request sample_state)
  = Some (respond 500
            (error_envelope "Image generation failed"
               (VStr "Unable to generate baby selfie. Please try again"))).
Proof. vm_compute. reflexivity. Qed.

Example includes_marker :
  includes "ReadableStream" "TypeError: ReadableStream is not defined" = true
  /\ includes "ReadableStream" "Readable stream closed" = false
  /\ includes "ReadableStream" "" = false.
Proof. repeat split; reflexivity. Qed.

(** ** Error translation *)


Lemma strict_eq_num_true (v : JsValue) (n : Z) :
  strict_eq_num v n = true <-> v = VNum n.
Proof.
  destruct v; simpl; try (split; [discriminate | intros; discriminate]).
  rewrite Z.eqb_eq. split; [by intros -> | by intros [= ->]].
Qed.

(** The [catch] block sends [translate_error], after running cleanup. *)
Lemma generateBabyImage_catch_run (w : World) (req : Request) (e : JsError) (st : St) :
  exists st',
    generateBabyImage_catch w req e st = (Normal (translate_error e), st')
    /\ outbound st' = outbound st
    /\ fs st' = match req_files req with
                | Some files => cleanup_fs w files (fs st)
                | None => fs st
                end.
Proof.
  unfold generateBabyImage_catch, translate_error. run.
  destruct (err_response e) as [r|]; simpl;
    destruct (req_files req) as [files|]; simpl; try step_cleanup;
    repeat match goal with
           | |- context [if ?c then _ else _] => destruct c; simpl
           end; eauto.
Qed.

(** A failure of the [try] block is answered with its translation. *)
Lemma generateBabyImage_failure (env : gmap string string) (w : World)
    (req : Request) (st st1 : St) (e : JsError) :
  generateBabyImage_try env w req st = (Throw e, st1) ->
  exists st', generateBabyImage env w req st = (Normal (translate_error e), st').
Proof.
  intros Htry. unfold generateBabyImage.
  rewrite (try_catch_throw _ _ _ _ _ Htry).
  destruct (generateBabyImage_catch_run w req e st1) as (st' & Hrun & _). eauto.
Qed.


(** The billing hard limit of the error-mapping scenario: upstream 400 with
    code [billing_hard_limit_reached] is answered 402. *)
Example billing_hard_limit_is_402 :
  response_of
    (generateBabyImage {[ "OPENAI_API_KEY" := "sk-test" ]}
       (sample_world
          (Throw (sample_error 400
                    (VObj [("error", VObj [("message", VStr "Billing hard limit has been reached");
                                           ("code", VStr "billing_hard_limit_reached")])])))
          (new_Error "offline"))
       sample_request sample_state)
  = Some (respond 402
            (error_envelope "Service temporarily unavailable"
               (VStr "AI image generation service needs account top-up. Please try again later."))).
Proof. vm_compute. reflexivity. Qed.

(** C7 (as amended). A failure caught by the generation handler that carries
    no upstream status, or a status other than 400, 402 and 429, is answered
    500 with the fixed "Image generation failed" message; and whatever the
    failure, what the handler's [catch] block sends depends on
    [error.response] alone, never on the message or the stack of the
    exception. *)
Theorem unmatched_failure_is_generic_500 (env : gmap string string) (w : World)
    (req : Request) (st st1 : St) (e : JsError) :
  generateBabyImage_try env w req st = (Throw e, st1) ->
  (forall r, err_response e = Some r ->
             resp_status r <> VNum 400 /\ resp_status r <> VNum 402
             /\ resp_status r <> VNum 429) ->
  (exists st',
      generateBabyImage env w req st =
        (Normal (respond 500
                   (error_envelope "Image generation failed"
                      (VStr "Unable to generate baby selfie. Please try again"))), st'))
  /\ (forall (e1 e2 : JsError) (s1 s2 : St),
         err_response e1 = err_response e2 ->
         response_of (generateBabyImage_catch w req e1 s1)
         = response_of (generateBabyImage_catch w req e2 s2)).
Proof.
  intros Htry Hstatus. split.
  - destruct (generateBabyImage_failure env w req st st1 e Htry) as (st' & Hrun).
    exists st'. rewrite Hrun. f_equal. f_equal.
    unfold translate_error. destruct (err_response e) as [r|]; [|reflexivity].
    destruct (Hstatus r eq_refl) as (H400 & H402 & H429).
    destruct (strict_eq_num (resp_status r) 400) eqn:E400;
      [by apply strict_eq_num_true in E400|].
    destruct (strict_eq_num (resp_status r) 402) eqn:E402;
      [by apply strict_eq_num_true in E402|].
    destruct (strict_eq_num (resp_status r) 429) eqn:E429;
      [by apply strict_eq_num_true in E429|].
    reflexivity.
  - intros e1 e2 s1 s2 Hsame.
    destruct (generateBabyImage_catch_run w req e1 s1) as (s1' & -> & _).
    destruct (generateBabyImage_catch_run w req e2 s2) as (s2' & -> & _).
    unfold response_of, translate_error. simpl. by rewrite Hsame.
Qed.

Lemma unmatched_failure_is_generic_500_witness :
  exists st',
    generateBabyImage {[ "OPENAI_API_KEY" := "sk-test" ]}
      (sample_world (Throw (sample_error 503 VNull)) (new_Error "offline"))
      sample_request sample_state =
      (Normal (respond 500
                 (error_envelope "Image generation failed"
                    (VStr "Unable to generate baby selfie. Please try again"))), st').
Proof.
  edestruct (unmatched_failure_is_generic_500 {[ "OPENAI_API_KEY" := "sk-test" ]}
               (sample_world (Throw (sample_error 503 VNull)) (new_Error "offline"))
               sample_request sample_state)
    as [Hrun _]; [vm_compute; reflexivity | | exact Hrun].
  intros r [= <-]. simpl. repeat split; discriminate.
Defined.

(** C7 (as stated) fails: the global error handler of [index.js] puts the
    message of the exception in the body, so two exceptions that differ in
    their message alone are answered differently. *)
Lemma global_error_handler_exposes_message :
  ~ (forall (e1 e2 : JsError) (st : St),
        err_response e1 = err_response e2 ->
        response_of (global_error_handler e1 st)
        = response_of (global_error_handler e2 st)).
Proof.
  intros claim.
  specialize (claim (new_Error "ENOENT: no such file or directory, open 'uploads/x'")
                    (new_Error "Unexpected token } in JSON at position 7")
                    sample_state eq_refl).
  vm_compute in claim. discriminate claim.
Qed.

(** ** Cleanup on the configuration-error path *)

(** C3 fails on the code.  An accepted upload met by a missing
    [OPENAI_API_KEY] is answered 500 by an early [return] that skips
    [cleanupUploadedFiles]: the temporary file is still in the upload
    directory after the response, although the demo, success and [catch] paths
    all clean up. *)
Theorem upload_left_behind_on_configuration_error :
  let run := generateBabyImage ∅
               (sample_world (Throw (new_Error "offline")) (new_Error "offline"))
               sample_request sample_state in
  response_of run =
    Some (respond 500 (error_envelope "API configuration error"
                         (VStr "Image generation service not properly configured")))
  /\ (fs (snd run) !! file_path sample_file = Some "JFIF.")
  /\ (fs sample_state !! file_path sample_file = Some "JFIF.").
Proof. vm_compute. repeat split; reflexivity. Qed.

(** ** Prompt lookup *)

(** Outside the nine identifiers and the names every object inherits, the
    lookup falls back to the avatar prompt. *)
Lemma generatePrompt_fallback (transformationType : string) (imageCount : nat) :
  transformationType ∉ transformation_ids ->
  assoc transformationType object_prototype = None ->
  generatePrompt transformationType imageCount = VStr prompt_avatar.
Proof.
  intros Hnot Hproto. unfold generatePrompt, get_property at 1.
  rewrite Hproto.
  assert (assoc transformationType prompts = None) as ->; [|reflexivity].
  unfold prompts, transformation_ids in *. simpl.
  repeat match goal with
         | |- context [(transformationType =? ?k)%string] =>
             destruct (String.eqb_spec transformationType k) as [->|_];
             [exfalso; apply Hnot; set_solver|]
         end.
  reflexivity.
Qed.

(** C5 fails on the code.  [constructor] is not one of the nine identifiers,
    yet the lookup [prompts['constructor']] finds the property inherited from
    [Object.prototype], a function and therefore truthy, so [generatePrompt]
    returns it instead of the avatar prompt.  The request is still answered
    200 when the provider succeeds. *)
Theorem inherited_name_defeats_fallback :
  ("constructor" ∉ transformation_ids)
  /\ generatePrompt "constructor" 1 = VBuiltin "Object"
  /\ generatePrompt "constructor" 1 <> VStr prompt_avatar
  /\ res_status <$>
       response_of
         (generateBabyImage {[ "OPENAI_API_KEY" := "sk-test" ]}
            (sample_world
               (Normal (VObj [("data", VArr [VObj [("url", VStr "https://img.example/1.png")]])]))
               (new_Error "offline"))
            {| req_files := Some [sample_file];
               req_body := {[ "transformationType" := FStr "constructor" ]} |}
            sample_state)
     = Some 200.
Proof.
  split; [|split; [|split]].
  - unfold transformation_ids. intros Hin.
    repeat (apply elem_of_cons in Hin as [Hin|Hin]; [discriminate Hin|]).
    by apply elem_of_nil in Hin.
  - reflexivity.
  - discriminate.
  - vm_compute. reflexivity.
Qed.

(** ** The prediction provider *)

(** Whether the [try] block of [callReplicateAPI] completes or throws is
    decided by the world, not by the state it starts in. *)
Lemma callReplicateAPI_try_completion (w : World) (auth : string) (prompt : JsValue)
    (s s' : St) :
  (callReplicateAPI_try w auth prompt s).1 = (callReplicateAPI_try w auth prompt s').1.
Proof.
  unfold callReplicateAPI_try. run.
  destruct (predictions_create w (replicate_request auth prompt)) as [prediction|e];
    [|reflexivity]. simpl.
  destruct (replicate_wait w auth prediction) as [final|e]; [|reflexivity]. simpl.
  destruct (pred_status final =? "succeeded")%string; [|reflexivity].
  destruct (pred_output final) as [[|url rest]|]; reflexivity.
Qed.

Lemma callReplicateAPI_try_throws (w : World) (auth : string) (prompt : JsValue)
    (s0 s1 s : St) (e : JsError) :
  callReplicateAPI_try w auth prompt s0 = (Throw e, s1) ->
  exists s', callReplicateAPI_try w auth prompt s = (Throw e, s').
Proof.
  intros H. pose proof (callReplicateAPI_try_completion w auth prompt s s0) as Heq.
  rewrite H in Heq. simpl in Heq.
  destruct (callReplicateAPI_try w auth prompt s) as [c s'] eqn:E.
  simpl in Heq. subst c. eauto.
Qed.

(** With a configured token, [callReplicateAPI] is its [try] block under its
    [catch] block. *)
Lemma callReplicateAPI_configured (env : gmap string string) (w : World)
    (prompt : JsValue) (files : list UploadedFile) (st : St) :
  truthy (of_slot (env !! "REPLICATE_API_TOKEN")) = true ->
  strict_eq_str (of_slot (env !! "REPLICATE_API_TOKEN")) "your_replicate_token_here" = false ->
  callReplicateAPI env w prompt files st =
    try_catch (callReplicateAPI_try w (env_text env "REPLICATE_API_TOKEN") prompt)
      callReplicateAPI_catch
      {| fs := fs st; outbound := outbound st; console := console st ++ [LogCallingReplicate] |}.
Proof. intros Htoken Hplace. unfold callReplicateAPI. rewrite Htoken, Hplace. reflexivity. Qed.

Lemma includes_true_nonempty (needle : string) (hay : string) :
  needle <> "" -> includes needle hay = true -> (hay =? "")%string = false.
Proof.
  intros Hne Hin. destruct hay; [|reflexivity].
  destruct needle; [done|]. simpl in Hin. discriminate.
Qed.

(** The two outcomes of a failure inside the [try] block. *)
Lemma callReplicateAPI_stream_defect (env : gmap string string) (w : World)
    (prompt : JsValue) (files : list UploadedFile) (s0 s1 st : St) (e : JsError) :
  truthy (of_slot (env !! "REPLICATE_API_TOKEN")) = true ->
  strict_eq_str (of_slot (env !! "REPLICATE_API_TOKEN")) "your_replicate_token_here" = false ->
  callReplicateAPI_try w (env_text env "REPLICATE_API_TOKEN") prompt s0 = (Throw e, s1) ->
  exists st',
    callReplicateAPI env w prompt files st =
      (if includes "ReadableStream" (err_message e)
       then Normal (VStr stream_fallback_url) else Throw e, st').
Proof.
  intros Htoken Hplace Htry.
  rewrite callReplicateAPI_configured by done.
  destruct (callReplicateAPI_try_throws w _ prompt s0 s1
              {| fs := fs st; outbound := outbound st;
                 console := console st ++ [LogCallingReplicate] |} e Htry) as (s' & Hs').
  rewrite (try_catch_throw _ _ _ _ _ Hs').
  unfold callReplicateAPI_catch. run.
  destruct (includes "ReadableStream" (err_message e)) eqn:Hin.
  - rewrite (includes_true_nonempty "ReadableStream" _ ltac:(discriminate) Hin). simpl. eauto.
  - rewrite andb_false_r. eauto.
Qed.

(** A failure of the selected provider is a failure of the [try] block: it
    happens before the cleanup and before the answer is built. *)
Lemma generateBabyImage_try_provider_throws (env : gmap string string) (w : World)
    (req : Request) (files : list UploadedFile) (st s' : St) (key : string) (e : JsError) :
  req_files req = Some files -> files <> [] ->
  truthy (of_slot (env !! "OPENAI_API_KEY")) = true ->
  strict_eq_str (of_slot (env !! "DEMO_MODE")) "true" = false ->
  field_text (body_or (req_body req !! "transformationType") "baby_blur") = Some key ->
  (if (or_default (env !! "AI_PROVIDER") "openai" =? "replicate")%string
   then callReplicateAPI env w (generatePrompt key (length files)) files
   else callOpenAIAPI env w (generatePrompt key (length files)) files)
    {| fs := fs st; outbound := outbound st;
       console := ((console st ++ [LogGenerating key (length files)])
                     ++ [LogPrompt (generatePrompt key (length files))])
                    ++ [LogProvider (or_default (env !! "AI_PROVIDER") "openai")] |}
  = (Throw e, s') ->
  generateBabyImage_try env w req st = (Throw e, s').
Proof.
  intros Hfiles Hne Hkey Hdemo Htext Hcall.
  rewrite (generateBabyImage_try_generates env w req files st) by done.
  rewrite Htext. cbv zeta. by rewrite (bindM_throw _ _ _ _ _ Hcall).
Qed.

(** C9 (as amended). When the prediction call fails inside [callReplicateAPI]
    with an error whose message contains [ReadableStream], the dispatcher
    returns the fixed stock-photo URL, and the request is answered 200 with
    that URL provided the field [transformationType] is a text; any other
    error of that call is rethrown unchanged (and answered by the handler's
    error translation). *)
Theorem stream_defect_falls_back (env : gmap string string) (w : World)
    (req : Request) (files : list UploadedFile) (st s0 s1 : St) (e : JsError)
    (key : string) :
  req_files req = Some files -> files <> [] ->
  truthy (of_slot (env !! "OPENAI_API_KEY")) = true ->
  strict_eq_str (of_slot (env !! "DEMO_MODE")) "true" = false ->
  env !! "AI_PROVIDER" = Some "replicate" ->
  truthy (of_slot (env !! "REPLICATE_API_TOKEN")) = true ->
  strict_eq_str (of_slot (env !! "REPLICATE_API_TOKEN")) "your_replicate_token_here" = false ->
  field_text (body_or (req_body req !! "transformationType") "baby_blur") = Some key ->
  let prompt := generatePrompt key (length files) in
  callReplicateAPI_try w (env_text env "REPLICATE_API_TOKEN") prompt s0 = (Throw e, s1) ->
  (includes "ReadableStream" (err_message e) = true ->
   (callReplicateAPI env w prompt files st).1 = Normal (VStr stream_fallback_url)
   /\ (body_or (req_body req !! "transformationType") "baby_blur" = FStr key ->
       exists resp st',
         generateBabyImage env w req st = (Normal resp, st')
         /\ res_status resp = 200
         /\ member (res_body resp) "success" = VBool true
         /\ member (member (res_body resp) "data") "imageUrl" = VStr stream_fallback_url))
  /\ (includes "ReadableStream" (err_message e) = false ->
      (callReplicateAPI env w prompt files st).1 = Throw e
      /\ exists st', generateBabyImage env w req st = (Normal (translate_error e), st')).
Proof.
  intros Hfiles Hne Hkey Hdemo Hprov Htoken Hplace Htext prompt Htry.
  split; intros Hin.
  - split.
    + destruct (callReplicateAPI_stream_defect env w prompt files s0 s1 st e
                  Htoken Hplace Htry) as (st' & ->).
      by rewrite Hin.
    + intros Hfield. unfold generateBabyImage, try_catch.
      rewrite (generateBabyImage_try_generates env w req files st) by done.
      rewrite Htext, Hfield, Hprov. cbv zeta. simpl or_default. simpl String.eqb.
      cbv iota.
      match goal with
      | |- context [bindM (callReplicateAPI env w ?p ?f) _ ?s] =>
          destruct (callReplicateAPI_stream_defect env w p f s0 s1 s e
                      Htoken Hplace Htry) as (st2 & Hcall);
          rewrite (bindM_normal _ _ s (VStr stream_fallback_url) st2)
            by (rewrite Hcall, Hin; reflexivity)
      end.
      unfold bindM at 1. step_cleanup.
      eexists _, _. split; [reflexivity|]. repeat split.
  - split.
    + destruct (callReplicateAPI_stream_defect env w prompt files s0 s1 st e
                  Htoken Hplace Htry) as (st' & ->).
      by rewrite Hin.
    + assert (exists st1, generateBabyImage_try env w req st = (Throw e, st1))
        as (st1 & Hthrow).
      { match goal with
        | |- exists st1, _ = (Throw e, st1) =>
            destruct (callReplicateAPI_stream_defect env w prompt files s0 s1
                        {| fs := fs st; outbound := outbound st;
                           console := ((console st ++ [LogGenerating key (length files)])
                                         ++ [LogPrompt prompt])
                                        ++ [LogProvider "replicate"] |}
                        e Htoken Hplace Htry) as (st2 & Hcall)
        end.
        exists st2.
        apply (generateBabyImage_try_provider_throws env w req files st st2 key e);
          try done.
        rewrite Hprov. change (or_default (Some "replicate") "openai") with "replicate".
        rewrite String.eqb_refl.
        unfold prompt in Hcall. rewrite Hcall, Hin. reflexivity. }
      by apply (generateBabyImage_failure env w req st st1 e).
Qed.

Lemma stream_defect_falls_back_witness :
  exists resp st',
    generateBabyImage
      {[ "OPENAI_API_KEY" := "sk-test"; "AI_PROVIDER" := "replicate";
         "REPLICATE_API_TOKEN" := "r8_test" ]}
      (sample_world (Throw (new_Error "offline"))
                    (new_Error "ReadableStream is not defined"))
      sample_request sample_state = (Normal resp, st')
    /\ res_status resp = 200
    /\ member (res_body resp) "success" = VBool true
    /\ member (member (res_body resp) "data") "imageUrl" = VStr stream_fallback_url.
Proof.
  edestruct (stream_defect_falls_back
               {[ "OPENAI_API_KEY" := "sk-test"; "AI_PROVIDER" := "replicate";
                  "REPLICATE_API_TOKEN" := "r8_test" ]}
               (sample_world (Throw (new_Error "offline"))
                             (new_Error "ReadableStream is not defined"))
               sample_request [sample_file] sample_state sample_state)
    as [Hdefect _];
    [reflexivity | discriminate | vm_compute; reflexivity | vm_compute; reflexivity
    | vm_compute; reflexivity | vm_compute; reflexivity | vm_compute; reflexivity
    | vm_compute; reflexivity | vm_compute; reflexivity |].
  apply Hdefect; vm_compute; reflexivity.
Defined.

(** C9 (as stated) fails: the fallback of the dispatcher does not make the
    request a success when the field [transformationType] was sent twice.
    The field is then an array; the dispatcher returns the stock URL, the
    cleanup runs, and building the answer throws because an array has no
    method [replace]: the request is answered 500. *)
Lemma repeated_field_defeats_fallback :
  ~ (forall (env : gmap string string) (w : World) (req : Request)
            (files : list UploadedFile) (st : St) (e : JsError),
        req_files req = Some files -> files <> [] ->
        truthy (of_slot (env !! "OPENAI_API_KEY")) = true ->
        strict_eq_str (of_slot (env !! "DEMO_MODE")) "true" = false ->
        env !! "AI_PROVIDER" = Some "replicate" ->
        truthy (of_slot (env !! "REPLICATE_API_TOKEN")) = true ->
        strict_eq_str (of_slot (env !! "REPLICATE_API_TOKEN")) "your_replicate_token_here" = false ->
        (forall prompt s,
            (callReplicateAPI_try w (env_text env "REPLICATE_API_TOKEN") prompt s).1 = Throw e) ->
        includes "ReadableStream" (err_message e) = true ->
        exists resp st',
          generateBabyImage env w req st = (Normal resp, st') /\ res_status resp = 200).
Proof.
  intros claim.
  destruct (claim {[ "OPENAI_API_KEY" := "sk-test"; "AI_PROVIDER" := "replicate";
                     "REPLICATE_API_TOKEN" := "r8_test" ]}
                  (sample_world (Throw (new_Error "offline"))
                                (new_Error "ReadableStream is not defined"))
                  repeated_type_request [sample_file] sample_state
                  (new_Error "ReadableStream is not defined"))
    as (resp & st' & Hrun & Hstatus);
    [reflexivity | discriminate | vm_compute; reflexivity | vm_compute; reflexivity
    | vm_compute; reflexivity | vm_compute; reflexivity | vm_compute; reflexivity
    | reflexivity | vm_compute; reflexivity |].
  assert (response_of (generateBabyImage
                         {[ "OPENAI_API_KEY" := "sk-test"; "AI_PROVIDER" := "replicate";
                            "REPLICATE_API_TOKEN" := "r8_test" ]}
                         (sample_world (Throw (new_Error "offline"))
                                       (new_Error "ReadableStream is not defined"))
                         repeated_type_request sample_state) = Some resp) as Hresp
    by (unfold response_of; rewrite Hrun; reflexivity).
  vm_compute in Hresp. injection Hresp as <-. discriminate Hstatus.
Qed.

(** What happens to that request, step by step: the dispatcher was called
    and fell back, the upload is gone, the answer is 500. *)
Example repeated_field_run :
  let run := generateBabyImage
               {[ "OPENAI_API_KEY" := "sk-test"; "AI_PROVIDER" := "replicate";
                  "REPLICATE_API_TOKEN" := "r8_test" ]}
               (sample_world (Throw (new_Error "offline"))
                             (new_Error "ReadableStream is not defined"))
               repeated_type_request sample_state in
  response_of run =
    Some (respond 500 (error_envelope "Image generation failed"
                         (VStr "Unable to generate baby selfie. Please try again")))
  /\ LogFallback ∈ console run.2
  /\ length (outbound run.2) = 1%nat
  /\ fs run.2 !! file_path sample_file = None.
Proof.
  vm_compute. split; [reflexivity|]. split; [|split; reflexivity].
  repeat first [apply list_elem_of_here | apply list_elem_of_further].
Qed.

(** ** Provider failures that carry a status *)




(** That request is answered 200 with the stock URL. *)
Example marked_rate_limit_is_200 :
  let run := generateBabyImage
               {[ "OPENAI_API_KEY" := "sk-test"; "AI_PROVIDER" := "replicate";
                  "REPLICATE_API_TOKEN" := "r8_test" ]}
               (sample_world (Throw (new_Error "offline")) marked_rate_limit_error)
               sample_request sample_state in
  (res_status <$> response_of run) = Some 200
  /\ ((fun r => member (member (res_body r) "data") "imageUrl") <$> response_of run)
     = Some (VStr stream_fallback_url).
Proof. vm_compute. split; reflexivity. Qed.

(** ** Outbound calls *)

Lemma quiet_ret {A : Type} (a : A) : quiet (ret a).
Proof. by intros st. Qed.

Lemma quiet_throw {A : Type} (e : JsError) : quiet (@throw A e).
Proof. by intros st. Qed.

Lemma quiet_log (entry : ConsoleEntry) : quiet (log entry).
Proof. by intros st. Qed.

Lemma quiet_bind {A B : Type} (m : M A) (f : A -> M B) :
  quiet m -> (forall a, quiet (f a)) -> quiet (bindM m f).
Proof.
  intros Hm Hf st. unfold bindM. specialize (Hm st).
  destruct (m st) as [[a|e] st1]; simpl in *; [|exact Hm].
  by rewrite Hf.
Qed.

Lemma quiet_cleanup (w : World) (files : list UploadedFile) :
  quiet (cleanupUploadedFiles w files).
Proof. intros st. destruct (cleanup_spec w files st) as (st' & -> & Hout & _). exact Hout. Qed.

Lemma quiet_member_strict (v : JsValue) (k : string) : quiet (member_strict v k).
Proof. intros st. by destruct v. Qed.

Lemma quiet_index0_strict (v : JsValue) : quiet (index0_strict v).
Proof. intros st. destruct v as [| | | |[|c s]| |[|x l]|]; reflexivity. Qed.

Lemma quiet_catch (w : World) (req : Request) (e : JsError) :
  quiet (generateBabyImage_catch w req e).
Proof.
  intros st. destruct (generateBabyImage_catch_run w req e st) as (st' & -> & Hout & _).
  exact Hout.
Qed.

(** After a quiet continuation the outbound calls are those of the head. *)
Lemma bind_quiet_tail {A B : Type} (m : M A) (f : A -> M B) (st : St) :
  (forall a, quiet (f a)) -> outbound (bindM m f st).2 = outbound (m st).2.
Proof.
  intros Hf. unfold bindM. destruct (m st) as [[a|e] st1]; simpl; [|reflexivity].
  apply Hf.
Qed.

Lemma callOpenAIAPI_outbound (env : gmap string string) (w : World)
    (prompt : JsValue) (files : list UploadedFile) (st : St) :
  outbound (callOpenAIAPI env w prompt files st).2
  = (outbound st ++ [OutAxiosPost (openai_request env prompt)])%list.
Proof.
  unfold callOpenAIAPI. run.
  by destruct (axios_post w (openai_request env prompt)).
Qed.

Lemma callReplicateAPI_outbound (env : gmap string string) (w : World)
    (prompt : JsValue) (files : list UploadedFile) (st : St) :
  outbound (callReplicateAPI env w prompt files st).2
  = (outbound st ++
      (let token := of_slot (env !! "REPLICATE_API_TOKEN") in
       if negb (truthy token) || strict_eq_str token "your_replicate_token_here" then []
       else
         let auth := env_text env "REPLICATE_API_TOKEN" in
         match predictions_create w (replicate_request auth prompt) with
         | Normal prediction =>
             [OutPredictionsCreate (replicate_request auth prompt); OutWait auth prediction]
         | Throw _ => [OutPredictionsCreate (replicate_request auth prompt)]
         end))%list.
Proof.
  unfold callReplicateAPI. cbv zeta.
  destruct (negb _ || _); [simpl; by rewrite app_nil_r|].
  unfold callReplicateAPI_try, callReplicateAPI_catch. run.
  destruct (predictions_create w _) as [prediction|e]; simpl.
  - rewrite <- app_assoc. simpl.
    destruct (replicate_wait w _ prediction) as [final|e]; simpl.
    + destruct (pred_status final =? "succeeded")%string;
        [destruct (pred_output final) as [[|url rest]|]|]; simpl;
        try reflexivity; by case_match.
    + by case_match.
  - by case_match.
Qed.

Lemma log_then {A : Type} (entry : ConsoleEntry) (m : M A) (st : St) :
  (log entry ;; m) st
  = m {| fs := fs st; outbound := outbound st; console := console st ++ [entry] |}.
Proof. reflexivity. Qed.

Lemma quiet_send_generated (w : World) (transformationType : FieldValue)
    (prompt : JsValue) (aiProvider : string) (response : JsValue) :
  quiet (send_generated w transformationType prompt aiProvider response).
Proof.
  unfold send_generated. destruct transformationType; try apply quiet_throw.
  apply quiet_bind; [|intros url; apply quiet_ret].
  destruct (aiProvider =? "replicate")%string; [apply quiet_ret|].
  apply quiet_bind; [apply quiet_member_strict|]. intros data.
  apply quiet_bind; [apply quiet_index0_strict|]. intros first.
  apply quiet_member_strict.
Qed.

(** The outbound calls of the [try] block are [provider_calls]: they depend
    on the files only through there being at least one. *)
Lemma generateBabyImage_try_outbound (env : gmap string string) (w : World)
    (req : Request) (st : St) :
  outbound (generateBabyImage_try env w req st).2
  = (outbound st ++
       match req_files req with
       | None | Some [] => []
       | Some (_ :: _) => provider_calls env w (req_body req !! "transformationType")
       end)%list.
Proof.
  unfold provider_calls.
  destruct (req_files req) as [[|file rest]|] eqn:Hfiles;
    try (unfold generateBabyImage_try; rewrite Hfiles; simpl; by rewrite app_nil_r).
  destruct (truthy (of_slot (env !! "OPENAI_API_KEY"))) eqn:Hkey; cbn [negb];
    [|unfold generateBabyImage_try; rewrite Hfiles, Hkey; simpl; by rewrite app_nil_r].
  destruct (strict_eq_str (of_slot (env !! "DEMO_MODE")) "true") eqn:Hdemo.
  - unfold generateBabyImage_try. rewrite Hfiles, Hkey, Hdemo. cbn [negb].
    rewrite app_nil_r.
    apply (quiet_bind (log LogDemoMode)); [apply quiet_log|]. intros _.
    apply quiet_bind; [apply quiet_cleanup|]. intros _. apply quiet_ret.
  - rewrite (generateBabyImage_try_generates env w req (file :: rest) st) by done.
    destruct (field_text _) as [key|]; [|simpl; by rewrite app_nil_r].
    cbv zeta. rewrite bind_quiet_tail.
    + destruct (or_default (env !! "AI_PROVIDER") "openai" =? "replicate")%string.
      * rewrite callReplicateAPI_outbound. reflexivity.
      * rewrite callOpenAIAPI_outbound. reflexivity.
    + intros response. apply quiet_bind; [apply quiet_cleanup|]. intros _.
      apply quiet_send_generated.
Qed.

Lemma generateBabyImage_outbound (env : gmap string string) (w : World)
    (req : Request) (st : St) :
  outbound (generateBabyImage env w req st).2
  = (outbound st ++
       match req_files req with
       | None | Some [] => []
       | Some (_ :: _) => provider_calls env w (req_body req !! "transformationType")
       end)%list.
Proof.
  rewrite <- generateBabyImage_try_outbound.
  unfold generateBabyImage, try_catch.
  destruct (generateBabyImage_try env w req st) as [[r|e] st1]; [reflexivity|].
  simpl. apply quiet_catch.
Qed.

(** C4. The requests sent to either provider are built from the prompt and
    fixed parameters; nothing of the uploaded files enters them.  Two requests
    with the same [transformationType] field and the same number of files,
    handled under the same configuration and world, make the same outbound
    calls, whatever the files and the contents of the upload directory. *)
Theorem provider_requests_ignore_files (env : gmap string string) (w : World)
    (req1 req2 : Request) (st1 st2 : St) :
  req_body req1 !! "transformationType" = req_body req2 !! "transformationType" ->
  length (default [] (req_files req1)) = length (default [] (req_files req2)) ->
  outbound st1 = outbound st2 ->
  outbound (generateBabyImage env w req1 st1).2
  = outbound (generateBabyImage env w req2 st2).2.
Proof.
  intros Htype Hcount Hout.
  rewrite !generateBabyImage_outbound, Htype, Hout.
  destruct (req_files req1) as [[|f1 r1]|], (req_files req2) as [[|f2 r2]|];
    simpl in Hcount; try discriminate; reflexivity.
Qed.

Lemma provider_requests_ignore_files_witness :
  outbound
    (generateBabyImage {[ "OPENAI_API_KEY" := "sk-test" ]}
       (sample_world (Throw (sample_error 429 VNull)) (new_Error "offline"))
       sample_request sample_state).2
  = outbound
      (generateBabyImage {[ "OPENAI_API_KEY" := "sk-test" ]}
         (sample_world (Throw (sample_error 429 VNull)) (new_Error "offline"))
         {| req_files :=
              Some [ {| file_path := "uploads/babyblur-1700000000001-42.png";
                        file_filename := "babyblur-1700000000001-42.png";
                        file_originalname := "other.png";
                        file_mimetype := "image/png";
                        file_size := 9 |} ];
            req_body := ∅ |}
         {| fs := {[ "uploads/babyblur-1700000000001-42.png" := "PNG......" ]};
            outbound := []; console := [] |}).2.
Proof. apply provider_requests_ignore_files; reflexivity. Defined.

(** The default provider's request for the avatar transformation. *)
Example avatar_request_to_default_provider :
  outbound
    (generateBabyImage {[ "OPENAI_API_KEY" := "sk-test" ]}
       (sample_world (Throw (sample_error 429 VNull)) (new_Error "offline"))
       {| req_files := Some [sample_file];
          req_body := {[ "transformationType" := FStr "avatar" ]} |}
       sample_state).2
  = [ OutAxiosPost
        {| oa_url := "https://api.openai.com/v1/images/generations";
           oa_model := "dall-e-3";
           oa_prompt := VStr prompt_avatar;
           oa_n := 1;
           oa_size := "1024x1792";
           oa_quality := "hd";
           oa_style := "natural";
           oa_authorization := "Bearer sk-test";
           oa_content_type := "application/json";
           oa_timeout := 60000 |} ].
Proof. vm_compute. reflexivity. Qed.

(** ** The upload middleware and the limits *)

Lemma post_generate_image_run (upload : Middleware) (load_env env : gmap string string)
    (w : World) (mp : Multipart) (st : St) :
  post_generate_image upload load_env env w mp st =
    upload_callback env w (up_err (upload_run upload load_env mp st).1)
      (up_req (upload_run upload load_env mp st).1) (upload_run upload load_env mp st).2.
Proof.
  unfold post_generate_image, upload_run. rewrite log_then.
  by destruct (upload _ _ _).
Qed.

Lemma upload_run_outbound (upload : Middleware) (load_env : gmap string string)
    (mp : Multipart) (st : St) :
  multer_contract upload -> outbound (upload_run upload load_env mp st).2 = outbound st.
Proof. intros K. unfold upload_run. by rewrite (multer_calls_no_provider upload K). Qed.

(** *** The stand-in honours the contract *)

Lemma read_files_cons (lim : Limits) (name_of : nat -> FilePart -> string)
    (part : FilePart) (rest : list FilePart) (seen left : nat) :
  read_files lim name_of (part :: rest) seen left =
    if reached (limit_files lim) seen then
      inl (MulterError "LIMIT_FILE_COUNT" "Too many files")
    else if (part_originalname part =? "")%string then
      read_files lim name_of rest (S seen) left
    else if negb (part_fieldname part =? "images")%string then
      inl (MulterError "LIMIT_UNEXPECTED_FILE" "Unexpected field")
    else
      match left with
      | O => inl (MulterError "LIMIT_UNEXPECTED_FILE" "Unexpected field")
      | S left' =>
          match (fileFilter (incoming part)).2 with
          | Throw e => inl (OtherError e)
          | Normal false => read_files lim name_of rest (S seen) left'
          | Normal true =>
              if below (limit_fileSize lim) (part_size part) then
                inl (MulterError "LIMIT_FILE_SIZE" "File too large")
              else
                match read_files lim name_of rest (S seen) left' with
                | inl e => inl e
                | inr files =>
                    inr ((stored_file (name_of seen part) part, part_bytes part) :: files)
                end
          end
      end.
Proof. reflexivity. Qed.

Lemma acceptable_inv (part : FilePart) :
  acceptable part = true ->
  (part_fieldname part =? "images")%string = true
  /\ (part_originalname part =? "")%string = false
  /\ (fileFilter (incoming part)).2 = Normal true.
Proof.
  unfold acceptable. intros H.
  apply andb_prop in H as [H Hfilter]. apply andb_prop in H as [Hfield Hname].
  split; [exact Hfield|]. split; [by apply negb_true_iff in Hname|].
  destruct ((fileFilter (incoming part)).2) as [[|]|e]; done.
Qed.

(** An acceptable part within the limits is passed over. *)
Lemma read_files_small (lim : Limits) (name_of : nat -> FilePart -> string)
    (L F : Z) (part : FilePart) (rest : list FilePart) (seen left : nat) :
  limit_fileSize lim = Num L -> limit_files lim = Num F ->
  acceptable part = true -> (part_size part <? L)%Z = true ->
  Z.of_nat seen < F ->
  read_files lim name_of (part :: rest) seen (S left) =
    match read_files lim name_of rest (S seen) left with
    | inl e => inl e
    | inr files => inr ((stored_file (name_of seen part) part, part_bytes part) :: files)
    end.
Proof.
  intros HL HF Hacc Hsmall Hseen.
  destruct (acceptable_inv part Hacc) as (Hfield & Hname & Hfilter).
  rewrite read_files_cons, HL, HF, Hname, Hfield, Hfilter. cbn [reached below negb].
  rewrite (proj2 (Z.eqb_neq F (Z.of_nat seen))) by lia.
  apply Z.ltb_lt in Hsmall.
  rewrite (proj2 (Z.ltb_ge L (part_size part))) by lia.
  reflexivity.
Qed.

Lemma read_files_finds_large_file (lim : Limits) (name_of : nat -> FilePart -> string)
    (L F : Z) (parts : list FilePart) :
  limit_fileSize lim = Num L -> limit_files lim = Num F ->
  forall (i seen left : nat) (big : FilePart),
    parts !! i = Some big -> acceptable big = true -> L < part_size big ->
    forallb (fun part => acceptable part && (part_size part <? L)%Z) (take i parts) = true ->
    Z.of_nat (seen + i) < F -> (i < left)%nat ->
    read_files lim name_of parts seen left
    = inl (MulterError "LIMIT_FILE_SIZE" "File too large").
Proof.
  intros HL HF. induction parts as [|part rest IH]; intros i seen left big Hat Hacc Hbig Hbefore Hseen Hleft.
  - by destruct i.
  - destruct left as [|left]; [lia|]. destruct i as [|i].
    + injection Hat as ->.
      destruct (acceptable_inv big Hacc) as (Hfield & Hname & Hfilter).
      rewrite read_files_cons, HL, HF, Hname, Hfield, Hfilter. cbn [reached below negb].
      rewrite (proj2 (Z.eqb_neq F (Z.of_nat seen))) by lia.
      rewrite (proj2 (Z.ltb_lt L (part_size big))) by lia.
      reflexivity.
    + cbn [take forallb] in Hbefore.
      apply andb_prop in Hbefore as [Hpart Hbefore].
      apply andb_prop in Hpart as [Hpart Hsmall].
      rewrite (read_files_small lim name_of L F) by (done || lia).
      rewrite (IH i (S seen) left big) by (done || lia).
      reflexivity.
Qed.

Lemma read_files_finds_extra_file (lim : Limits) (name_of : nat -> FilePart -> string)
    (L F : Z) :
  limit_fileSize lim = Num L -> limit_files lim = Num F ->
  forall (n : nat) (parts : list FilePart) (seen left : nat),
    Z.of_nat (seen + n) = F -> (n <= left)%nat -> (n < length parts)%nat ->
    forallb (fun part => acceptable part && (part_size part <? L)%Z) (take n parts) = true ->
    read_files lim name_of parts seen left
    = inl (MulterError "LIMIT_FILE_COUNT" "Too many files").
Proof.
  intros HL HF. induction n as [|n IH]; intros parts seen left Hseen Hleft Hlen Hbefore;
    destruct parts as [|part rest]; simpl in Hlen; try lia.
  - rewrite read_files_cons, HF. cbn [reached].
    rewrite (proj2 (Z.eqb_eq F (Z.of_nat seen))) by lia. reflexivity.
  - destruct left as [|left]; [lia|].
    cbn [take forallb] in Hbefore.
    apply andb_prop in Hbefore as [Hpart Hbefore].
    apply andb_prop in Hpart as [Hpart Hsmall].
    rewrite (read_files_small lim name_of L F) by (done || lia).
    rewrite (IH rest (S seen) left) by (done || lia).
    reflexivity.
Qed.

Lemma read_fields_acceptable (mp : Multipart) :
  fields_acceptable mp = true -> read_fields (mp_fields mp) = None.
Proof.
  unfold fields_acceptable. induction (mp_fields mp) as [|field rest IH]; [done|].
  cbn [forallb read_fields]. intros H.
  apply andb_prop in H as [H Hrest]. apply andb_prop in H as [Hname Hsize].
  apply negb_true_iff in Hname. apply Z.ltb_lt in Hsize.
  rewrite Hname, (proj2 (Z.ltb_ge default_fieldSize (field_size field))) by lia.
  by apply IH.
Qed.

Lemma read_fields_long_value (mp : Multipart) :
  fields_named mp = true -> some_field_above_limit mp = true ->
  read_fields (mp_fields mp) = Some (MulterError "LIMIT_FIELD_VALUE" "Field value too long").
Proof.
  unfold fields_named, some_field_above_limit.
  induction (mp_fields mp) as [|field rest IH]; [done|].
  cbn [forallb existsb read_fields]. intros Hnamed Habove.
  apply andb_prop in Hnamed as [Hname Hnamed]. apply negb_true_iff in Hname.
  rewrite Hname.
  destruct (default_fieldSize <? field_size field)%Z; [reflexivity|].
  by apply IH.
Qed.

Lemma sequential_upload_contract (name_of : nat -> FilePart -> string) :
  multer_contract (sequential_upload name_of).
Proof.
  split.
  - intros lim mp st. unfold sequential_upload. repeat case_match; reflexivity.
  - intros lim mp st Hfiles Hcomplete Hfields. unfold sequential_upload.
    rewrite (read_fields_acceptable mp Hfields), Hfiles, Hcomplete. by split.
  - intros lim mp st Hfiles Hnamed Habove. unfold sequential_upload.
    rewrite (read_fields_long_value mp Hnamed Habove). by eexists.
  - intros lim mp st i Hfields Hviol. unfold sequential_upload.
    rewrite (read_fields_acceptable mp Hfields).
    unfold size_violation in Hviol.
    destruct (limit_fileSize lim) as [|L|] eqn:HL; try discriminate.
    destruct (limit_files lim) as [|F|] eqn:HF; try discriminate.
    destruct (mp_files mp !! i) as [big|] eqn:Hat; try discriminate.
    apply andb_prop in Hviol as [Hviol Hbefore]. apply andb_prop in Hviol as [Hviol Hacc].
    apply andb_prop in Hviol as [Hviol Hbig]. apply andb_prop in Hviol as [Hviol Htwo].
    apply andb_prop in Hviol as [Hpos Hcount].
    apply Z.ltb_lt in Hbig, Hcount. apply Nat.ltb_lt in Htwo.
    rewrite (read_files_finds_large_file lim name_of L F (mp_files mp) HL HF i 0 2 big);
      try done; try (simpl; lia).
    by eexists.
  - intros lim mp st Hfields Hviol. unfold sequential_upload.
    rewrite (read_fields_acceptable mp Hfields).
    unfold count_violation in Hviol.
    destruct (limit_fileSize lim) as [|L|] eqn:HL; try discriminate.
    destruct (limit_files lim) as [|F|] eqn:HF; try discriminate.
    apply andb_prop in Hviol as [Hviol Hbefore]. apply andb_prop in Hviol as [Hviol Hmore].
    apply andb_prop in Hviol as [Hviol Htwo]. apply andb_prop in Hviol as [Hpos Hone].
    apply Z.leb_le in Hone, Htwo. apply Z.ltb_lt in Hmore.
    rewrite (read_files_finds_extra_file lim name_of L F HL HF (Z.to_nat F) (mp_files mp) 0 2);
      try done; try lia.
    by eexists.
Qed.

(** *** File size and file count *)

(** C8 (as amended).  For a middleware that honours the contract of multer
    and a body whose text parts each have a name and a value below the limit
    on field values: when a file part among those the count limit admits is
    larger than the configured size limit, it and the parts before it being
    acceptable and those before it smaller than the limit, the answer is 413
    "File too large"; when there are more file parts than the configured
    count limit of 1 or 2 and the parts it admits are acceptable and smaller
    than the size limit, the answer is 400 "Too many files".  In both cases
    the controller is not run: no provider is called, and the upload
    directory is as the middleware left it.  A request that breaks both
    limits is answered for the violation met first. *)
Theorem upload_limit_violation_answered (upload : Middleware)
    (load_env env : gmap string string) (w : World) (mp : Multipart) (st : St) :
  multer_contract upload ->
  fields_acceptable mp = true ->
  ((exists i, size_violation (upload_limits load_env) mp i = true) ->
   exists st',
     post_generate_image upload load_env env w mp st =
       (Normal (respond 413 (error_envelope "File too large"
                               (VStr "Each image must be smaller than 10MB"))), st')
     /\ outbound st' = outbound st
     /\ fs st' = fs (upload_run upload load_env mp st).2)
  /\ (count_violation (upload_limits load_env) mp = true ->
      exists st',
        post_generate_image upload load_env env w mp st =
          (Normal (respond 400 (error_envelope "Too many files"
                                  (VStr "Maximum 2 images allowed"))), st')
        /\ outbound st' = outbound st
        /\ fs st' = fs (upload_run upload load_env mp st).2).
Proof.
  intros K Hfields. split.
  - intros [i Hviol].
    destruct (multer_refuses_large_file upload K (upload_limits load_env) mp
                {| fs := fs st; outbound := outbound st;
                   console := console st ++ [LogIncomingUpload] |} i Hfields Hviol)
      as [message Herr].
    rewrite post_generate_image_run.
    change (upload (upload_limits load_env) mp _) with (upload_run upload load_env mp st) in Herr.
    rewrite Herr. unfold upload_callback. run.
    eexists. split; [reflexivity|]. simpl. split; [|reflexivity].
    by apply upload_run_outbound.
  - intros Hviol.
    destruct (multer_refuses_extra_file upload K (upload_limits load_env) mp
                {| fs := fs st; outbound := outbound st;
                   console := console st ++ [LogIncomingUpload] |} Hfields Hviol)
      as [message Herr].
    rewrite post_generate_image_run.
    change (upload (upload_limits load_env) mp _) with (upload_run upload load_env mp st) in Herr.
    rewrite Herr. unfold upload_callback. run.
    eexists. split; [reflexivity|]. simpl. split; [|reflexivity].
    by apply upload_run_outbound.
Qed.

Lemma upload_limit_violation_answered_witness :
  exists st',
    post_generate_image (sequential_upload sample_name) {[ "MAX_FILE_SIZE" := "4" ]}
      {[ "OPENAI_API_KEY" := "sk-test" ]}
      (sample_world (Throw (new_Error "offline")) (new_Error "offline"))
      {| mp_files := [sample_part "JF."; sample_part "JFIF."];
         mp_fields := [("transformationType", "avatar")];
         mp_complete := true |}
      sample_state =
      (Normal (respond 413 (error_envelope "File too large"
                              (VStr "Each image must be smaller than 10MB"))), st')
    /\ outbound st' = [].
Proof.
  edestruct (upload_limit_violation_answered (sequential_upload sample_name)
               {[ "MAX_FILE_SIZE" := "4" ]} {[ "OPENAI_API_KEY" := "sk-test" ]}
               (sample_world (Throw (new_Error "offline")) (new_Error "offline"))
               {| mp_files := [sample_part "JF."; sample_part "JFIF."];
                  mp_fields := [("transformationType", "avatar")];
                  mp_complete := true |}
               sample_state)
    as [Hsize _]; [apply sequential_upload_contract | vm_compute; reflexivity |].
  destruct Hsize as (st' & Hrun & Hout & _).
  - exists 1%nat. vm_compute. reflexivity.
  - exists st'. split; [exact Hrun | exact Hout].
Defined.

(** The same with three small parts: the third is one too many. *)
Example third_file_is_too_many :
  response_of
    (post_generate_image (sequential_upload sample_name) ∅
       {[ "OPENAI_API_KEY" := "sk-test" ]}
       (sample_world (Throw (new_Error "offline")) (new_Error "offline"))
       {| mp_files := [sample_part "JF."; sample_part "JFIF."; sample_part "J"];
          mp_fields := []; mp_complete := true |}
       sample_state)
  = Some (respond 400 (error_envelope "Too many files" (VStr "Maximum 2 images allowed"))).
Proof. vm_compute. reflexivity. Qed.

(** C8 (as stated) fails whatever the middleware does: a request with three
    file parts of which one is over the size limit would have to be answered
    413 and 400 at once. *)
Lemma size_and_count_violations_collide :
  ~ (exists upload : Middleware,
        forall (load_env env : gmap string string) (w : World) (mp : Multipart) (st : St),
          ((exists part, part ∈ mp_files mp /\ oversized load_env part) ->
           exists r, response_of (post_generate_image upload load_env env w mp st) = Some r
                     /\ res_status r = 413
                     /\ member (res_body r) "error" = VStr "File too large")
          /\ (limit_files (upload_limits load_env) = Num 2 ->
              2 < Z.of_nat (length (mp_files mp)) ->
              exists r, response_of (post_generate_image upload load_env env w mp st) = Some r
                        /\ res_status r = 400
                        /\ member (res_body r) "error" = VStr "Too many files")).
Proof.
  intros [upload claim].
  destruct (claim {[ "MAX_FILE_SIZE" := "4" ]} ∅
                  (sample_world (Throw (new_Error "offline")) (new_Error "offline"))
                  {| mp_files := [sample_part "JFIF."; sample_part "JFIF."; sample_part "JFIF."];
                     mp_fields := []; mp_complete := true |}
                  sample_state) as [Hsize Hcount].
  destruct Hsize as (r1 & Hr1 & Hs1 & _).
  { exists (sample_part "JFIF."). split; [apply list_elem_of_here|]. vm_compute. reflexivity. }
  destruct Hcount as (r2 & Hr2 & Hs2 & _); [reflexivity | vm_compute; reflexivity |].
  rewrite Hr1 in Hr2. injection Hr2 as <-. rewrite Hs1 in Hs2. discriminate.
Qed.

(** *** No file at all *)








(** ** Cleanup on the other paths *)

Lemma keeps_ret {A : Type} (a : A) : keeps_files (ret a).
Proof. by intros st. Qed.

Lemma keeps_throw {A : Type} (e : JsError) : keeps_files (@throw A e).
Proof. by intros st. Qed.

Lemma keeps_log (entry : ConsoleEntry) : keeps_files (log entry).
Proof. by intros st. Qed.

Lemma keeps_send (o : Outbound) : keeps_files (send o).
Proof. by intros st. Qed.

Lemma keeps_settle {A : Type} (c : Completion A) : keeps_files (settle c).
Proof. by intros st. Qed.

Lemma keeps_bind {A B : Type} (m : M A) (f : A -> M B) :
  keeps_files m -> (forall a, keeps_files (f a)) -> keeps_files (bindM m f).
Proof.
  intros Hm Hf st. unfold bindM. specialize (Hm st).
  destruct (m st) as [[a|e] st1]; simpl in *; [|exact Hm].
  by rewrite Hf.
Qed.

Lemma keeps_try_catch {A : Type} (m : M A) (h : JsError -> M A) :
  keeps_files m -> (forall e, keeps_files (h e)) -> keeps_files (try_catch m h).
Proof.
  intros Hm Hh st. unfold try_catch. specialize (Hm st).
  destruct (m st) as [[a|e] st1]; simpl in *; [exact Hm|].
  by rewrite Hh.
Qed.

Lemma keeps_member_strict (v : JsValue) (k : string) : keeps_files (member_strict v k).
Proof. intros st. by destruct v. Qed.

Lemma keeps_index0_strict (v : JsValue) : keeps_files (index0_strict v).
Proof. intros st. destruct v as [| | | |[|c s]| |[|x l]|]; reflexivity. Qed.

Ltac keeps :=
  repeat first
    [ apply keeps_ret | apply keeps_throw | apply keeps_log | apply keeps_send
    | apply keeps_settle | apply keeps_member_strict | apply keeps_index0_strict
    | apply keeps_bind | apply keeps_try_catch | intros ? | case_match ].

Lemma keeps_callOpenAIAPI (env : gmap string string) (w : World)
    (prompt : JsValue) (files : list UploadedFile) :
  keeps_files (callOpenAIAPI env w prompt files).
Proof. unfold callOpenAIAPI. cbv zeta. keeps. Qed.

Lemma keeps_callReplicateAPI (env : gmap string string) (w : World)
    (prompt : JsValue) (files : list UploadedFile) :
  keeps_files (callReplicateAPI env w prompt files).
Proof.
  unfold callReplicateAPI, callReplicateAPI_try, callReplicateAPI_catch. cbv zeta. keeps.
Qed.

Lemma keeps_send_generated (w : World) (transformationType : FieldValue)
    (prompt : JsValue) (aiProvider : string) (response : JsValue) :
  keeps_files (send_generated w transformationType prompt aiProvider response).
Proof. unfold send_generated. destruct transformationType; keeps. Qed.

(** When the [try] block completes for a request with files and a configured
    key, cleanup has run. *)
Lemma generateBabyImage_try_cleaned (env : gmap string string) (w : World)
    (req : Request) (files : list UploadedFile) (st st1 : St) (r : Response) :
  req_files req = Some files -> files <> [] ->
  truthy (of_slot (env !! "OPENAI_API_KEY")) = true ->
  generateBabyImage_try env w req st = (Normal r, st1) ->
  fs st1 = cleanup_fs w files (fs st).
Proof.
  intros Hfiles Hne Hkey.
  destruct (strict_eq_str (of_slot (env !! "DEMO_MODE")) "true") eqn:Hdemo.
  - unfold generateBabyImage_try.
    rewrite Hfiles. destruct files as [|file rest] eqn:Efiles; [done|]. rewrite <- Efiles.
    rewrite Hkey, Hdemo. cbn [negb].
    rewrite log_then. unfold bindM at 1. step_cleanup. intros [= _ <-]. exact Hfs.
  - rewrite (generateBabyImage_try_generates env w req files st) by done.
    destruct (field_text _) as [key|]; [|discriminate]. cbv zeta. unfold bindM at 1.
    match goal with
    | |- context [(if ?c then callReplicateAPI ?e ?w ?p ?f else callOpenAIAPI ?e ?w ?p ?f) ?s] =>
        assert (fs ((if c then callReplicateAPI e w p f else callOpenAIAPI e w p f) s).2 = fs st)
          as Hprov
          by (destruct c; [rewrite keeps_callReplicateAPI | rewrite keeps_callOpenAIAPI];
              reflexivity);
        destruct ((if c then callReplicateAPI e w p f else callOpenAIAPI e w p f) s)
          as [[response|e'] s2]
    end; [|discriminate].
    simpl in Hprov. unfold bindM at 1. step_cleanup.
    intros Hrest.
    match type of Hrest with
    | ?m ?s = _ =>
        pose proof (keeps_send_generated w _ _ _ _ s : fs (m s).2 = fs s) as Hkeep;
        rewrite Hrest in Hkeep
    end.
    simpl in Hkeep. rewrite Hkeep, Hfs. by rewrite Hprov.
Qed.

(** Whenever the key is configured, every uploaded file whose deletion does
    not fail is gone when the handler has answered: on the demo path, after a
    successful generation, and after any failure. *)
Lemma uploads_removed_when_key_present (env : gmap string string) (w : World)
    (req : Request) (files : list UploadedFile) (st : St) (file : UploadedFile) :
  req_files req = Some files ->
  truthy (of_slot (env !! "OPENAI_API_KEY")) = true ->
  file ∈ files -> unlink_error w (file_path file) = None ->
  fs (generateBabyImage env w req st).2 !! file_path file = None.
Proof.
  intros Hfiles Hkey Hin Hok.
  assert (files <> []) as Hne by (intros ->; by apply elem_of_nil in Hin).
  unfold generateBabyImage, try_catch.
  destruct (generateBabyImage_try env w req st) as [[r|e] st1] eqn:Htry.
  - simpl. rewrite (generateBabyImage_try_cleaned env w req files st st1 r) by done.
    by apply cleanup_fs_removes.
  - destruct (generateBabyImage_catch_run w req e st1) as (st' & -> & _ & Hfs).
    simpl. rewrite Hfs, Hfiles. by apply cleanup_fs_removes.
Qed.

(** * Further properties of the code *)

(** ** File filter *)

Lemma ends_with_unfold (suffix s : string) :
  ends_with suffix s =
    if (s =? suffix)%string then true
    else match s with
         | EmptyString => false
         | String _ rest => ends_with suffix rest
         end.
Proof. by destruct s. Qed.

Lemma ends_with_correct (suffix s : string) :
  ends_with suffix s = true <-> exists stem, s = stem +:+ suffix.
Proof.
  induction s as [|c rest IH]; rewrite ends_with_unfold.
  - destruct (String.eqb_spec "" suffix) as [<-|Hne].
    + split; [|done]. intros _. by exists "".
    + split; [done|]. intros [stem Heq].
      destruct stem; simpl in Heq; [done|discriminate].
  - destruct (String.eqb_spec (String c rest) suffix) as [<-|Hne].
    + split; [|done]. intros _. by exists "".
    + rewrite IH. split.
      * intros [stem ->]. by exists (String c stem).
      * intros [stem Heq]. destruct stem as [|c' stem]; simpl in Heq; [done|].
        injection Heq as _ ->. by exists stem.
Qed.

Lemma lowercase_app (a b : string) :
  lowercase (a +:+ b) = lowercase a +:+ lowercase b.
Proof. induction a as [|c a IH]; simpl; [done|]. by rewrite IH. Qed.

Lemma lowercase_split (s a b : string) :
  lowercase s = a +:+ b ->
  exists a' b', s = a' +:+ b' /\ lowercase a' = a /\ lowercase b' = b.
Proof.
  revert s. induction a as [|c a IH]; intros s Heq; simpl in Heq.
  - by exists "", s.
  - destruct s as [|c' s]; simpl in Heq; [discriminate|].
    injection Heq as Hc Hrest.
    destruct (IH s Hrest) as (a' & b' & -> & <- & <-).
    exists (String c' a'), b'. simpl. by rewrite Hc.
Qed.

Lemma to_lower_dot (c : ascii) : to_lower c = "."%char -> c = "."%char.
Proof. destruct c as [[] [] [] [] [] [] [] []]; vm_compute; congruence. Qed.

Lemma has_image_extension_correct (name : string) :
  has_image_extension name = true
  <-> exists stem ext, name = stem +:+ "." +:+ ext /\ lowercase ext ∈ image_extensions.
Proof.
  unfold has_image_extension. rewrite existsb_exists. split.
  - intros (ext & Hin & Hends). apply ends_with_correct in Hends as [stem Hlow].
    apply lowercase_split in Hlow as (stem' & tail & -> & _ & Htail).
    destruct tail as [|c ext']; simpl in Htail; [discriminate|].
    injection Htail as Hc Hext. apply to_lower_dot in Hc as ->.
    exists stem', ext'. split; [done|]. rewrite Hext. by apply list_elem_of_In.
  - intros (stem & ext & -> & Hin). exists (lowercase ext).
    split; [by apply list_elem_of_In|].
    apply ends_with_correct. exists (lowercase stem).
    by rewrite lowercase_app.
Qed.

(** X1. The file filter accepts a part exactly when its declared MIME type
    starts with [image/], or it has no name, or its name ends in a dot
    followed by one of the eight extensions in any mix of upper and lower
    case; every other part is refused with the fixed error. *)
Theorem fileFilter_accepts_iff (file : IncomingFile) :
  ((fileFilter file).2 = Normal true
   <-> (String.prefix "image/" (in_mimetype file) = true
        \/ in_originalname file = ""
        \/ exists stem ext,
            in_originalname file = stem +:+ "." +:+ ext
            /\ lowercase ext ∈ image_extensions))
  /\ ((fileFilter file).2 = Normal true
      \/ (fileFilter file).2
         = Throw (new_Error "Only image files are allowed (jpeg, jpg, png, gif, webp)")).
Proof.
  unfold fileFilter. cbv zeta.
  destruct (String.prefix "image/" (in_mimetype file)) eqn:Hmime.
  - assert ((in_mimetype file =? "")%string = false) as ->
      by (destruct (in_mimetype file); [discriminate Hmime | reflexivity]).
    simpl. split; [|by left]. split; [by left | done].
  - rewrite andb_false_r. simpl.
    destruct (String.eqb_spec (in_originalname file) "") as [Hname|Hname].
    + rewrite Hname. simpl. split; [|by left]. split; [by right; left | done].
    + simpl. destruct (has_image_extension (in_originalname file)) eqn:Hext; simpl.
      * split; [|by left]. split; [|done]. intros _. right; right.
        by apply has_image_extension_correct.
      * split; [|by right]. split; [discriminate|].
        intros [H|[H|H]]; [discriminate | contradiction |].
        apply has_image_extension_correct in H. congruence.
Qed.

Example fileFilter_samples :
  (fileFilter {| in_fieldname := "images"; in_originalname := "holiday.JPG";
                 in_mimetype := "application/octet-stream"; in_encoding := "7bit" |}).2
  = Normal true
  /\ (fileFilter {| in_fieldname := "images"; in_originalname := "setup.exe";
                    in_mimetype := "image/png"; in_encoding := "7bit" |}).2
     = Normal true
  /\ (fileFilter {| in_fieldname := "images"; in_originalname := "notes.txt";
                    in_mimetype := "text/plain"; in_encoding := "7bit" |}).2
     = Throw (new_Error "Only image files are allowed (jpeg, jpg, png, gif, webp)").
Proof. repeat split; reflexivity. Qed.

(** ** Upload errors *)

(** X2. Whatever error the upload middleware hands over, the route answers
    with a client error and never runs the controller: 413 exactly for the
    multer code [LIMIT_FILE_SIZE], 400 for every other multer code and for any
    other error (a refused file type, but also a failing disk); no provider is
    called and the upload directory is not touched. *)
Theorem upload_error_is_client_error (env : gmap string string) (w : World)
    (err : UploadError) (req : Request) (st : St) :
  exists r st',
    upload_callback env w (Some err) req st = (Normal r, st')
    /\ (res_status r = 413 \/ res_status r = 400)
    /\ (res_status r = 413 <-> exists message, err = MulterError "LIMIT_FILE_SIZE" message)
    /\ member (res_body r) "success" = VBool false
    /\ outbound st' = outbound st
    /\ fs st' = fs st.
Proof.
  unfold upload_callback. destruct err as [code message|e]; run.
  - destruct (String.eqb_spec code "LIMIT_FILE_SIZE") as [->|Hsize].
    { eexists _, _. split; [reflexivity|]. simpl. repeat split; eauto. }
    destruct (code =? "LIMIT_FILE_COUNT")%string;
      [|destruct (code =? "LIMIT_UNEXPECTED_FILE")%string];
      (eexists _, _; split; [reflexivity|]; simpl; repeat split; eauto;
       try discriminate; intros [m [= ? ?]]; contradiction).
  - eexists _, _. split; [reflexivity|]. simpl. repeat split; eauto; try discriminate.
    intros [m [=]].
Qed.

(** ** Upload limits *)

(** X3. Neither limit can be configured to zero, and neither is ever [NaN]:
    whatever the environment holds, a variable that is absent, has no digits
    to read or reads as zero gives way to the default. *)
Theorem upload_limits_never_zero (env : gmap string string) :
  limit_fileSize (upload_limits env) <> Num 0
  /\ limit_fileSize (upload_limits env) <> NaN
  /\ limit_files (upload_limits env) <> Num 0
  /\ limit_files (upload_limits env) <> NaN.
Proof.
  unfold upload_limits, number_or. cbn [limit_fileSize limit_files].
  repeat split.
  - destruct (parseInt (env !! "MAX_FILE_SIZE")) as [|z|]; try done.
    destruct (Z.eqb_spec z 0); [done|congruence].
  - destruct (parseInt (env !! "MAX_FILE_SIZE")) as [|z|]; try done.
    by destruct (z =? 0)%Z.
  - destruct (parseInt (env !! "MAX_FILES")) as [|z|]; try done.
    destruct (Z.eqb_spec z 0); [done|congruence].
  - destruct (parseInt (env !! "MAX_FILES")) as [|z|]; try done.
    by destruct (z =? 0)%Z.
Qed.

(** What the limits read of some texts: a unit suffix is dropped, a leading
    no-break space is skipped, a sign is kept, digits past the precision of a
    double are rounded. *)
Example upload_limits_samples :
  limit_fileSize (upload_limits {[ "MAX_FILE_SIZE" := "10MB" ]}) = Num 10
  /\ limit_files (upload_limits {[ "MAX_FILES" := utf8 [194; 160] +:+ "8" ]}) = Num 8
  /\ limit_fileSize (upload_limits {[ "MAX_FILE_SIZE" := "-5" ]}) = Num (-5)
  /\ limit_fileSize (upload_limits {[ "MAX_FILE_SIZE" := "0x10" ]}) = Num 16
  /\ limit_fileSize (upload_limits {[ "MAX_FILE_SIZE" := "9007199254740993" ]})
     = Num 9007199254740992
  /\ limit_fileSize (upload_limits {[ "MAX_FILE_SIZE" := "9007199254740995" ]})
     = Num 9007199254740996
  /\ limit_files (upload_limits {[ "MAX_FILES" := "two" ]}) = Num 2
  /\ limit_files (upload_limits ∅) = Num 2.
Proof. vm_compute. repeat split; reflexivity. Qed.

Lemma digit_value_char (d : N) :
  (d < 10)%N -> digit_value (pretty_N_char d) = Some (Z.of_N d).
Proof.
  intros Hd.
  assert (d = 0 \/ d = 1 \/ d = 2 \/ d = 3 \/ d = 4 \/ d = 5 \/ d = 6 \/ d = 7
          \/ d = 8 \/ d = 9)%N as H by lia.
  repeat (destruct H as [->|H]; [reflexivity|]). by subst.
Qed.

Lemma parse_digits_digit (radix : Z) (c : ascii) (s : string) (acc : option Z) (d : Z) :
  digit_value c = Some d -> (d <? radix)%Z = true ->
  parse_digits radix (String c s) acc
  = parse_digits radix s (Some (default 0 acc * radix + d)).
Proof. intros Hd Hlt. simpl. by rewrite Hd, Hlt. Qed.

(** Reading back the digits printed for [x] multiplies what was read so far
    by a power of ten and adds [x]. *)
Lemma parse_digits_pretty_go (x : N) :
  (0 < x)%N ->
  exists m : Z, forall (s : string) (acc : option Z),
    parse_digits 10 (pretty_N_go x s) acc
    = parse_digits 10 s (Some (default 0 acc * m + Z.of_N x)).
Proof.
  induction (N.lt_wf_0 x) as [x _ IH]. intros Hpos.
  assert (Hdigit : forall s acc,
             parse_digits 10 (String (pretty_N_char (x `mod` 10)) s) acc
             = parse_digits 10 s (Some (default 0 acc * 10 + Z.of_N (x `mod` 10)))).
  { intros s acc. apply parse_digits_digit.
    - apply digit_value_char. by apply N.mod_lt.
    - apply Z.ltb_lt. pose proof (N.mod_lt x 10 ltac:(done)). lia. }
  destruct (decide (x `div` 10 = 0)%N) as [Hsmall|Hbig].
  - exists 10. intros s acc.
    rewrite pretty_N_go_step, Hsmall, pretty_N_go_0, Hdigit by done.
    do 3 f_equal. pose proof (N.div_mod x 10 ltac:(done)) as Hx.
    rewrite Hsmall, N.mul_0_r, N.add_0_l in Hx. by rewrite <- Hx.
  - destruct (IH (x `div` 10)%N) as [m Hm].
    { by apply N.div_lt. }
    { by apply N.neq_0_lt_0. }
    exists (m * 10). intros s acc.
    rewrite pretty_N_go_step, Hm, Hdigit by done. simpl.
    do 2 f_equal. pose proof (N.div_mod x 10 ltac:(done)) as Hx.
    apply (f_equal Z.of_N) in Hx. rewrite N2Z.inj_add, N2Z.inj_mul in Hx.
    rewrite Hx. change (Z.of_N 10) with 10%Z. ring.
Qed.

Lemma pretty_N_go_app (x : N) (s rest : string) :
  pretty_N_go x s +:+ rest = pretty_N_go x (s +:+ rest).
Proof.
  revert s. induction (N.lt_wf_0 x) as [x _ IH]. intros s.
  destruct (decide (x = 0)%N) as [->|Hne]; [by rewrite !pretty_N_go_0|].
  rewrite (pretty_N_go_step x s), (pretty_N_go_step x (s +:+ rest))
    by (by apply N.neq_0_lt_0).
  rewrite IH by (apply N.div_lt; [by apply N.neq_0_lt_0 | done]). reflexivity.
Qed.

(** The text printed for a positive number starts with a digit from 1 to 9. *)
Lemma pretty_N_go_leading (x : N) :
  (0 < x)%N ->
  exists d, (0 < d < 10)%N /\ forall s, exists s', pretty_N_go x s = String (pretty_N_char d) s'.
Proof.
  induction (N.lt_wf_0 x) as [x _ IH]. intros Hpos.
  destruct (decide (x `div` 10 = 0)%N) as [Hsmall|Hbig].
  - exists (x `mod` 10)%N. split.
    + pose proof (N.div_mod x 10 ltac:(done)). pose proof (N.mod_lt x 10 ltac:(done)). lia.
    + intros s. rewrite pretty_N_go_step, Hsmall, pretty_N_go_0 by done. eauto.
  - destruct (IH (x `div` 10)%N) as (d & Hd & Hlead).
    { by apply N.div_lt. }
    { by apply N.neq_0_lt_0. }
    exists d. split; [done|]. intros s. rewrite pretty_N_go_step by done. apply Hlead.
Qed.

Lemma trim_start_digit (d : N) (s : string) :
  trim_start (String (pretty_N_char d) s) = String (pretty_N_char d) s.
Proof. unfold pretty_N_char. by repeat case_match. Qed.

Lemma trim_start_blank (blank s : string) :
  blank ∈ white_space -> trim_start (blank +:+ s) = trim_start s.
Proof.
  unfold white_space. intros Hin.
  repeat (apply elem_of_cons in Hin as [->|Hin]; [reflexivity|]).
  by apply elem_of_nil in Hin.
Qed.

Lemma trim_start_blanks (blanks : list string) (s : string) :
  Forall (fun blank => blank ∈ white_space) blanks ->
  trim_start (foldr String.append s blanks) = trim_start s.
Proof.
  induction 1 as [|blank blanks Hblank _ IH]; [reflexivity|].
  cbn [foldr]. by rewrite trim_start_blank.
Qed.

Lemma parseInt_leading_digit (d : N) (s : string) (blanks : list string) :
  (0 < d < 10)%N ->
  Forall (fun blank => blank ∈ white_space) blanks ->
  parseInt (Some (foldr String.append (String (pretty_N_char d) s) blanks))
  = match parse_digits 10 (String (pretty_N_char d) s) None with
    | Some m => nearest_double m
    | None => NaN
    end.
Proof.
  intros Hd Hblanks. unfold parseInt.
  rewrite trim_start_blanks, trim_start_digit by done.
  assert (d = 1 \/ d = 2 \/ d = 3 \/ d = 4 \/ d = 5 \/ d = 6 \/ d = 7 \/ d = 8 \/ d = 9)%N
    as H by lia.
  repeat (destruct H as [->|H]; [reflexivity|]). by subst.
Qed.

Lemma parse_digits_stops (rest : string) (v : Z) :
  no_leading_digit rest = true -> parse_digits 10 rest (Some v) = Some v.
Proof.
  destruct rest as [|c rest]; [done|]. simpl. intros Hc.
  destruct (digit_value c) as [d|] eqn:Hd; [|done].
  assert ((d <? 10)%Z = false) as ->; [|done].
  apply Z.ltb_ge. apply negb_true_iff in Hc.
  unfold is_digit in Hc. unfold digit_value in Hd.
  set (n := nat_of_ascii c) in *. clearbody n.
  repeat match type of Hd with
         | context [if ?b then _ else _] => destruct b eqn:?
         end; simplify_eq;
    rewrite ?andb_true_iff, ?andb_false_iff, ?Z.leb_le, ?Z.leb_gt,
      ?Nat.leb_le, ?Nat.leb_gt in *; lia.
Qed.

(** [parseInt] of the decimal text of a positive integer, after any white
    space and followed by anything that does not start with a digit, is the
    double nearest to that integer. *)
Lemma parseInt_decimal_prefix (blanks : list string) (n : N) (rest : string) :
  Forall (fun blank => blank ∈ white_space) blanks ->
  (0 < n)%N -> no_leading_digit rest = true ->
  parseInt (Some (foldr String.append (pretty n +:+ rest) blanks))
  = nearest_double (Z.of_N n).
Proof.
  intros Hblanks Hn Hrest.
  assert (pretty n = pretty_N_go n "") as ->
    by (unfold pretty, pretty_N; case_decide; [lia|done]).
  rewrite pretty_N_go_app. change ("" +:+ rest) with rest.
  destruct (pretty_N_go_leading n Hn) as (d & Hd & Hlead).
  destruct (Hlead rest) as [s' Hs']. rewrite Hs', parseInt_leading_digit, <- Hs' by done.
  destruct (parse_digits_pretty_go n Hn) as [m ->]. simpl.
  by rewrite parse_digits_stops.
Qed.

(** The double nearest to a positive integer is not zero, so it is never
    replaced by a default. *)
Lemma number_or_nearest_double (m fallback : Z) :
  0 < m -> number_or (nearest_double m) fallback = nearest_double m.
Proof.
  intros Hm. unfold nearest_double.
  destruct (Z.ltb_spec m (2 ^ 53)) as [Hsmall|Hlarge].
  - unfold number_or. by rewrite (proj2 (Z.eqb_neq m 0)) by lia.
  - cbv zeta.
    set (k := Z.log2 m - 52).
    match goal with
    | |- context [if ?c then ?a else m / 2 ^ k] => set (q := if c then a else m / 2 ^ k)
    end.
    destruct (2 ^ 1024 <=? q * 2 ^ k)%Z; [reflexivity|].
    unfold number_or.
    assert (53 <= Z.log2 m) as Hlog.
    { change 53 with (Z.log2 (2 ^ 53)). by apply Z.log2_le_mono. }
    assert (0 < 2 ^ k) as Hpow by (apply Z.pow_pos_nonneg; lia).
    assert (2 ^ k <= m) as Hle.
    { transitivity (2 ^ Z.log2 m); [apply Z.pow_le_mono_r; lia|].
      apply Z.log2_spec. lia. }
    assert (0 < m / 2 ^ k) as Hq by (apply Z.div_str_pos; lia).
    assert (0 < q) as Hq' by (subst q; case_match; lia).
    rewrite (proj2 (Z.eqb_neq (q * 2 ^ k) 0)); [reflexivity|].
    apply Z.neq_mul_0. lia.
Qed.

(** X4. A limit variable whose text is, after any white space, the decimal
    digits of a positive integer [n] followed by anything that does not start
    with a digit sets the limit to the double nearest to [n], which is [n]
    itself below [2^53]: the tail is ignored, so [10MB] means ten bytes. *)
Theorem upload_limits_read_leading_digits (env : gmap string string)
    (blanks : list string) (n : N) (rest : string) :
  Forall (fun blank => blank ∈ white_space) blanks ->
  (0 < n)%N -> no_leading_digit rest = true ->
  (env !! "MAX_FILE_SIZE" = Some (foldr String.append (pretty n +:+ rest) blanks) ->
   limit_fileSize (upload_limits env) = nearest_double (Z.of_N n))
  /\ (env !! "MAX_FILES" = Some (foldr String.append (pretty n +:+ rest) blanks) ->
      limit_files (upload_limits env) = nearest_double (Z.of_N n))
  /\ ((n < 2 ^ 53)%N -> nearest_double (Z.of_N n) = Num (Z.of_N n)).
Proof.
  intros Hblanks Hn Hrest.
  split; [|split].
  - intros Henv. unfold upload_limits. cbn [limit_fileSize].
    rewrite Henv, parseInt_decimal_prefix by done.
    apply number_or_nearest_double. lia.
  - intros Henv. unfold upload_limits. cbn [limit_files].
    rewrite Henv, parseInt_decimal_prefix by done.
    apply number_or_nearest_double. lia.
  - intros Hsmall. unfold nearest_double.
    rewrite (proj2 (Z.ltb_lt (Z.of_N n) (2 ^ 53))); [reflexivity|].
    change (2 ^ 53) with (Z.of_N (2 ^ 53)). lia.
Qed.

Lemma upload_limits_read_leading_digits_witness :
  limit_fileSize (upload_limits {[ "MAX_FILE_SIZE" := "10MB" ]}) = Num 10
  /\ limit_files (upload_limits {[ "MAX_FILES" := utf8 [194; 160] +:+ "5 files" ]}) = Num 5.
Proof.
  split.
  - destruct (upload_limits_read_leading_digits {[ "MAX_FILE_SIZE" := "10MB" ]} [] 10 "MB")
      as (Hsize & _ & Hexact); [constructor | done | done |].
    rewrite Hsize by (vm_compute; reflexivity). apply Hexact. done.
  - destruct (upload_limits_read_leading_digits
                {[ "MAX_FILES" := utf8 [194; 160] +:+ "5 files" ]}
                [utf8 [194; 160]] 5 " files")
      as (_ & Hfiles & Hexact);
      [repeat constructor; unfold white_space; set_solver | done | done |].
    rewrite Hfiles by (vm_compute; reflexivity). apply Hexact. done.
Defined.

(** ** Stored file names *)

Lemma is_digit_char (d : N) : is_digit (pretty_N_char d) = true.
Proof. unfold pretty_N_char. by repeat case_match. Qed.

Lemma all_digits_pretty_N_go (x : N) (s : string) :
  all_digits s = true -> all_digits (pretty_N_go x s) = true.
Proof.
  revert s. induction (N.lt_wf_0 x) as [x _ IH]. intros s Hs.
  destruct (decide (x = 0)%N) as [->|Hne]; [by rewrite pretty_N_go_0|].
  rewrite pretty_N_go_step by (by apply N.neq_0_lt_0).
  apply IH; [apply N.div_lt; [by apply N.neq_0_lt_0 | done]|].
  simpl. by rewrite is_digit_char.
Qed.

Lemma all_digits_pretty (n : N) : all_digits (pretty n) = true.
Proof.
  unfold pretty, pretty_N. case_decide; [done|]. by apply all_digits_pretty_N_go.
Qed.

Lemma append_cons (x : ascii) (a b : string) : String x a +:+ b = String x (a +:+ b).
Proof. reflexivity. Qed.

Lemma append_nil (b : string) : "" +:+ b = b.
Proof. reflexivity. Qed.

(** Two runs of digits, each followed by a character that is not a digit. *)
Lemma digits_then_other_inj (a b : string) (c c' : ascii) (r r' : string) :
  all_digits a = true -> all_digits b = true ->
  is_digit c = false -> is_digit c' = false ->
  a +:+ String c r = b +:+ String c' r' ->
  a = b /\ String c r = String c' r'.
Proof.
  revert b. induction a as [|x a IH]; intros [|y b] Ha Hb Hc Hc' Heq;
    rewrite ?append_cons, ?append_nil in Heq; simpl in Ha, Hb.
  - done.
  - injection Heq as -> _. apply andb_true_iff in Hb as [Hb _]. congruence.
  - injection Heq as -> _. apply andb_true_iff in Ha as [Ha _]. congruence.
  - injection Heq as -> Heq.
    apply andb_true_iff in Ha as [_ Ha]. apply andb_true_iff in Hb as [_ Hb].
    destruct (IH b Ha Hb Hc Hc' Heq) as [-> ?]. done.
Qed.

Lemma append_assoc (a b c : string) : (a +:+ b) +:+ c = a +:+ (b +:+ c).
Proof. induction a as [|x a IH]; [done|]. rewrite !append_cons. by rewrite IH. Qed.

(** X5. Stored names collide only when the clock and the random draw both
    coincide: two names produced by [storage.filename] are equal only if the
    timestamps are equal and the random suffixes are equal. *)
Theorem storage_filename_injective (extname : string -> string)
    (now now' random random' : N) (file file' : IncomingFile) :
  extname_contract extname ->
  (storage_filename extname now random file).2
  = (storage_filename extname now' random' file').2 ->
  now = now' /\ random = random'.
Proof.
  intros Hext. unfold storage_filename. cbv zeta. cbn [snd].
  assert (forall f, exists e,
             (if (extname (in_originalname f) =? "")%string then ".jpg"
              else extname (in_originalname f)) = String "."%char e) as Hdot.
  { intros f. destruct (Hext (in_originalname f)) as [->|[e ->]]; simpl; eauto. }
  destruct (Hdot file) as [e ->], (Hdot file') as [e' ->].
  intros Heq. apply (inj (String.append "babyblur-")) in Heq.
  rewrite !append_assoc, !append_cons, !append_nil in Heq.
  apply digits_then_other_inj in Heq as [Hnow Hrest];
    [|apply all_digits_pretty|apply all_digits_pretty|done|done].
  injection Hrest as Hrest.
  apply digits_then_other_inj in Hrest as [Hrandom _];
    [|apply all_digits_pretty|apply all_digits_pretty|done|done].
  split; by apply (inj pretty).
Qed.

Lemma storage_filename_injective_witness :
  (storage_filename stub_extname 1700000000000 123456789
     {| in_fieldname := "images"; in_originalname := "me.png";
        in_mimetype := "image/png"; in_encoding := "7bit" |}).2
  = "babyblur-1700000000000-123456789.png"
  /\ (forall now random file,
         (storage_filename stub_extname now random file).2
         = (storage_filename stub_extname 1700000000000 123456789
              {| in_fieldname := "images"; in_originalname := "me.png";
                 in_mimetype := "image/png"; in_encoding := "7bit" |}).2 ->
         now = 1700000000000%N /\ random = 123456789%N).
Proof.
  split; [vm_compute; reflexivity|].
  intros now random file. apply storage_filename_injective.
  intros name. unfold stub_extname. repeat case_match; eauto.
Defined.

(** ** More on cleanup *)

(** One turn of the [forEach] of [cleanupUploadedFiles]. *)
Lemma cleanup_step (w : World) (file : UploadedFile) (rest : list UploadedFile) (st : St) :
  cleanupUploadedFiles w (file :: rest) st
  = cleanupUploadedFiles w rest
      {| fs := match unlink_error w (file_path file) with
               | None => delete (file_path file) (fs st)
               | Some _ => fs st
               end;
         outbound := outbound st;
         console :=
           console st ++
             match fs st !! file_path file with
             | None => []
             | Some _ =>
                 match unlink_error w (file_path file) with
                 | None => [LogCleanedUp (file_filename file)]
                 | Some e => [ErrDeleting (file_filename file) e]
                 end
             end |}.
Proof.
  unfold cleanupUploadedFiles. simpl. run. unfold unlinkSync.
  destruct (fs st !! file_path file) as [contents|] eqn:Hlook.
  - rewrite bool_decide_eq_true_2 by (by eexists). rewrite Hlook.
    by destruct (unlink_error w (file_path file)).
  - rewrite bool_decide_eq_false_2 by (by intros [? ?]). simpl.
    rewrite app_nil_r.
    destruct (unlink_error w (file_path file)); [by destruct st|].
    rewrite delete_id by done. by destruct st.
Qed.

Lemma cleanup_fs_frame (w : World) (files : list UploadedFile)
    (dir : gmap string string) (p : string) :
  p ∉ file_path <$> files -> cleanup_fs w files dir !! p = dir !! p.
Proof.
  revert dir. induction files as [|file rest IH]; intros dir Hnot; [done|].
  rewrite fmap_cons in Hnot. apply not_elem_of_cons in Hnot as [Hne Hnot].
  unfold cleanup_fs in *. simpl. rewrite IH by done.
  destruct (unlink_error w (file_path file)); [done|]. by apply lookup_delete_ne.
Qed.

Lemma touches_only_cleanup (w : World) (files : list UploadedFile) :
  touches_only (file_path <$> files) (cleanupUploadedFiles w files).
Proof.
  intros st p. destruct (cleanup_spec w files st) as (st' & -> & _ & Hfs).
  simpl. rewrite Hfs.
  destruct (decide (p ∈ file_path <$> files)) as [Hin|Hnot].
  - destruct (cleanup_fs_lookup w files (fs st) p) as [H|H]; [right; done | left; done].
  - left. by apply cleanup_fs_frame.
Qed.

(** X6. Cleanup creates no file and removes nothing but the listed paths:
    every path of the upload directory is either as it was, or is one of the
    listed paths and is gone. *)
Theorem cleanup_touches_only_listed (w : World) (files : list UploadedFile) :
  touches_only (file_path <$> files) (cleanupUploadedFiles w files).
Proof.
  intros st p. destruct (cleanup_spec w files st) as (st' & -> & _ & Hfs).
  simpl. rewrite Hfs.
  destruct (decide (p ∈ file_path <$> files)) as [Hin|Hnot].
  - destruct (cleanup_fs_lookup w files (fs st) p) as [H|H]; [right; done | left; done].
  - left. by apply cleanup_fs_frame.
Qed.

Lemma cleanup_fs_idempotent (w : World) (files : list UploadedFile)
    (dir : gmap string string) :
  cleanup_fs w files (cleanup_fs w files dir) = cleanup_fs w files dir.
Proof.
  apply map_eq. intros p.
  destruct (decide (p ∈ file_path <$> files)) as [Hin|Hnot];
    [|by rewrite cleanup_fs_frame].
  destruct (unlink_error w p) as [e|] eqn:Herr.
  - by rewrite cleanup_fs_keeps.
  - apply list_elem_of_fmap in Hin as (file & -> & Hin).
    by rewrite !cleanup_fs_removes.
Qed.

(** X7. Cleanup passes over files that are no longer there: when none of the
    handles has its file in the upload directory, as when an exception
    follows a cleanup that removed them all, cleanup attempts no deletion,
    writes nothing to the console and leaves the state as it is, whatever
    [fs.unlinkSync] would do. *)
Theorem cleanup_skips_absent_files (w : World) (files : list UploadedFile) (st : St) :
  (forall file, file ∈ files -> fs st !! file_path file = None) ->
  cleanupUploadedFiles w files st = (Normal tt, st).
Proof.
  induction files as [|file rest IH]; intros Habsent.
  - reflexivity.
  - rewrite cleanup_step.
    rewrite (Habsent file) by apply list_elem_of_here.
    assert (match unlink_error w (file_path file) with
            | Some _ => fs st
            | None => delete (file_path file) (fs st)
            end = fs st) as ->.
    { destruct (unlink_error w (file_path file)); [done|].
      apply delete_id. apply Habsent, list_elem_of_here. }
    rewrite app_nil_r.
    replace {| fs := fs st; outbound := outbound st; console := console st |} with st
      by (by destruct st).
    apply IH. intros f Hin. apply Habsent. by apply list_elem_of_further.
Qed.

Lemma cleanup_skips_absent_files_witness :
  let w := {| now_iso := "2024-01-01T00:00:00.000Z";
              axios_post := fun _ => Throw (new_Error "offline");
              predictions_create := fun _ => Throw (new_Error "offline");
              replicate_wait := fun _ _ => Throw (new_Error "offline");
              unlink_error := fun _ => Some (new_Error "EPERM: operation not permitted") |} in
  cleanupUploadedFiles w [sample_file]
    {| fs := ∅; outbound := []; console := [LogCleanedUp (file_filename sample_file)] |}
  = (Normal tt,
     {| fs := ∅; outbound := []; console := [LogCleanedUp (file_filename sample_file)] |}).
Proof.
  intros w. apply cleanup_skips_absent_files.
  intros file Hin. reflexivity.
Defined.

Lemma cleanup_console_grows (w : World) (files : list UploadedFile) (st : St) :
  exists entries, console (cleanupUploadedFiles w files st).2 = (console st ++ entries)%list.
Proof.
  revert st. induction files as [|file rest IH]; intros st.
  - exists []. by rewrite app_nil_r.
  - rewrite cleanup_step. edestruct IH as [entries ->]. simpl.
    rewrite <- app_assoc. eauto.
Qed.

(** X8. A deletion that fails is reported and nothing more: when
    [fs.unlinkSync] raises [e] on an uploaded file that exists, cleanup still
    completes normally, the file is still there, and the console holds the
    error entry naming the file and [e]. *)
Theorem failed_deletion_is_logged (w : World) (files : list UploadedFile) (st : St)
    (file : UploadedFile) (contents : string) (e : JsError) :
  file ∈ files ->
  fs st !! file_path file = Some contents ->
  unlink_error w (file_path file) = Some e ->
  (cleanupUploadedFiles w files st).1 = Normal tt
  /\ fs (cleanupUploadedFiles w files st).2 !! file_path file = Some contents
  /\ ErrDeleting (file_filename file) e ∈ console (cleanupUploadedFiles w files st).2.
Proof.
  intros Hin Hthere Herr. split; [|split].
  - by destruct (cleanup_spec w files st) as (st' & -> & _).
  - destruct (cleanup_spec w files st) as (st' & -> & _ & Hfs). simpl.
    rewrite Hfs, cleanup_fs_keeps by (by eexists). done.
  - revert st Hthere. induction files as [|first rest IH]; intros st Hthere.
    { by apply elem_of_nil in Hin. }
    rewrite cleanup_step. apply elem_of_cons in Hin as [<-|Hin].
    + rewrite Hthere, Herr.
      match goal with
      | |- _ ∈ console (cleanupUploadedFiles w rest ?s).2 =>
          destruct (cleanup_console_grows w rest s) as [entries ->]
      end.
      simpl. rewrite !elem_of_app, list_elem_of_singleton. by left; right.
    + apply IH; [done|]. simpl.
      destruct (unlink_error w (file_path first)) eqn:Hfirst; [done|].
      rewrite lookup_delete_ne; [done|]. intros Heq. congruence.
Qed.

Lemma failed_deletion_is_logged_witness :
  let w := {| now_iso := "2024-01-01T00:00:00.000Z";
              axios_post := fun _ => Throw (new_Error "offline");
              predictions_create := fun _ => Throw (new_Error "offline");
              replicate_wait := fun _ _ => Throw (new_Error "offline");
              unlink_error := fun _ => Some (new_Error "EPERM: operation not permitted") |} in
  (cleanupUploadedFiles w [sample_file] sample_state).1 = Normal tt
  /\ fs (cleanupUploadedFiles w [sample_file] sample_state).2 !! file_path sample_file
     = Some "JFIF."
  /\ ErrDeleting (file_filename sample_file) (new_Error "EPERM: operation not permitted")
     ∈ console (cleanupUploadedFiles w [sample_file] sample_state).2.
Proof.
  intros w. apply (failed_deletion_is_logged w [sample_file] sample_state sample_file);
    [apply list_elem_of_here | reflexivity | reflexivity].
Defined.

(** ** More on the generation handler *)

Lemma bindM_normal_inv {A B : Type} (m : M A) (f : A -> M B) (st st' : St) (b : B) :
  bindM m f st = (Normal b, st') ->
  exists a s, m st = (Normal a, s) /\ f a s = (Normal b, st').
Proof.
  unfold bindM. destruct (m st) as [[a|e] s]; [eauto | discriminate].
Qed.

(** A response of the [try] block is a 200, the 400 of the missing files or
    the 500 of the missing key. *)
Lemma generateBabyImage_try_status (env : gmap string string) (w : World)
    (req : Request) (st st1 : St) (r : Response) :
  generateBabyImage_try env w req st = (Normal r, st1) ->
  res_status r = 200 \/ res_status r = 400 \/ res_status r = 500.
Proof.
  destruct (req_files req) as [[|file rest]|] eqn:Hfiles;
    try (unfold generateBabyImage_try; rewrite Hfiles; intros [= <- ?]; auto).
  destruct (truthy (of_slot (env !! "OPENAI_API_KEY"))) eqn:Hkey.
  - destruct (strict_eq_str (of_slot (env !! "DEMO_MODE")) "true") eqn:Hdemo.
    + unfold generateBabyImage_try. rewrite Hfiles, Hkey, Hdemo. cbn [negb].
      rewrite log_then. intros H.
      apply bindM_normal_inv in H as (_ & s & _ & [= <- ?]). auto.
    + rewrite (generateBabyImage_try_generates env w req (file :: rest) st) by done.
      destruct (field_text _) as [key|]; [|discriminate]. cbv zeta. intros H.
      apply bindM_normal_inv in H as (response & s & _ & H).
      apply bindM_normal_inv in H as (_ & s2 & _ & H).
      unfold send_generated in H. destruct (body_or _ _); try discriminate.
      apply bindM_normal_inv in H as (url & s3 & _ & [= <- ?]). auto.
  - unfold generateBabyImage_try. rewrite Hfiles, Hkey. cbn [negb].
    rewrite log_then. intros [= <- ?]. auto.
Qed.

(** X9. Whenever the handler answers, it is with one of five statuses: 200,
    400, 402, 429 or 500. *)
Theorem generateBabyImage_status_codes (env : gmap string string) (w : World)
    (req : Request) (st st' : St) (r : Response) :
  generateBabyImage env w req st = (Normal r, st') ->
  res_status r ∈ [200; 400; 402; 429; 500].
Proof.
  unfold generateBabyImage, try_catch.
  destruct (generateBabyImage_try env w req st) as [[r1|e] st1] eqn:Htry.
  - intros [= <- _].
    destruct (generateBabyImage_try_status _ _ _ _ _ _ Htry) as [Hs | [Hs | Hs]];
      rewrite Hs; set_solver.
  - destruct (generateBabyImage_catch_run w req e st1) as (st2 & -> & _).
    intros [= <- _].
    unfold translate_error. repeat case_match; simpl; set_solver.
Qed.

Lemma generateBabyImage_status_codes_witness :
  exists r st',
    generateBabyImage {[ "OPENAI_API_KEY" := "sk-test" ]}
      (sample_world (Throw (sample_error 402 VNull)) (new_Error "offline"))
      sample_request sample_state = (Normal r, st')
    /\ res_status r = 402
    /\ res_status r ∈ [200; 400; 402; 429; 500].
Proof.
  eexists _, _. split; [vm_compute; reflexivity|]. split; [reflexivity|].
  eapply (generateBabyImage_status_codes {[ "OPENAI_API_KEY" := "sk-test" ]}
            (sample_world (Throw (sample_error 402 VNull)) (new_Error "offline"))
            sample_request sample_state).
  vm_compute. reflexivity.
Defined.

(** X10. The handler reads one form field only, and reads an empty
    [transformationType] as [baby_blur]: two requests with the same files
    whose [transformationType] fields agree after that defaulting are handled
    identically, whatever else their bodies hold. *)
Theorem only_transformationType_is_read (env : gmap string string) (w : World)
    (req1 req2 : Request) (st : St) :
  req_files req1 = req_files req2 ->
  body_or (req_body req1 !! "transformationType") "baby_blur"
  = body_or (req_body req2 !! "transformationType") "baby_blur" ->
  generateBabyImage env w req1 st = generateBabyImage env w req2 st.
Proof.
  intros Hfiles Htype.
  unfold generateBabyImage, generateBabyImage_try, generateBabyImage_catch.
  by rewrite Hfiles, Htype.
Qed.

Lemma only_transformationType_is_read_witness :
  generateBabyImage {[ "OPENAI_API_KEY" := "sk-test" ]}
    (sample_world (Throw (sample_error 429 VNull)) (new_Error "offline"))
    {| req_files := Some [sample_file];
       req_body := {[ "transformationType" := FStr ""; "note" := FStr "hello" ]} |}
    sample_state
  = generateBabyImage {[ "OPENAI_API_KEY" := "sk-test" ]}
      (sample_world (Throw (sample_error 429 VNull)) (new_Error "offline"))
      {| req_files := Some [sample_file];
         req_body := {[ "transformationType" := FStr "baby_blur" ]} |}
      sample_state.
Proof. apply only_transformationType_is_read; [reflexivity | vm_compute; reflexivity]. Defined.

Lemma other_provider_names_mean_default_outbound (env : gmap string string) (w : World)
    (req : Request) (files : list UploadedFile) (st : St) :
  req_files req = Some files -> files <> [] ->
  truthy (of_slot (env !! "OPENAI_API_KEY")) = true ->
  strict_eq_str (of_slot (env !! "DEMO_MODE")) "true" = false ->
  or_default (env !! "AI_PROVIDER") "openai" <> "replicate" ->
  outbound (generateBabyImage env w req st).2
  = (outbound st ++
       match field_text (body_or (req_body req !! "transformationType") "baby_blur") with
       | Some key => [OutAxiosPost (openai_request env (generatePrompt key (length files)))]
       | None => []
       end)%list.
Proof.
  intros Hfiles Hne Hkey Hdemo Hprov.
  rewrite generateBabyImage_outbound, Hfiles.
  destruct files as [|file rest]; [done|].
  unfold provider_calls. rewrite Hkey, Hdemo. cbn [negb].
  apply String.eqb_neq in Hprov. by rewrite Hprov.
Qed.

(** X11. Provider selection is an exact match: with a key, demo mode off and
    at least one file, any [AI_PROVIDER] other than the text [replicate]
    (absent, empty, differently cased, misspelt) sends exactly one request,
    to the default provider, carrying the prompt of the transformation; the
    one exception is a [transformationType] that cannot be converted to a key
    (an object), for which nothing is sent. *)
Theorem other_provider_names_mean_default (env : gmap string string) (w : World)
    (req : Request) (files : list UploadedFile) (st : St) :
  req_files req = Some files -> files <> [] ->
  truthy (of_slot (env !! "OPENAI_API_KEY")) = true ->
  strict_eq_str (of_slot (env !! "DEMO_MODE")) "true" = false ->
  or_default (env !! "AI_PROVIDER") "openai" <> "replicate" ->
  outbound (generateBabyImage env w req st).2
  = (outbound st ++
       match field_text (body_or (req_body req !! "transformationType") "baby_blur") with
       | Some key => [OutAxiosPost (openai_request env (generatePrompt key (length files)))]
       | None => []
       end)%list.
Proof.
  intros Hfiles Hne Hkey Hdemo Hprov.
  rewrite generateBabyImage_outbound, Hfiles.
  destruct files as [|file rest]; [done|].
  unfold provider_calls. rewrite Hkey, Hdemo. cbn [negb].
  apply String.eqb_neq in Hprov. by rewrite Hprov.
Qed.

Lemma other_provider_names_mean_default_witness :
  outbound
    (generateBabyImage {[ "OPENAI_API_KEY" := "sk-test"; "AI_PROVIDER" := "Replicate" ]}
       (sample_world (Throw (sample_error 429 VNull)) (new_Error "offline"))
       sample_request sample_state).2
  = [OutAxiosPost
       (openai_request {[ "OPENAI_API_KEY" := "sk-test"; "AI_PROVIDER" := "Replicate" ]}
          (VStr prompt_baby_blur))].
Proof.
  rewrite (other_provider_names_mean_default _ _ _ [sample_file]);
    [vm_compute; reflexivity | reflexivity | discriminate | vm_compute; reflexivity
    | vm_compute; reflexivity | vm_compute; discriminate].
Defined.

(** X12. A successful generation with the default provider: when the field
    [transformationType] is a text (or absent) and the provider answers 2xx
    with a body whose [data] is an array with a first element, the handler
    answers 200 with that element's [url], the prompt, the transformation
    type, and as [provider] the configured name as it is written; the
    uploads are cleaned up and one request went out. *)
Theorem default_provider_success (env : gmap string string) (w : World)
    (req : Request) (files : list UploadedFile) (st : St)
    (transformationType : string) (body first : JsValue) (others : list JsValue) :
  req_files req = Some files -> files <> [] ->
  truthy (of_slot (env !! "OPENAI_API_KEY")) = true ->
  strict_eq_str (of_slot (env !! "DEMO_MODE")) "true" = false ->
  or_default (env !! "AI_PROVIDER") "openai" <> "replicate" ->
  body_or (req_body req !! "transformationType") "baby_blur" = FStr transformationType ->
  let prompt := generatePrompt transformationType (length files) in
  axios_post w (openai_request env prompt) = Normal body ->
  member body "data" = VArr (first :: others) ->
  first <> VUndefined -> first <> VNull ->
  exists st',
    generateBabyImage env w req st =
      (Normal (respond 200
         (VObj [ ("success", VBool true);
                 ("message", VStr (replace_first_underscore transformationType
                                   +:+ " transformation generated successfully!"));
                 ("data", VObj
                    [ ("imageUrl", member first "url");
                      ("prompt", prompt);
                      ("transformationType", VStr transformationType);
                      ("timestamp", VStr (now_iso w));
                      ("provider", VStr (or_default (env !! "AI_PROVIDER") "openai")) ]) ])),
       st')
    /\ outbound st' = (outbound st ++ [OutAxiosPost (openai_request env prompt)])%list
    /\ fs st' = cleanup_fs w files (fs st).
Proof.
  intros Hfiles Hne Hkey Hdemo Hprov Hfield prompt Hpost Hdata Hu Hn.
  apply String.eqb_neq in Hprov.
  unfold generateBabyImage, try_catch.
  rewrite (generateBabyImage_try_generates env w req files st) by done.
  rewrite Hfield. cbn [field_text]. cbv zeta. rewrite Hprov.
  unfold callOpenAIAPI. cbv zeta. fold prompt. rewrite Hpost.
  unfold bindM at 1. unfold bindM at 1. unfold send at 1. unfold settle at 1. cbn [fst snd].
  unfold bindM at 1. step_cleanup.
  assert (member_strict body "data" = ret (VArr (first :: others))) as Hmember.
  { destruct body; simpl in Hdata; try discriminate. simpl. by rewrite Hdata. }
  assert (member_strict first "url" = ret (member first "url")) as Hurl
    by (by destruct first).
  unfold send_generated. rewrite Hprov.
  unfold bindM at 1. unfold bindM at 1. rewrite Hmember. unfold ret at 1.
  unfold bindM at 1. simpl index0_strict. unfold ret at 1. rewrite Hurl. unfold ret.
  exists st'. split; [reflexivity|]. split; [|done].
  rewrite Hout. reflexivity.
Qed.

Lemma default_provider_success_witness :
  exists st',
    generateBabyImage {[ "OPENAI_API_KEY" := "sk-test"; "AI_PROVIDER" := "dalle" ]}
      (sample_world
         (Normal (VObj [("data", VArr [VObj [("url", VStr "https://img.example/1.png")]])]))
         (new_Error "offline"))
      sample_request sample_state =
      (Normal (respond 200
         (VObj [ ("success", VBool true);
                 ("message", VStr "baby blur transformation generated successfully!");
                 ("data", VObj
                    [ ("imageUrl", VStr "https://img.example/1.png");
                      ("prompt", VStr prompt_baby_blur);
                      ("transformationType", VStr "baby_blur");
                      ("timestamp", VStr "2024-01-01T00:00:00.000Z");
                      ("provider", VStr "dalle") ]) ])),
       st')
    /\ fs st' !! file_path sample_file = None.
Proof.
  edestruct (default_provider_success
               {[ "OPENAI_API_KEY" := "sk-test"; "AI_PROVIDER" := "dalle" ]}
               (sample_world
                  (Normal (VObj [("data", VArr [VObj [("url", VStr "https://img.example/1.png")]])]))
                  (new_Error "offline"))
               sample_request [sample_file] sample_state "baby_blur")
    as (st' & Hrun & _ & Hfs);
    [reflexivity | discriminate | vm_compute; reflexivity | vm_compute; reflexivity
    | vm_compute; discriminate | reflexivity | reflexivity | reflexivity
    | discriminate | discriminate |].
  exists st'. split; [exact Hrun|]. rewrite Hfs. vm_compute. reflexivity.
Defined.

Lemma translate_error_without_response (e : JsError) :
  err_response e = None ->
  translate_error e
  = respond 500 (error_envelope "Image generation failed"
                   (VStr "Unable to generate baby selfie. Please try again")).
Proof. intros H. unfold translate_error. by rewrite H. Qed.

(** Reading [data[0].url] off an answer without a first datum throws. *)
Lemma first_url_throws (body : JsValue) (s : St) :
  member body "data" = VUndefined \/ member body "data" = VNull
  \/ member body "data" = VArr [] ->
  exists e,
    (let* data := member_strict body "data" in
     let* first := index0_strict data in
     member_strict first "url") s = (Throw e, s)
    /\ err_response e = None.
Proof.
  intros Hdata. unfold bindM.
  destruct body; simpl in *;
    try (eexists; split; [reflexivity|reflexivity]);
    destruct Hdata as [-> | [-> | ->]]; simpl;
    eexists; split; reflexivity.
Qed.

(** X13. A 2xx answer of the default provider that carries no first datum
    ([data] absent, [null] or an empty array) is answered 500 "Image
    generation failed", although the provider was called and has answered;
    the uploads are cleaned up. *)
Theorem answer_without_first_datum_is_500 (env : gmap string string) (w : World)
    (req : Request) (files : list UploadedFile) (st : St) (key : string) (body : JsValue) :
  req_files req = Some files -> files <> [] ->
  truthy (of_slot (env !! "OPENAI_API_KEY")) = true ->
  strict_eq_str (of_slot (env !! "DEMO_MODE")) "true" = false ->
  or_default (env !! "AI_PROVIDER") "openai" <> "replicate" ->
  field_text (body_or (req_body req !! "transformationType") "baby_blur") = Some key ->
  let prompt := generatePrompt key (length files) in
  axios_post w (openai_request env prompt) = Normal body ->
  member body "data" = VUndefined \/ member body "data" = VNull
  \/ member body "data" = VArr [] ->
  exists st',
    generateBabyImage env w req st =
      (Normal (respond 500 (error_envelope "Image generation failed"
                              (VStr "Unable to generate baby selfie. Please try again"))), st')
    /\ outbound st' = (outbound st ++ [OutAxiosPost (openai_request env prompt)])%list
    /\ fs st' = cleanup_fs w files (fs st).
Proof.
  intros Hfiles Hne Hkey Hdemo Hprov Htext prompt Hpost Hdata.
  pose proof Hprov as Hneq. apply String.eqb_neq in Hprov.
  assert (exists e st1,
             generateBabyImage_try env w req st = (Throw e, st1)
             /\ err_response e = None
             /\ fs st1 = cleanup_fs w files (fs st)) as (e & st1 & Htry & Hnone & Hfs1).
  { rewrite (generateBabyImage_try_generates env w req files st) by done.
    rewrite Htext. cbv zeta. rewrite Hprov.
    unfold callOpenAIAPI. cbv zeta. fold prompt. rewrite Hpost.
    unfold bindM at 1. unfold bindM at 1. unfold send at 1. unfold settle at 1.
    cbn [fst snd]. unfold bindM at 1. step_cleanup.
    unfold send_generated. rewrite Hprov.
    destruct (body_or _ _) as [text|items|entries]; try by eauto.
    destruct (first_url_throws body st' Hdata) as (e & Hchain & Hnone).
    exists e, st'. rewrite (bindM_throw _ _ _ _ _ Hchain). done. }
  unfold generateBabyImage. rewrite (try_catch_throw _ _ _ _ _ Htry).
  destruct (generateBabyImage_catch_run w req e st1) as (st' & Hrun & Hout & Hfs).
  exists st'. rewrite Hrun, translate_error_without_response by done.
  split; [done|]. split.
  - subst prompt.
    pose proof (other_provider_names_mean_default_outbound env w req files st
                  Hfiles Hne Hkey Hdemo Hneq) as Hcalls.
    rewrite Htext in Hcalls. rewrite <- Hcalls.
    unfold generateBabyImage. by rewrite (try_catch_throw _ _ _ _ _ Htry), Hrun.
  - rewrite Hfs, Hfiles, Hfs1. apply cleanup_fs_idempotent.
Qed.

Lemma answer_without_first_datum_is_500_witness :
  exists st',
    generateBabyImage {[ "OPENAI_API_KEY" := "sk-test" ]}
      (sample_world (Normal (VObj [("data", VArr [])])) (new_Error "offline"))
      sample_request sample_state =
      (Normal (respond 500 (error_envelope "Image generation failed"
                              (VStr "Unable to generate baby selfie. Please try again"))), st')
    /\ fs st' !! file_path sample_file = None.
Proof.
  edestruct (answer_without_first_datum_is_500 {[ "OPENAI_API_KEY" := "sk-test" ]}
               (sample_world (Normal (VObj [("data", VArr [])])) (new_Error "offline"))
               sample_request [sample_file] sample_state "baby_blur")
    as (st' & Hrun & _ & Hfs);
    [reflexivity | discriminate | vm_compute; reflexivity | vm_compute; reflexivity
    | vm_compute; discriminate | reflexivity | reflexivity | right; right; reflexivity |].
  exists st'. split; [exact Hrun|]. rewrite Hfs. vm_compute. reflexivity.
Defined.

(** ** More on the prediction provider *)

(** A prediction that succeeds with an output. *)
Lemma callReplicateAPI_success (env : gmap string string) (w : World)
    (prompt : JsValue) (files : list UploadedFile) (s : St)
    (prediction final : Prediction) (url : JsValue) (others : list JsValue) :
  truthy (of_slot (env !! "REPLICATE_API_TOKEN")) = true ->
  strict_eq_str (of_slot (env !! "REPLICATE_API_TOKEN")) "your_replicate_token_here" = false ->
  let auth := env_text env "REPLICATE_API_TOKEN" in
  predictions_create w (replicate_request auth prompt) = Normal prediction ->
  replicate_wait w auth prediction = Normal final ->
  pred_status final = "succeeded" ->
  pred_output final = Some (url :: others) ->
  exists s',
    callReplicateAPI env w prompt files s = (Normal url, s')
    /\ fs s' = fs s
    /\ outbound s'
       = (outbound s ++ [OutPredictionsCreate (replicate_request auth prompt);
                         OutWait auth prediction])%list.
Proof.
  intros Htoken Hplace auth Hcreate Hwait Hstatus Houtput.
  rewrite callReplicateAPI_configured by done.
  unfold callReplicateAPI_try. fold auth. run.
  rewrite Hcreate. simpl. rewrite Hwait. simpl. rewrite Hstatus, Houtput. simpl.
  eexists. split; [reflexivity|]. simpl. split; [done|]. by rewrite <- app_assoc.
Qed.

(** A prediction that ends otherwise. *)
Lemma callReplicateAPI_not_succeeded (env : gmap string string) (w : World)
    (prompt : JsValue) (files : list UploadedFile) (s : St)
    (prediction final : Prediction) :
  truthy (of_slot (env !! "REPLICATE_API_TOKEN")) = true ->
  strict_eq_str (of_slot (env !! "REPLICATE_API_TOKEN")) "your_replicate_token_here" = false ->
  let auth := env_text env "REPLICATE_API_TOKEN" in
  predictions_create w (replicate_request auth prompt) = Normal prediction ->
  replicate_wait w auth prediction = Normal final ->
  pred_status final <> "succeeded" \/ pred_output final = None
  \/ pred_output final = Some [] ->
  includes "ReadableStream" ("Prediction failed with status: " +:+ pred_status final) = false ->
  exists s',
    callReplicateAPI env w prompt files s
    = (Throw (new_Error ("Prediction failed with status: " +:+ pred_status final)), s').
Proof.
  intros Htoken Hplace auth Hcreate Hwait Hnot Hmarker.
  assert (exists s0 s1,
             callReplicateAPI_try w auth prompt s0
             = (Throw (new_Error ("Prediction failed with status: " +:+ pred_status final)), s1))
    as (s0 & s1 & Htry).
  { exists s. unfold callReplicateAPI_try. run.
    rewrite Hcreate. simpl. rewrite Hwait. simpl.
    destruct Hnot as [Hstatus | [-> | ->]].
    - apply String.eqb_neq in Hstatus. rewrite Hstatus. eauto.
    - destruct (pred_status final =? "succeeded")%string; eauto.
    - destruct (pred_status final =? "succeeded")%string; eauto. }
  destruct (callReplicateAPI_stream_defect env w prompt files s0 s1 s _ Htoken Hplace Htry)
    as (s' & Hcall).
  exists s'. rewrite Hcall. cbn [err_message new_Error]. by rewrite Hmarker.
Qed.

(** What follows a provider call that throws: the translated error, after
    cleanup. *)
Lemma provider_failure_answer (env : gmap string string) (w : World)
    (req : Request) (files : list UploadedFile) (st : St) (key : string) (s' : St)
    (e : JsError) :
  req_files req = Some files -> files <> [] ->
  truthy (of_slot (env !! "OPENAI_API_KEY")) = true ->
  strict_eq_str (of_slot (env !! "DEMO_MODE")) "true" = false ->
  field_text (body_or (req_body req !! "transformationType") "baby_blur") = Some key ->
  (if (or_default (env !! "AI_PROVIDER") "openai" =? "replicate")%string
   then callReplicateAPI env w (generatePrompt key (length files)) files
   else callOpenAIAPI env w (generatePrompt key (length files)) files)
    {| fs := fs st; outbound := outbound st;
       console := ((console st ++ [LogGenerating key (length files)])
                     ++ [LogPrompt (generatePrompt key (length files))])
                    ++ [LogProvider (or_default (env !! "AI_PROVIDER") "openai")] |}
  = (Throw e, s') ->
  exists st',
    generateBabyImage env w req st = (Normal (translate_error e), st')
    /\ fs st' = cleanup_fs w files (fs st)
    /\ outbound st' = outbound s'.
Proof.
  intros Hfiles Hne Hkey Hdemo Htext Hcall.
  pose proof (generateBabyImage_try_provider_throws env w req files st s' key e
                Hfiles Hne Hkey Hdemo Htext Hcall) as Htry.
  assert (fs s' = fs st) as Hfs'.
  { match type of Hcall with
    | ?m ?s = _ =>
        assert (keeps_files m) as Hkeep
          by (destruct (or_default (env !! "AI_PROVIDER") "openai" =? "replicate")%string;
              [apply keeps_callReplicateAPI | apply keeps_callOpenAIAPI]);
        specialize (Hkeep s); by rewrite Hcall in Hkeep
    end. }
  unfold generateBabyImage. rewrite (try_catch_throw _ _ _ _ _ Htry).
  destruct (generateBabyImage_catch_run w req e s') as (st' & Hrun & Hout & Hfs).
  exists st'. split; [done|]. split; [|done]. by rewrite Hfs, Hfiles, Hfs'.
Qed.

(** What follows a [transformationType] that cannot be converted to a key:
    the generic 500, after cleanup, without any call. *)
Lemma unconvertible_type_answer (env : gmap string string) (w : World)
    (req : Request) (files : list UploadedFile) (st : St) :
  req_files req = Some files -> files <> [] ->
  truthy (of_slot (env !! "OPENAI_API_KEY")) = true ->
  strict_eq_str (of_slot (env !! "DEMO_MODE")) "true" = false ->
  field_text (body_or (req_body req !! "transformationType") "baby_blur") = None ->
  exists st',
    generateBabyImage env w req st =
      (Normal (respond 500 (error_envelope "Image generation failed"
                              (VStr "Unable to generate baby selfie. Please try again"))), st')
    /\ fs st' = cleanup_fs w files (fs st)
    /\ outbound st' = outbound st.
Proof.
  intros Hfiles Hne Hkey Hdemo Htext.
  unfold generateBabyImage, try_catch.
  rewrite (generateBabyImage_try_generates env w req files st) by done.
  rewrite Htext.
  destruct (generateBabyImage_catch_run w req
              (new_TypeError "Cannot convert object to primitive value") st)
    as (st' & Hrun & Hout & Hfs).
  exists st'. rewrite Hrun. split; [reflexivity|]. split; [|done]. by rewrite Hfs, Hfiles.
Qed.

(** X14. A successful generation with the prediction provider: when the
    field [transformationType] is a text (or absent), the prediction is
    created, reaches [succeeded] and has an output, the handler answers 200
    with the first output as [imageUrl] and [replicate] as provider; two
    calls went out (create, wait) and the uploads are cleaned up. *)
Theorem prediction_provider_success (env : gmap string string) (w : World)
    (req : Request) (files : list UploadedFile) (st : St) (transformationType : string)
    (prediction final : Prediction) (url : JsValue) (others : list JsValue) :
  req_files req = Some files -> files <> [] ->
  truthy (of_slot (env !! "OPENAI_API_KEY")) = true ->
  strict_eq_str (of_slot (env !! "DEMO_MODE")) "true" = false ->
  or_default (env !! "AI_PROVIDER") "openai" = "replicate" ->
  truthy (of_slot (env !! "REPLICATE_API_TOKEN")) = true ->
  strict_eq_str (of_slot (env !! "REPLICATE_API_TOKEN")) "your_replicate_token_here" = false ->
  body_or (req_body req !! "transformationType") "baby_blur" = FStr transformationType ->
  let prompt := generatePrompt transformationType (length files) in
  let auth := env_text env "REPLICATE_API_TOKEN" in
  predictions_create w (replicate_request auth prompt) = Normal prediction ->
  replicate_wait w auth prediction = Normal final ->
  pred_status final = "succeeded" ->
  pred_output final = Some (url :: others) ->
  exists st',
    generateBabyImage env w req st =
      (Normal (respond 200
         (VObj [ ("success", VBool true);
                 ("message", VStr (replace_first_underscore transformationType
                                   +:+ " transformation generated successfully!"));
                 ("data", VObj
                    [ ("imageUrl", url);
                      ("prompt", prompt);
                      ("transformationType", VStr transformationType);
                      ("timestamp", VStr (now_iso w));
                      ("provider", VStr "replicate") ]) ])),
       st')
    /\ outbound st'
       = (outbound st ++ [OutPredictionsCreate (replicate_request auth prompt);
                          OutWait auth prediction])%list
    /\ fs st' = cleanup_fs w files (fs st).
Proof.
  intros Hfiles Hne Hkey Hdemo Hprov Htoken Hplace Hfield prompt auth
         Hcreate Hwait Hstatus Houtput.
  unfold generateBabyImage, try_catch.
  rewrite (generateBabyImage_try_generates env w req files st) by done.
  rewrite Hfield. cbn [field_text]. cbv zeta. rewrite Hprov, String.eqb_refl.
  fold prompt.
  match goal with
  | |- context [bindM (callReplicateAPI env w prompt ?f) _ ?s] =>
      destruct (callReplicateAPI_success env w prompt f s prediction final url others
                  Htoken Hplace Hcreate Hwait Hstatus Houtput) as (s' & Hcall & Hfs' & Hout')
  end.
  rewrite (bindM_normal _ _ _ _ _ Hcall).
  unfold bindM at 1. step_cleanup. unfold bindM, ret.
  exists st'. split; [reflexivity|]. split.
  - rewrite Hout, Hout'. reflexivity.
  - rewrite Hfs, Hfs'. reflexivity.
Qed.

(** X15. A prediction that ends in any state but [succeeded], or without
    output, is answered 500 "Image generation failed" (its status text not
    containing the stream marker); the uploads are cleaned up. *)
Theorem prediction_not_succeeded_is_500 (env : gmap string string) (w : World)
    (req : Request) (files : list UploadedFile) (st : St) (key : string)
    (prediction final : Prediction) :
  req_files req = Some files -> files <> [] ->
  truthy (of_slot (env !! "OPENAI_API_KEY")) = true ->
  strict_eq_str (of_slot (env !! "DEMO_MODE")) "true" = false ->
  or_default (env !! "AI_PROVIDER") "openai" = "replicate" ->
  truthy (of_slot (env !! "REPLICATE_API_TOKEN")) = true ->
  strict_eq_str (of_slot (env !! "REPLICATE_API_TOKEN")) "your_replicate_token_here" = false ->
  field_text (body_or (req_body req !! "transformationType") "baby_blur") = Some key ->
  let prompt := generatePrompt key (length files) in
  let auth := env_text env "REPLICATE_API_TOKEN" in
  predictions_create w (replicate_request auth prompt) = Normal prediction ->
  replicate_wait w auth prediction = Normal final ->
  pred_status final <> "succeeded" \/ pred_output final = None
  \/ pred_output final = Some [] ->
  includes "ReadableStream" ("Prediction failed with status: " +:+ pred_status final) = false ->
  exists st',
    generateBabyImage env w req st =
      (Normal (respond 500 (error_envelope "Image generation failed"
                              (VStr "Unable to generate baby selfie. Please try again"))), st')
    /\ fs st' = cleanup_fs w files (fs st).
Proof.
  intros Hfiles Hne Hkey Hdemo Hprov Htoken Hplace Htext prompt auth
         Hcreate Hwait Hnot Hmarker.
  edestruct (callReplicateAPI_not_succeeded env w prompt files) as (s' & Hcall); [done..|].
  edestruct (provider_failure_answer env w req files st key s') as (st' & Hrun & Hfs & _);
    [done..| |].
  { rewrite Hprov, String.eqb_refl. exact Hcall. }
  exists st'. rewrite Hrun. split; [|done].
  by rewrite translate_error_without_response.
Qed.

(** X16. With [AI_PROVIDER=replicate] and the token absent, empty or left at
    its placeholder, the request is answered 500 "Image generation failed"
    without any outbound call; the uploads are cleaned up. *)
Theorem missing_replicate_token_is_500 (env : gmap string string) (w : World)
    (req : Request) (files : list UploadedFile) (st : St) :
  req_files req = Some files -> files <> [] ->
  truthy (of_slot (env !! "OPENAI_API_KEY")) = true ->
  strict_eq_str (of_slot (env !! "DEMO_MODE")) "true" = false ->
  or_default (env !! "AI_PROVIDER") "openai" = "replicate" ->
  truthy (of_slot (env !! "REPLICATE_API_TOKEN")) = false
  \/ env !! "REPLICATE_API_TOKEN" = Some "your_replicate_token_here" ->
  exists st',
    generateBabyImage env w req st =
      (Normal (respond 500 (error_envelope "Image generation failed"
                              (VStr "Unable to generate baby selfie. Please try again"))), st')
    /\ outbound st' = outbound st
    /\ fs st' = cleanup_fs w files (fs st).
Proof.
  intros Hfiles Hne Hkey Hdemo Hprov Htoken.
  destruct (field_text (body_or (req_body req !! "transformationType") "baby_blur"))
    as [key|] eqn:Htext.
  - edestruct (provider_failure_answer env w req files st key)
      as (st' & Hrun & Hfs & Hout); [done..| |].
    { rewrite Hprov, String.eqb_refl. unfold callReplicateAPI. cbv zeta.
      assert (negb (truthy (of_slot (env !! "REPLICATE_API_TOKEN")))
              || strict_eq_str (of_slot (env !! "REPLICATE_API_TOKEN"))
                   "your_replicate_token_here" = true) as ->.
      { destruct Htoken as [-> | ->]; [done | reflexivity]. }
      reflexivity. }
    exists st'. rewrite Hrun. split; [by rewrite translate_error_without_response|].
    split; [exact Hout | exact Hfs].
  - destruct (unconvertible_type_answer env w req files st Hfiles Hne Hkey Hdemo Htext)
      as (st' & Hrun & Hfs & Hout).
    exists st'. by rewrite Hrun.
Qed.

Lemma prediction_provider_success_witness :
  exists st',
    generateBabyImage prediction_env
      (prediction_world {| pred_id := "p1"; pred_status := "succeeded";
                           pred_output := Some [VStr "https://replicate.example/out.png"] |})
      sample_request sample_state =
      (Normal (respond 200
         (VObj [ ("success", VBool true);
                 ("message", VStr "baby blur transformation generated successfully!");
                 ("data", VObj
                    [ ("imageUrl", VStr "https://replicate.example/out.png");
                      ("prompt", VStr prompt_baby_blur);
                      ("transformationType", VStr "baby_blur");
                      ("timestamp", VStr "2024-01-01T00:00:00.000Z");
                      ("provider", VStr "replicate") ]) ])),
       st')
    /\ length (outbound st') = 2%nat
    /\ fs st' !! file_path sample_file = None.
Proof.
  edestruct (prediction_provider_success prediction_env
               (prediction_world {| pred_id := "p1"; pred_status := "succeeded";
                                    pred_output := Some [VStr "https://replicate.example/out.png"] |})
               sample_request [sample_file] sample_state "baby_blur")
    as (st' & Hrun & Hout & Hfs);
    [reflexivity | discriminate | vm_compute; reflexivity | vm_compute; reflexivity
    | vm_compute; reflexivity | vm_compute; reflexivity | vm_compute; reflexivity
    | reflexivity | reflexivity | reflexivity | reflexivity | reflexivity |].
  exists st'. split; [exact Hrun|]. split.
  - rewrite Hout. reflexivity.
  - rewrite Hfs. vm_compute. reflexivity.
Defined.

Lemma prediction_not_succeeded_is_500_witness :
  exists st',
    generateBabyImage prediction_env
      (prediction_world {| pred_id := "p1"; pred_status := "failed"; pred_output := None |})
      sample_request sample_state =
      (Normal (respond 500 (error_envelope "Image generation failed"
                              (VStr "Unable to generate baby selfie. Please try again"))), st')
    /\ fs st' !! file_path sample_file = None.
Proof.
  edestruct (prediction_not_succeeded_is_500 prediction_env
               (prediction_world {| pred_id := "p1"; pred_status := "failed";
                                    pred_output := None |})
               sample_request [sample_file] sample_state "baby_blur")
    as (st' & Hrun & Hfs);
    [reflexivity | discriminate | vm_compute; reflexivity | vm_compute; reflexivity
    | vm_compute; reflexivity | vm_compute; reflexivity | vm_compute; reflexivity
    | reflexivity | reflexivity | reflexivity | left; discriminate
    | vm_compute; reflexivity |].
  exists st'. split; [exact Hrun|]. rewrite Hfs. vm_compute. reflexivity.
Defined.

Lemma missing_replicate_token_is_500_witness :
  exists st',
    generateBabyImage
      {[ "OPENAI_API_KEY" := "sk-test"; "AI_PROVIDER" := "replicate";
         "REPLICATE_API_TOKEN" := "your_replicate_token_here" ]}
      (prediction_world {| pred_id := "p1"; pred_status := "succeeded";
                           pred_output := Some [VStr "https://replicate.example/out.png"] |})
      sample_request sample_state =
      (Normal (respond 500 (error_envelope "Image generation failed"
                              (VStr "Unable to generate baby selfie. Please try again"))), st')
    /\ outbound st' = []
    /\ fs st' !! file_path sample_file = None.
Proof.
  edestruct (missing_replicate_token_is_500
               {[ "OPENAI_API_KEY" := "sk-test"; "AI_PROVIDER" := "replicate";
                  "REPLICATE_API_TOKEN" := "your_replicate_token_here" ]}
               (prediction_world {| pred_id := "p1"; pred_status := "succeeded";
                                    pred_output := Some [VStr "https://replicate.example/out.png"] |})
               sample_request [sample_file] sample_state)
    as (st' & Hrun & Hout & Hfs);
    [reflexivity | discriminate | vm_compute; reflexivity | vm_compute; reflexivity
    | vm_compute; reflexivity | right; vm_compute; reflexivity |].
  exists st'. split; [exact Hrun|]. split; [exact Hout|].
  rewrite Hfs. vm_compute. reflexivity.
Defined.

(** ** The handler and the upload directory *)

Lemma touches_keeps {A : Type} (paths : list string) (m : M A) :
  keeps_files m -> touches_only paths m.
Proof. intros Hm st p. left. by rewrite Hm. Qed.

Lemma touches_bind {A B : Type} (paths : list string) (m : M A) (f : A -> M B) :
  touches_only paths m -> (forall a, touches_only paths (f a)) ->
  touches_only paths (bindM m f).
Proof.
  intros Hm Hf st p. unfold bindM. specialize (Hm st p).
  destruct (m st) as [[a|e] st1]; simpl in *; [|exact Hm].
  destruct (Hf a st1 p) as [Hsame|[Hin Hgone]]; [|by right].
  rewrite Hsame. exact Hm.
Qed.

Lemma touches_try_catch {A : Type} (paths : list string) (m : M A) (h : JsError -> M A) :
  touches_only paths m -> (forall e, touches_only paths (h e)) ->
  touches_only paths (try_catch m h).
Proof.
  intros Hm Hh st p. unfold try_catch. specialize (Hm st p).
  destruct (m st) as [[a|e] st1]; simpl in *; [exact Hm|].
  destruct (Hh e st1 p) as [Hsame|[Hin Hgone]]; [|by right].
  rewrite Hsame. exact Hm.
Qed.

Ltac touches :=
  repeat first
    [ apply touches_only_cleanup
    | apply touches_bind
    | apply touches_try_catch
    | apply touches_keeps;
      first [ apply keeps_callReplicateAPI | apply keeps_callOpenAIAPI | solve [keeps] ]
    | intros ?
    | case_match ].

(** X17. The handler creates no file and removes nothing but the uploads of
    its own request: whatever the configuration, the providers and the
    outcome, every path of the upload directory is afterwards as it was, or
    is the path of one of [req.files] and is gone. *)
Theorem handler_touches_only_own_uploads (env : gmap string string) (w : World)
    (req : Request) :
  touches_only (file_path <$> default [] (req_files req)) (generateBabyImage env w req).
Proof.
  unfold generateBabyImage, generateBabyImage_try, generateBabyImage_catch,
    property_key, send_generated.
  destruct (req_files req) as [files|]; simpl default; cbv zeta.
  - apply touches_try_catch; [destruct files|]; touches.
  - apply touches_try_catch; touches.
Qed.

(** ** Transformation catalog *)

(** X18. The catalog served by [GET /transformations] and the prompt table
    agree: the answer is a 200 listing nine entries with [totalCount] 9, the
    listed ids are pairwise distinct, each has its own prompt, which is what
    [generatePrompt] returns for it, and every prompt of the table is listed. *)
Theorem catalog_matches_prompt_table :
  (forall st, exists r,
      getTransformations st = (Normal r, st)
      /\ res_status r = 200
      /\ member (member (res_body r) "data") "totalCount" = VNum 9
      /\ member (member (res_body r) "data") "transformations"
         = VArr (transformation_json <$> transformations))
  /\ length transformations = 9%nat
  /\ NoDup (tr_id <$> transformations)
  /\ (forall t, t ∈ transformations ->
        exists p, assoc (tr_id t) prompts = Some (VStr p)
                  /\ forall n, generatePrompt (tr_id t) n = VStr p)
  /\ (forall k, is_Some (assoc k prompts) -> k ∈ tr_id <$> transformations).
Proof.
  split; [|split; [|split; [|split]]].
  - intros st. eexists. split; [reflexivity|]. repeat split.
  - reflexivity.
  - apply (bool_decide_unpack _). vm_compute. exact I.
  - apply Forall_forall. unfold transformations.
    repeat (apply Forall_cons; split; [eexists; split; [reflexivity|intros n; reflexivity]|]).
    apply Forall_nil. done.
  - intros k. unfold prompts. simpl assoc.
    repeat match goal with
           | |- context [(k =? ?key)%string] =>
               destruct (String.eqb_spec k key) as [->|_];
               [intros _; unfold transformations; simpl; set_solver|]
           end.
    by intros [? ?].
Qed.

(** ** How many calls go out *)

(** X19. One request never reaches both providers and never makes more than
    two outbound calls: the calls it adds are none, one request to the
    default provider, one prediction creation, or a prediction creation
    followed by one wait for that prediction. *)
Theorem at_most_one_provider_is_called (env : gmap string string) (w : World)
    (req : Request) (st : St) :
  exists calls,
    outbound (generateBabyImage env w req st).2 = (outbound st ++ calls)%list
    /\ (calls = []
        \/ (exists r, calls = [OutAxiosPost r])
        \/ (exists r, calls = [OutPredictionsCreate r])
        \/ (exists r prediction,
               predictions_create w r = Normal prediction
               /\ calls = [OutPredictionsCreate r; OutWait (rc_auth r) prediction])).
Proof.
  rewrite generateBabyImage_outbound. eexists. split; [reflexivity|].
  destruct (req_files req) as [[|file rest]|]; [by left | | by left].
  unfold provider_calls. repeat case_match; eauto 10.
Qed.

(** ** A field that is not a text *)

(** X20. A [transformationType] that is not a text (an array, when the field
    is sent more than once or with a name ending in [[]]; an object, when
    its name carries a key in brackets) never gives a success: with a key,
    demo mode off and at least one file, whatever the provider does, an
    answer of the handler has status 400, 402, 429 or 500. *)
Theorem non_text_type_never_succeeds (env : gmap string string) (w : World)
    (req : Request) (files : list UploadedFile) (st st' : St) (r : Response) :
  req_files req = Some files -> files <> [] ->
  truthy (of_slot (env !! "OPENAI_API_KEY")) = true ->
  strict_eq_str (of_slot (env !! "DEMO_MODE")) "true" = false ->
  (forall text, body_or (req_body req !! "transformationType") "baby_blur" <> FStr text) ->
  generateBabyImage env w req st = (Normal r, st') ->
  res_status r ∈ [400; 402; 429; 500].
Proof.
  intros Hfiles Hne Hkey Hdemo Hfield.
  unfold generateBabyImage, try_catch.
  destruct (generateBabyImage_try env w req st) as [[r1|e] st1] eqn:Htry.
  - exfalso.
    rewrite (generateBabyImage_try_generates env w req files st) in Htry by done.
    destruct (field_text _) as [key|]; [|discriminate]. cbv zeta in Htry.
    apply bindM_normal_inv in Htry as (response & s & _ & Htry).
    apply bindM_normal_inv in Htry as (_ & s2 & _ & Htry).
    unfold send_generated in Htry.
    destruct (body_or _ _) as [text|items|entries]; try discriminate.
    by apply (Hfield text).
  - destruct (generateBabyImage_catch_run w req e st1) as (st2 & -> & _).
    intros [= <- _].
    unfold translate_error. repeat case_match; simpl; set_solver.
Qed.

Lemma non_text_type_never_succeeds_witness :
  exists r st',
    generateBabyImage {[ "OPENAI_API_KEY" := "sk-test" ]}
      (sample_world
         (Normal (VObj [("data", VArr [VObj [("url", VStr "https://img.example/1.png")]])]))
         (new_Error "offline"))
      repeated_type_request sample_state = (Normal r, st')
    /\ res_status r = 500
    /\ length (outbound st') = 1%nat
    /\ res_status r ∈ [400; 402; 429; 500].
Proof.
  eexists _, _. split; [vm_compute; reflexivity|].
  split; [reflexivity|]. split; [reflexivity|].
  eapply (non_text_type_never_succeeds {[ "OPENAI_API_KEY" := "sk-test" ]}
            (sample_world
               (Normal (VObj [("data", VArr [VObj [("url", VStr "https://img.example/1.png")]])]))
               (new_Error "offline"))
            repeated_type_request [sample_file] sample_state);
    [reflexivity | discriminate | vm_compute; reflexivity | vm_compute; reflexivity
    | intros text; vm_compute; discriminate | vm_compute; reflexivity].
Defined.
